(** * Recipe recommendation backend: embedding pipeline, vector store,
      cooking assistant and data processor.

    A shallow embedding of the Python sources under
    [src/backend/embedding_pipeline/]:
    - [embedding_generator.py]  (module [EmbeddingGenerator]),
    - [vector_db.py]            (modules [VectorDB], [CookingAssistant]),
    - [data_processor.py]       (module [DataProcessor]),
    and of two of their callers, [src/backend/recipe_search.py] (module
    [RecipeSearch]) and the chat route of [src/backend/app/api.py] (module
    [Api]).

    Python values are a small inductive type, exceptions are values of a
    result type, and the stateful code (remote requests, sleeps, the
    checkpoint file, the database transaction) runs in explicit state-passing
    style with a trace of the observable events.

    What lies outside the repository is an oracle of the environment: the
    remote API answers each request as it likes, the file system lets each
    write of the checkpoint go through, refuses it or tears the file, and
    the database engine fails any statement it likes, [ROLLBACK] included.
    Of the libraries, the model keeps what the code depends on: of numpy
    that [np.array] raises on rows of different shapes, of pandas the
    dtypes under which a frame holds its cells and hands out its rows, of
    the engine the table as [create_tables] declares it. *)

From Stdlib Require Import List ZArith String Ascii Bool Lia Arith.
From Stdlib Require Import DecimalString.
Import ListNotations.

Local Open Scope Z_scope.

(* ================================================================== *)
(** ** Python values, exceptions and a few builtins *)
(* ================================================================== *)

Module Py.

(** A Python [float].  A finite float is carried by its [repr]; the
    development never computes with finite floats, it only moves them
    around, tests them with [math.isnan] and prints them. *)
Inductive pyfloat : Type :=
| FNaN
| FInf (negative : bool)
| FFin (repr : string).

Definition zero_float : pyfloat := FFin "0.0".

Definition isnan (f : pyfloat) : bool :=
  match f with FNaN => true | _ => false end.

(** The values that flow through the pipeline: JSON-like data, tuples and
    opaque objects (a numpy array, say) that [json.dumps] refuses. *)
#[warnings="-register-all"]
Inductive pyval : Type :=
| PyNone
| PyBool (b : bool)
| PyInt (z : Z)
| PyFloat (f : pyfloat)
| PyStr (s : string)
| PyList (l : list pyval)
| PyTuple (l : list pyval)
| PyDict (d : list (string * pyval))
| PyObj (type_name : string).

(** Exception classes.  [HTTPError], [ConnectionError], [Timeout] and
    [JSONDecodeError] are the subclasses of
    [requests.exceptions.RequestException] that the requests library
    raises; [OSError], [EOFError] and [PickleError] are what [open],
    [pickle.dump] and [pickle.load] raise; [ImportError] is what an
    [import] of a missing module raises.  Everything here derives from
    [Exception]; asynchronous [BaseException]s (a keyboard interrupt) are
    outside the model. *)
Inductive exn_class : Type :=
| Exception
| TypeError
| ValueError
| AttributeError
| ImportError
| OSError
| EOFError
| PickleError
| RequestException
| HTTPError
| ConnectionError
| Timeout
| JSONDecodeError.

Record exn : Type := mkExn { exn_cls : exn_class; exn_msg : string }.

(** [isinstance(e, RequestException)]. *)
Definition is_RequestException (e : exn) : bool :=
  match exn_cls e with
  | RequestException | HTTPError | ConnectionError | Timeout
  | JSONDecodeError => true
  | _ => false
  end.

(** [isinstance(e, Exception)]: every modelled class. *)
Definition is_Exception (e : exn) : bool := true.

Inductive result (A : Type) : Type :=
| Ok (a : A)
| Raise (e : exn).
Arguments Ok {A} a.
Arguments Raise {A} e.

(** [len] as a Python integer. *)
Definition len {A : Type} (l : list A) : Z := Z.of_nat (List.length l).

(** Index normalisation of a slice bound: negative bounds count from the
    end, and every bound is clamped to [0, len]. *)
Definition slice_bound (n i : Z) : Z :=
  if i <? 0 then Z.max 0 (i + n) else Z.min i n.

(** [l[lo:hi]]. *)
Definition slice {A : Type} (l : list A) (lo hi : Z) : list A :=
  let a := slice_bound (len l) lo in
  let b := slice_bound (len l) hi in
  firstn (Z.to_nat (b - a)) (skipn (Z.to_nat a) l).

(** The number of elements of [range(start, stop, step)], [step <> 0]. *)
Definition range_len (start stop step : Z) : nat :=
  if 0 <? step then
    (if start <? stop then Z.to_nat ((stop - start - 1) / step + 1) else 0%nat)
  else
    (if stop <? start then Z.to_nat ((start - stop - 1) / (- step) + 1) else 0%nat).

(** [range(start, stop, step)]; a zero step raises [ValueError]. *)
Definition range (start stop step : Z) : result (list Z) :=
  if step =? 0 then
    Raise (mkExn ValueError "range() arg 3 must not be zero")
  else
    Ok (map (fun k => start + Z.of_nat k * step)
            (seq 0 (range_len start stop step))).

(** What [list.extend(v)] iterates over: the elements of a list or tuple,
    the keys of a dict, the characters of a string; anything else is not
    iterable and raises [TypeError] before the list is touched. *)
Definition iter (v : pyval) : result (list pyval) :=
  match v with
  | PyList l | PyTuple l => Ok l
  | PyDict d => Ok (map (fun kv => PyStr (fst kv)) d)
  | PyStr s =>
      Ok (map (fun c => PyStr (String c EmptyString)) (list_ascii_of_string s))
  | _ => Raise (mkExn TypeError "object is not iterable")
  end.

(** [d.get(key, default)] on a dict kept as an association list. *)
Fixpoint dict_get {V : Type} (d : list (string * V)) (key : string)
         (default : V) : V :=
  match d with
  | [] => default
  | (k, v) :: d' => if String.eqb k key then v else dict_get d' key default
  end.

(** Apply a failing function along a list, stopping at the first
    exception. *)
Section Traverse.
Variables A B : Type.
Variable f : A -> result B.

Fixpoint traverse (l : list A) : result (list B) :=
  match l with
  | [] => Ok []
  | x :: l' =>
      match f x with
      | Ok y => match traverse l' with
                | Ok ys => Ok (y :: ys)
                | Raise e => Raise e
                end
      | Raise e => Raise e
      end
  end.
End Traverse.
Arguments traverse {A B} f l.

(** *** numpy

    [np.array(l)], as numpy does it from version 1.24 on: the shape of
    the array is read off the nesting of [l].  A list or a tuple is a
    sequence, every other value a scalar (a string and a dict too, and so
    are opaque objects taken to be), and the values that sit side by side
    in one sequence must all have the same shape; if they do not, the
    conversion raises [ValueError].  Nesting beyond the number of
    dimensions numpy allows is outside the model. *)
Section SameShape.
Variable shape_of : pyval -> option (list nat).

Fixpoint all_of_shape (sh : list nat) (l : list pyval) : bool :=
  match l with
  | [] => true
  | x :: l' =>
      match shape_of x with
      | Some sh' => (if list_eq_dec Nat.eq_dec sh sh' then true else false)
                    && all_of_shape sh l'
      | None => false
      end
  end.
End SameShape.

(** The shape of the array a value gives, if it gives one. *)
Fixpoint shape (v : pyval) : option (list nat) :=
  match v with
  | PyList l | PyTuple l =>
      match l with
      | [] => Some [0%nat]
      | x :: rest =>
          match shape x with
          | Some sh =>
              if all_of_shape shape sh rest
              then Some (List.length l :: sh)
              else None
          | None => None
          end
      end
  | _ => Some []
  end.

(** [np.array(l)] for a list [l].  The array is kept as the list of the
    values its rows (its elements along the first axis) are built from:
    [len] of the array is the length of that list, and iterating over
    the array goes through its rows in that order. *)
Definition np_array (l : list pyval) : result (list pyval) :=
  match shape (PyList l) with
  | Some _ => Ok l
  | None =>
      Raise (mkExn ValueError
               "setting an array element with a sequence. The requested array has an inhomogeneous shape")
  end.

(** *** Strings

    A string is a sequence of code points below 256. *)
Definition ord (c : ascii) : Z := Z.of_N (N_of_ascii c).
Definition chr (n : Z) : ascii := ascii_of_N (Z.to_N n).

(** [c.isspace()]. *)
Definition isspace (c : ascii) : bool :=
  let n := ord c in
  ((9 <=? n) && (n <=? 13)) || ((28 <=? n) && (n <=? 32))
  || (n =? 133) || (n =? 160).

(** [c.lower()]: the upper-case letters of ASCII and of Latin-1 lie 32
    below their lower-case forms. *)
Definition lower_char (c : ascii) : ascii :=
  let n := ord c in
  if ((65 <=? n) && (n <=? 90))
     || ((192 <=? n) && (n <=? 222) && negb (n =? 215))
  then chr (n + 32) else c.

(** [s.lower()]. *)
Fixpoint lower (s : string) : string :=
  match s with
  | EmptyString => EmptyString
  | String c s' => String (lower_char c) (lower s')
  end.

Fixpoint lstrip_chars (l : list ascii) : list ascii :=
  match l with
  | c :: l' => if isspace c then lstrip_chars l' else l
  | [] => []
  end.

(** [s.strip()]. *)
Definition strip (s : string) : string :=
  string_of_list_ascii
    (rev (lstrip_chars (rev (lstrip_chars (list_ascii_of_string s))))).

(** [s.split(sep)] for a one-character separator: never an empty list. *)
Fixpoint split (sep : ascii) (s : string) : list string :=
  match s with
  | EmptyString => [EmptyString]
  | String c s' =>
      if Ascii.eqb c sep then EmptyString :: split sep s'
      else match split sep s' with
           | w :: ws => String c w :: ws
           | [] => [String c EmptyString]
           end
  end.

(** [sub in s]. *)
Fixpoint contains (s sub : string) : bool :=
  String.prefix sub s
  || match s with
     | EmptyString => false
     | String _ s' => contains s' sub
     end.

(** [str(z)] for an integer. *)
Definition str_of_int (z : Z) : string :=
  DecimalString.NilZero.string_of_int (Z.to_int z).

(** *** The float nearest to an integer, printed

    [repr(float(z))], which is also what [str] and an f-string write for
    it.  The integer is rounded to 53 significant bits, ties to the even
    significand; of the decimal numbers that round back to that float the
    one with the fewest digits is taken, the nearest one if there are
    two; it is written in full below [1e16] and with an exponent from
    there on. *)

(** The significand and the binary exponent of the float nearest to
    [a >= 2 ^ 53]. *)
Definition nearest_double (a : Z) : Z * Z :=
  let sh := Z.log2 a + 1 - 53 in
  let q := Z.shiftr a sh in
  let r := a - Z.shiftl q sh in
  let half := Z.shiftl 1 (sh - 1) in
  let q := if (half <? r) || ((r =? half) && Z.odd q) then q + 1 else q in
  if q =? 2 ^ 53 then (2 ^ 52, sh + 1) else (q, sh).

(** Does the integer [x] round to the float [q * 2 ^ sh], [sh >= 1]?  The
    bounds lie half way to the neighbouring floats and belong to the
    float when [q] is even. *)
Definition rounds_to (q sh x : Z) : bool :=
  let v := Z.shiftl q sh in
  let low_gap := if q =? 2 ^ 52 then Z.shiftl 1 (sh - 1) else Z.shiftl 1 sh in
  let lo2 := 2 * v - low_gap in
  let hi2 := 2 * v + Z.shiftl 1 sh in
  ((lo2 <? 2 * x) && (2 * x <? hi2))
  || (Z.even q && ((2 * x =? lo2) || (2 * x =? hi2))).

(** The multiple of [10 ^ k] that rounds to the float, if there is
    one, as its digits. *)
Definition short_digits (q sh : Z) (k : nat) : option Z :=
  let v := Z.shiftl q sh in
  let p := 10 ^ Z.of_nat k in
  let c1 := v / p in
  let c2 := c1 + 1 in
  let o1 := (0 <? c1) && rounds_to q sh (c1 * p) in
  let o2 := rounds_to q sh (c2 * p) in
  if o1 && o2 then
    let e1 := v - c1 * p in
    let e2 := c2 * p - v in
    if e1 <? e2 then Some c1
    else if e2 <? e1 then Some c2
    else if Z.even c1 then Some c1 else Some c2
  else if o1 then Some c1
  else if o2 then Some c2
  else None.

(** The fewest digits: the largest power of ten that has such a
    multiple. *)
Fixpoint shortest_digits (q sh : Z) (k : nat) : Z * nat :=
  match short_digits q sh k with
  | Some d => (d, k)
  | None =>
      match k with
      | O => (Z.shiftl q sh, O)
      | S k' => shortest_digits q sh k'
      end
  end.

Definition repr_of_double (q sh : Z) : string :=
  if 1024 <? sh + 53 then "inf"%string
  else
    let v := Z.shiftl q sh in
    let '(d, k) := shortest_digits q sh (String.length (str_of_int v)) in
    let ds := str_of_int d in
    let ex := (String.length ds + k - 1)%nat in
    if (ex <? 16)%nat
    then (ds ++ string_of_list_ascii (repeat "0"%char k) ++ ".0")%string
    else
      match ds with
      | String c EmptyString =>
          (String c EmptyString ++ "e+" ++ str_of_int (Z.of_nat ex))%string
      | String c rest =>
          (String c EmptyString ++ "." ++ rest ++ "e+"
           ++ str_of_int (Z.of_nat ex))%string
      | EmptyString => EmptyString
      end.

(** [repr(float(z))]. *)
Definition float_repr_of_int (z : Z) : string :=
  if z =? 0 then "0.0"%string
  else
    let a := Z.abs z in
    let sign := if z <? 0 then "-"%string else EmptyString in
    let digits :=
      if Z.log2 a + 1 <=? 53 then (str_of_int a ++ ".0")%string
      else let '(q, sh) := nearest_double a in repr_of_double q sh in
    (sign ++ digits)%string.

(** [s.split(sep, 1)] for a one-character separator: the text before the
    first separator and, if there is one, the text after it. *)
Fixpoint split_once (sep : ascii) (s : string) : list string :=
  match s with
  | EmptyString => [EmptyString]
  | String c s' =>
      if Ascii.eqb c sep then [EmptyString; s']
      else match split_once sep s' with
           | w :: ws => String c w :: ws
           | [] => [String c EmptyString]
           end
  end.

(** [sep.join(l)]. *)
Fixpoint join (sep : string) (l : list string) : string :=
  match l with
  | [] => EmptyString
  | [x] => x
  | x :: rest => (x ++ sep ++ join sep rest)%string
  end.

(** [d[key] = value] on a dict kept as an association list: a key that is
    there keeps its place. *)
Fixpoint dict_set {V : Type} (d : list (string * V)) (key : string) (value : V)
  : list (string * V) :=
  match d with
  | [] => [(key, value)]
  | (k, v) :: d' =>
      if String.eqb k key then (k, value) :: d'
      else (k, v) :: dict_set d' key value
  end.

(** [{**d, **items}]: the items are set one after the other. *)
Definition dict_update {V : Type} (d items : list (string * V))
  : list (string * V) :=
  fold_left (fun acc kv => dict_set acc (fst kv) (snd kv)) items d.

(** [zip(a, b, c)]: as long as the shortest of the three. *)
Fixpoint zip3 {A B C : Type} (a : list A) (b : list B) (c : list C)
  : list (A * B * C) :=
  match a, b, c with
  | x :: a', y :: b', z :: c' => (x, y, z) :: zip3 a' b' c'
  | _, _, _ => []
  end.

(** [enumerate(l)], counting from [start]. *)
Fixpoint enumerate_from {A : Type} (start : Z) (l : list A) : list (Z * A) :=
  match l with
  | [] => []
  | x :: l' => (start, x) :: enumerate_from (start + 1) l'
  end.

(** *** Stateful, failing computations

    A computation over a state [S] returns a value or raises, and leaves
    a state behind either way (what a Python block did before it raised
    stays done). *)
Definition ST (S A : Type) : Type := S -> result A * S.

Definition ret {S A : Type} (a : A) : ST S A := fun s => (Ok a, s).
Definition raise {S A : Type} (e : exn) : ST S A := fun s => (Raise e, s).
Definition lift {S A : Type} (r : result A) : ST S A := fun s => (r, s).
Definition bind {S A B : Type} (m : ST S A) (k : A -> ST S B) : ST S B :=
  fun s => match m s with
           | (Ok a, s') => k a s'
           | (Raise e, s') => (Raise e, s')
           end.

(** [try: m  except <class> as e: h e]; an exception outside the class
    passes through. *)
Definition try_except {S A : Type} (m : ST S A) (catches : exn -> bool)
           (h : exn -> ST S A) : ST S A :=
  fun s => match m s with
           | (Ok a, s') => (Ok a, s')
           | (Raise e, s') => if catches e then h e s' else (Raise e, s')
           end.

Declare Scope py_scope.
Delimit Scope py_scope with py.
Notation "x <- m ;; k" := (bind m (fun x => k))
  (at level 100, m at next level, right associativity) : py_scope.
Notation "m ;;; k" := (bind m (fun _ => k))
  (at level 100, right associativity) : py_scope.

End Py.

Import Py.

(* ================================================================== *)
(** ** embedding_generator.py *)
(* ================================================================== *)

Module EmbeddingGenerator.

(** What [requests.post] hands back: a status code and what
    [response.json()] would give (a decoded value, or the decoding
    error). *)
Record response : Type := mkResponse {
  status_code : Z;
  json : result pyval
}.

(** A call of [requests.post] either returns a response or raises (a
    network-level [RequestException], or anything else). *)
Definition post_outcome : Type := result response.

(** The remote inference API: what the [n]-th request of the run, carrying
    the payload [texts], is answered with. *)
Definition api : Type := nat -> list string -> post_outcome.

(** The pickled checkpoint file. *)
Record checkpoint : Type := mkCheckpoint {
  batch_index : Z;
  embeddings : list pyval;
  metadata : list pyval
}.

(** What is at [checkpoints/embedding_checkpoint.pkl]: nothing, a pickle
    of a checkpoint, or a file [pickle.load] raises on (a write that was
    cut short leaves one). *)
Inductive checkpoint_file : Type :=
| NoFile
| Pickled (c : checkpoint)
| Unreadable (e : exn).

(** What becomes of one call of [_save_checkpoint]: the pickle is
    written; or [open] raises and the file stays as it was; or the file
    is opened, which empties it, and [pickle.dump] raises [e], leaving a
    file on which [pickle.load] raises [on_load]. *)
Inductive write_outcome : Type :=
| Written
| NotOpened (e : exn)
| Torn (e on_load : exn).

(** The file system: what the [n]-th write of the run comes to. *)
Definition storage : Type := nat -> write_outcome.

(** Observable events of a run. *)
Inductive event : Type :=
| Post (texts : list string)         (* requests.post(..., json={"inputs": texts}) *)
| Sleep (seconds : Z)                (* time.sleep(seconds) *)
| SaveCheckpoint (c : checkpoint)    (* pickle.dump(checkpoint, f) went through *)
| SaveFailed (c : checkpoint).       (* open or pickle.dump raised *)

(** The state a run threads through: the number of requests sent so far,
    the checkpoint file, the trace, the two list objects
    [all_embeddings] and [processed_metadata] that [generate_embeddings]
    mutates in place (the [except] handler reads them as they are when
    the exception arrives), and the number of writes tried so far. *)
Record state : Type := mkState {
  requests : nat;
  disk : checkpoint_file;
  trace : list event;
  all_embeddings : list pyval;
  processed_metadata : list pyval;
  writes : nat
}.

Definition M : Type -> Type := ST state.

Local Open Scope py_scope.

Definition emit (e : event) : M unit :=
  fun s => (Ok tt, mkState (requests s) (disk s) (trace s ++ [e])
                           (all_embeddings s) (processed_metadata s)
                           (writes s)).

Definition sleep (seconds : Z) : M unit := emit (Sleep seconds).

(** Control leaving one iteration of the retry loop. *)
Inductive control : Type :=
| Continue               (* go on with the next [attempt] *)
| Return (v : pyval).    (* [return v] *)

Section WithRemote.

Variable remote : api.
Variable store : storage.

(** [requests.post(self.api_url, headers=..., json={"inputs": texts})]. *)
Definition requests_post (texts : list string) : M response :=
  fun s =>
    (remote (requests s) texts,
     mkState (S (requests s)) (disk s) (trace s ++ [Post texts])
             (all_embeddings s) (processed_metadata s) (writes s)).

(** [response.raise_for_status()]: an [HTTPError] for 4xx and 5xx. *)
Definition raise_for_status (r : response) : M unit :=
  if (400 <=? status_code r) && (status_code r <? 600)
  then raise (mkExn HTTPError "HTTP error status")
  else ret tt.

(** [response.json()]. *)
Definition response_json (r : response) : M pyval :=
  fun s => (json r, s).

(** The body of [for attempt in range(max_retries)]. *)
Definition attempt_body (texts : list string) (max_retries attempt : Z)
  : M control :=
  try_except
    (response <- requests_post texts ;;
     if status_code response =? 503 then
       (* Model is loading *)
       sleep 20 ;;; ret Continue
     else if status_code response =? 429 then
       (* Rate limit hit *)
       sleep 30 ;;; ret Continue
     else if status_code response =? 500 then
       (* Internal server error *)
       sleep (30 * (attempt + 1)) ;;; ret Continue
     else
       raise_for_status response ;;;
       v <- response_json response ;;
       ret (Return v))
    is_RequestException
    (fun e =>
       if attempt =? max_retries - 1 then raise e
       else sleep (10 * (attempt + 1)) ;;; ret Continue).

(** The [for] loop over the attempts still to run; falling off the end
    of the function returns [None]. *)
Fixpoint retry_loop (texts : list string) (max_retries : Z)
         (attempts : list Z) : M pyval :=
  match attempts with
  | [] => ret PyNone
  | attempt :: rest =>
      c <- attempt_body texts max_retries attempt ;;
      match c with
      | Continue => retry_loop texts max_retries rest
      | Return v => ret v
      end
  end.

(** [_make_api_request(self, texts, max_retries=5)]. *)
Definition _make_api_request (texts : list string) (max_retries : Z)
  : M pyval :=
  retry_loop texts max_retries
             (map Z.of_nat (seq 0 (Z.to_nat max_retries))).

Definition default_max_retries : Z := 5.

(** [_save_checkpoint(self, batch_index, embeddings, metadata)]: the
    file is opened with mode ['wb'] and a pickle of the three values as
    they are now is written over it.  [open] or [pickle.dump] may
    raise. *)
Definition _save_checkpoint (batch_index : Z) (embeddings metadata : list pyval)
  : M unit :=
  fun s =>
    let c := mkCheckpoint batch_index embeddings metadata in
    match store (writes s) with
    | Written =>
        (Ok tt, mkState (requests s) (Pickled c) (trace s ++ [SaveCheckpoint c])
                        (all_embeddings s) (processed_metadata s)
                        (S (writes s)))
    | NotOpened e =>
        (Raise e, mkState (requests s) (disk s) (trace s ++ [SaveFailed c])
                          (all_embeddings s) (processed_metadata s)
                          (S (writes s)))
    | Torn e on_load =>
        (Raise e, mkState (requests s) (Unreadable on_load)
                          (trace s ++ [SaveFailed c])
                          (all_embeddings s) (processed_metadata s)
                          (S (writes s)))
    end.

(** [_load_checkpoint(self)]: a file that is there is unpickled, which
    raises on a file that holds no whole pickle. *)
Definition _load_checkpoint : M (Z * list pyval * list pyval) :=
  fun s =>
    match disk s with
    | Pickled c => (Ok (batch_index c, embeddings c, metadata c), s)
    | Unreadable e => (Raise e, s)
    | NoFile => (Ok (0, [], []), s)
    end.

(** Reading and mutating the two accumulators. *)
Definition get_all_embeddings : M (list pyval) :=
  fun s => (Ok (all_embeddings s), s).
Definition get_processed_metadata : M (list pyval) :=
  fun s => (Ok (processed_metadata s), s).
Definition set_accumulators (e m : list pyval) : M unit :=
  fun s => (Ok tt, mkState (requests s) (disk s) (trace s) e m (writes s)).

(** [all_embeddings.extend(batch_embeddings)]. *)
Definition extend_all_embeddings (batch_embeddings : pyval) : M unit :=
  fun s =>
    match iter batch_embeddings with
    | Ok l => (Ok tt, mkState (requests s) (disk s) (trace s)
                              (all_embeddings s ++ l) (processed_metadata s)
                              (writes s))
    | Raise e => (Raise e, s)
    end.

(** [processed_metadata.extend(batch_metadata)]. *)
Definition extend_processed_metadata (batch_metadata : list pyval) : M unit :=
  fun s => (Ok tt, mkState (requests s) (disk s) (trace s)
                           (all_embeddings s)
                           (processed_metadata s ++ batch_metadata)
                           (writes s)).

(** The body of the batch loop of [generate_embeddings], for the batch
    that starts at index [i]. *)
Definition process_batch (texts : list string) (metadata : list pyval)
           (batch_size i : Z) : M unit :=
  let batch_texts := slice texts i (i + batch_size) in
  let batch_metadata := slice metadata i (i + batch_size) in
  try_except
    (batch_embeddings <- _make_api_request batch_texts default_max_retries ;;
     extend_all_embeddings batch_embeddings ;;;
     extend_processed_metadata batch_metadata ;;;
     (* Save checkpoint every 5 batches *)
     (if (i / batch_size) mod 5 =? 0 then
        e <- get_all_embeddings ;;
        m <- get_processed_metadata ;;
        _save_checkpoint (i / batch_size) e m
      else ret tt) ;;;
     (* Add a small delay between batches *)
     sleep 1)
    is_Exception
    (fun exc =>
       (* Save checkpoint before raising error *)
       e <- get_all_embeddings ;;
       m <- get_processed_metadata ;;
       _save_checkpoint (i / batch_size) e m ;;;
       raise exc).

Fixpoint batch_loop (texts : list string) (metadata : list pyval)
         (batch_size : Z) (starts : list Z) : M unit :=
  match starts with
  | [] => ret tt
  | i :: rest =>
      process_batch texts metadata batch_size i ;;;
      batch_loop texts metadata batch_size rest
  end.

(** [generate_embeddings(self, texts, metadata, batch_size=32)].  The
    result is the pair [(embeddings, processed_metadata)];
    [np.array(all_embeddings)] comes after the loop and outside its
    [try], so what it raises leaves the function as it is. *)
Definition generate_embeddings (texts : list string) (metadata : list pyval)
           (batch_size : Z) : M (list pyval * list pyval) :=
  ckpt <- _load_checkpoint ;;
  let '(start_batch, loaded_embeddings, loaded_metadata) := ckpt in
  set_accumulators loaded_embeddings loaded_metadata ;;;
  starts <- lift (range (start_batch * batch_size) (len texts) batch_size) ;;
  batch_loop texts metadata batch_size starts ;;;
  e <- get_all_embeddings ;;
  embeddings <- lift (np_array e) ;;
  m <- get_processed_metadata ;;
  ret (embeddings, m).

Definition default_batch_size : Z := 32.

End WithRemote.

(** The file a checkpoint, if any, was pickled to. *)
Definition on_disk (file : option checkpoint) : checkpoint_file :=
  match file with
  | Some c => Pickled c
  | None => NoFile
  end.

(** A fresh process: nothing sent or written yet, an empty trace, and
    whatever is at the path of the checkpoint file. *)
Definition started (file : checkpoint_file) : state :=
  mkState 0 file [] [] [] 0.

Definition initial (file : option checkpoint) : state :=
  started (on_disk file).

(** The state after a request carrying [texts] has been sent. *)
Definition sent (s : state) (texts : list string) : state :=
  mkState (S (requests s)) (disk s) (trace s ++ [Post texts])
          (all_embeddings s) (processed_metadata s) (writes s).

(** The state after a sleep. *)
Definition slept (s : state) (seconds : Z) : state :=
  mkState (requests s) (disk s) (trace s ++ [Sleep seconds])
          (all_embeddings s) (processed_metadata s) (writes s).

(** What the handler of [except RequestException] does with [e] in
    attempt [attempt]: raise on the last attempt, otherwise sleep and go
    on with the next one. *)
Definition on_request_exception (max_retries attempt : Z) (e : exn)
           (s : state) : result control * state :=
  if attempt =? max_retries - 1 then (Raise e, s)
  else (Ok Continue, slept s (10 * (attempt + 1))).

(** The state after the accumulators, as they are, have been written
    to the checkpoint file under [batch_index]. *)
Definition current_checkpoint (batch_index : Z) (s : state) : checkpoint :=
  mkCheckpoint batch_index (all_embeddings s) (processed_metadata s).

Definition saved (s : state) (batch_index : Z) : state :=
  mkState (requests s) (Pickled (current_checkpoint batch_index s))
          (trace s ++ [SaveCheckpoint (current_checkpoint batch_index s)])
          (all_embeddings s) (processed_metadata s) (S (writes s)).

(** The state after a write of the accumulators under [batch_index] has
    failed, leaving [file]. *)
Definition save_failed (s : state) (batch_index : Z) (file : checkpoint_file)
  : state :=
  mkState (requests s) file
          (trace s ++ [SaveFailed (current_checkpoint batch_index s)])
          (all_embeddings s) (processed_metadata s) (S (writes s)).

(** What a write of the accumulators under [batch_index] comes to. *)
Definition save (store : storage) (batch_index : Z) (s : state)
  : result unit * state :=
  match store (writes s) with
  | Written => (Ok tt, saved s batch_index)
  | NotOpened e => (Raise e, save_failed s batch_index (disk s))
  | Torn e on_load => (Raise e, save_failed s batch_index (Unreadable on_load))
  end.

(** What the [except] handler of the batch loop does with [exc]: write
    the accumulators under [batch_index], then raise [exc] again; if the
    write raises, its exception is the one that leaves the handler. *)
Definition on_batch_error (store : storage) (batch_index : Z) (exc : exn)
           (s : state) : result unit * state :=
  match save store batch_index s with
  | (Ok _, s') => (Raise exc, s')
  | (Raise e, s') => (Raise e, s')
  end.

(** A file system on which every write goes through. *)
Definition reliable : storage := fun _ => Written.

(** The state after both accumulators have been extended. *)
Definition extended (s : state) (batch_embeddings batch_metadata : list pyval)
  : state :=
  mkState (requests s) (disk s) (trace s)
          (all_embeddings s ++ batch_embeddings)
          (processed_metadata s ++ batch_metadata) (writes s).

(** The three statuses [_make_api_request] has a branch for. *)
Definition retried_status (code : Z) : bool :=
  (code =? 503) || (code =? 429) || (code =? 500).

(** The statuses [raise_for_status] raises for. *)
Definition error_status (code : Z) : bool :=
  (400 <=? code) && (code <? 600).

(** The answers after which an attempt that is not the last one goes on
    to the next attempt: a [RequestException] raised by the request, one
    of the three statuses with a branch of their own, a status
    [raise_for_status] raises on, or a body whose decoding raises a
    [RequestException]. *)
Definition goes_on (outcome : post_outcome) : bool :=
  match outcome with
  | Raise e => is_RequestException e
  | Ok r =>
      retried_status (status_code r) || error_status (status_code r)
      || match json r with
         | Raise e => is_RequestException e
         | Ok _ => false
         end
  end.

(** A remote API that answers from a script, request by request, and
    with [otherwise] once the script is over. *)
Definition scripted (script : list post_outcome) (otherwise : post_outcome)
  : api :=
  fun n _ => nth n script otherwise.

(** A response with a status and a decoded body. *)
Definition answer (code : Z) (body : pyval) : post_outcome :=
  Ok (mkResponse code (Ok body)).

(** A remote API that answers every request with status 200 and one
    embedding per submitted text. *)
Definition embed_all (embedding_of : string -> pyval) : api :=
  fun _ texts => answer 200 (PyList (map embedding_of texts)).

(** A remote API that answers every request at once with status 200 and
    a list of one embedding per submitted text. *)
Definition answers_every_text (remote : api) : Prop :=
  forall n texts, exists l,
    remote n texts = answer 200 (PyList l) /\ List.length l = List.length texts.

(** The batch a run starts from, and its state once the checkpoint file
    has been loaded into the accumulators. *)
Definition start_batch (file : option checkpoint) : Z :=
  match file with Some c => batch_index c | None => 0 end.

Definition loaded (file : option checkpoint) : state :=
  match file with
  | Some c => mkState 0 (Pickled c) [] (embeddings c) (metadata c) 0
  | None => mkState 0 NoFile [] [] [] 0
  end.

(** The payloads of the requests in a trace. *)
Fixpoint posts (t : list event) : list (list string) :=
  match t with
  | [] => []
  | Post p :: t' => p :: posts t'
  | _ :: t' => posts t'
  end.

(** The checkpoints written in a trace, in the order of the writes. *)
Fixpoint checkpoints_written (t : list event) : list checkpoint :=
  match t with
  | [] => []
  | SaveCheckpoint c :: t' => c :: checkpoints_written t'
  | _ :: t' => checkpoints_written t'
  end.

(** *** process_recipes *)

Section ProcessRecipes.

Variable remote : api.
Variable store : storage.

(** What [embedding.tolist()] gives for the row of
    [np.array(all_embeddings)] built from an element of the list; numpy
    stays outside the model. *)
Variable tolist : pyval -> result pyval.

(** The body of the loop of [process_recipes]: the dict built for the
    [i]-th recipe.  The entries of [meta] come last and win. *)
Definition processed_recipe (i : Z) (text : string) (meta embedding : pyval)
  : result (list (string * pyval)) :=
  let parts := split_once " " text in
  let recipe_name := nth 0 parts EmptyString in
  let instructions := if 1 <? len parts then nth 1 parts EmptyString
                      else EmptyString in
  match tolist embedding with
  | Raise e => Raise e
  | Ok embedding_list =>
      match meta with
      | PyDict d =>
          Ok (dict_update [("id", PyInt i);
                           ("RecipeName", PyStr recipe_name);
                           ("Instructions", PyStr instructions);
                           ("embedding", embedding_list)]%string d)
      | _ => Raise (mkExn TypeError "argument after ** must be a mapping")
      end
  end.

(** [process_recipes(self, recipe_texts, metadata, batch_size=32)]. *)
Definition process_recipes (recipe_texts : list string) (metadata : list pyval)
           (batch_size : Z) : M (list (list (string * pyval))) :=
  r <- generate_embeddings remote store recipe_texts metadata batch_size ;;
  let '(embeddings, processed_metadata) := r in
  lift (traverse
          (fun item : Z * (string * pyval * pyval) =>
             let '(i, (text, meta, embedding)) := item in
             processed_recipe i text meta embedding)
          (enumerate_from 0 (zip3 recipe_texts processed_metadata embeddings))).

End ProcessRecipes.

(** A remote API whose accepted answers carry a list with one embedding
    per submitted text. *)
Definition honest (remote : api) : Prop :=
  forall n texts r v,
    remote n texts = Ok r ->
    retried_status (status_code r) = false ->
    error_status (status_code r) = false ->
    json r = Ok v ->
    exists l, v = PyList l /\ List.length l = List.length texts.

(** The checkpoint file holds more embeddings than the batches before
    its batch index account for, and its batch index lies within the
    texts. *)
Definition checkpoint_overlaps (texts : list string) (batch_size : Z)
           (s : state) : Prop :=
  exists c, disk s = Pickled c
            /\ 0 <= batch_index c
            /\ batch_index c * batch_size <= len texts
            /\ batch_index c * batch_size < len (embeddings c).

(** The seconds slept in a trace. *)
Fixpoint seconds_slept (t : list event) : Z :=
  match t with
  | [] => 0
  | Sleep n :: t' => n + seconds_slept t'
  | _ :: t' => seconds_slept t'
  end.

End EmbeddingGenerator.

(* ================================================================== *)
(** ** vector_db.py: the vector store *)
(* ================================================================== *)

Module VectorDB.

Local Open Scope py_scope.

(** The text [json.dumps] produces, kept as its syntax tree.  [NaN] and
    [Infinity] are the tokens Python writes for the floats that JSON has
    no literal for. *)
#[warnings="-register-all"]
Inductive json_value : Type :=
| JNull
| JBool (b : bool)
| JInt (z : Z)
| JFloat (repr : string)
| JNaN
| JInfinity (negative : bool)
| JString (s : string)
| JArray (l : list json_value)
| JObject (d : list (string * json_value)).

(** [json.dumps(v)]: lists and tuples become arrays; an object that is
    not JSON data raises [TypeError]. *)
Fixpoint json_dumps (v : pyval) : result json_value :=
  match v with
  | PyNone => Ok JNull
  | PyBool b => Ok (JBool b)
  | PyInt z => Ok (JInt z)
  | PyFloat FNaN => Ok JNaN
  | PyFloat (FInf negative) => Ok (JInfinity negative)
  | PyFloat (FFin repr) => Ok (JFloat repr)
  | PyStr s => Ok (JString s)
  | PyList l | PyTuple l =>
      match traverse json_dumps l with
      | Ok js => Ok (JArray js)
      | Raise e => Raise e
      end
  | PyDict d =>
      match traverse (fun kv => match json_dumps (snd kv) with
                                | Ok j => Ok (fst kv, j)
                                | Raise e => Raise e
                                end) d with
      | Ok js => Ok (JObject js)
      | Raise e => Raise e
      end
  | PyObj _ => Raise (mkExn TypeError "Object is not JSON serializable")
  end.

(** A recipe as [insert_recipes] receives it: a dict. *)
Definition recipe : Type := list (string * pyval).

(** The tuple of values sent for one row, in column order. *)
Record row : Type := mkRow {
  id : pyval;
  RecipeName : pyval;
  TimeToCook : pyval;
  Ingredients : pyval;
  Instructions : pyval;
  embedding : json_value
}.

(** *** The database engine

    The engine is outside the repository; it is modelled by what
    [create_tables] declares,

      [id INT PRIMARY KEY, RecipeName VARCHAR(255), TimeToCook VARCHAR(50),
       Ingredients TEXT, Instructions TEXT, embedding VECTOR(768)],

    by transactions (rows inserted since the last commit are dropped by a
    rollback), and by faults: the environment decides, per statement,
    [ROLLBACK] included, whether it fails for a reason of its own (a lost
    connection, say).  The engine is strict: a row is stored as it was
    given or not at all. *)

Inductive db_event : Type :=
| Executemany (rows : list row)
| SelectCount
| SelectMatching (params : list string) (limit : Z)
| Commit
| Rollback.

Record db : Type := mkDb {
  table : list row;          (* the committed rows of [recipes] *)
  uncommitted : list row;    (* rows inserted since the last commit *)
  statements : nat;          (* statements sent so far *)
  log : list db_event
}.

(** Which statements fail on the engine's side, by their number. *)
Definition faults : Type := nat -> bool.

Definition vector_dimension : nat := 768.

Definition is_json_number (j : json_value) : bool :=
  match j with JInt _ | JFloat _ => true | _ => false end.

(** The [VECTOR(768)] column accepts an array of 768 numbers. *)
Definition vector_ok (j : json_value) : bool :=
  match j with
  | JArray l => (List.length l =? vector_dimension)%nat && forallb is_json_number l
  | _ => false
  end.

Definition same_key (z : Z) (r : row) : bool :=
  match id r with PyInt z' => z =? z' | _ => false end.

(** [INT]: a signed integer of 32 bits. *)
Definition int_ok (z : Z) : bool :=
  (- 2 ^ 31 <=? z) && (z <? 2 ^ 31).

(** [INT PRIMARY KEY]: an integer of the column's range that is not yet
    in the table. *)
Definition primary_key_ok (existing : list row) (r : row) : bool :=
  match id r with
  | PyInt z => int_ok z && negb (existsb (same_key z) existing)
  | _ => false
  end.

(** [VARCHAR(n)]: NULL, or a string of at most [n] characters. *)
Definition varchar_ok (n : nat) (v : pyval) : bool :=
  match v with
  | PyNone => true
  | PyStr s => (String.length s <=? n)%nat
  | _ => false
  end.

(** The bytes of a string in UTF-8: a code point from 128 on takes
    two. *)
Fixpoint utf8_length (s : string) : nat :=
  match s with
  | EmptyString => 0%nat
  | String c s' => ((if (ord c <? 128)%Z then 1 else 2) + utf8_length s')%nat
  end.

(** [TEXT]: NULL, or a string of at most 65535 bytes. *)
Definition text_ok (v : pyval) : bool :=
  match v with
  | PyNone => true
  | PyStr s => (Z.of_nat (utf8_length s) <=? 65535)%Z
  | _ => false
  end.

(** The row fits the table as [create_tables] declares it. *)
Definition row_ok (existing : list row) (r : row) : bool :=
  primary_key_ok existing r
  && varchar_ok 255 (RecipeName r)
  && varchar_ok 50 (TimeToCook r)
  && text_ok (Ingredients r)
  && text_ok (Instructions r)
  && vector_ok (embedding r).

Definition db_error (msg : string) : exn := mkExn Exception msg.

Definition insert_row (r : row) : ST db unit :=
  fun d =>
    if row_ok (table d ++ uncommitted d) r
    then (Ok tt, mkDb (table d) (uncommitted d ++ [r]) (statements d) (log d))
    else (Raise (db_error "row violates the table schema"), d).

Fixpoint insert_rows (rows : list row) : ST db unit :=
  match rows with
  | [] => ret tt
  | r :: rest => insert_row r ;;; insert_rows rest
  end.

Section WithEngine.

Variable fault : faults.

(** Every statement is counted and logged, then fails if the
    environment says so. *)
Definition statement (e : db_event) : ST db unit :=
  fun d =>
    let d' := mkDb (table d) (uncommitted d) (S (statements d)) (log d ++ [e]) in
    if fault (statements d)
    then (Raise (db_error "the statement failed"), d')
    else (Ok tt, d').

(** [cursor.executemany(insert_sql, batch_data)]. *)
Definition executemany (batch_data : list row) : ST db unit :=
  statement (Executemany batch_data) ;;; insert_rows batch_data.

(** [self.conn.commit()]. *)
Definition commit : ST db unit :=
  statement Commit ;;;
  fun d => (Ok tt, mkDb (table d ++ uncommitted d) [] (statements d) (log d)).

(** [self.conn.rollback()]. *)
Definition rollback : ST db unit :=
  statement Rollback ;;;
  fun d => (Ok tt, mkDb (table d) [] (statements d) (log d)).

(** [0.0 if isinstance(x, float) and math.isnan(x) else x]. *)
Definition sanitize (x : pyval) : pyval :=
  match x with
  | PyFloat f => if isnan f then PyFloat zero_float else x
  | _ => x
  end.

(** The [try] block that prepares the values of one recipe. *)
Definition prepare (r : recipe) : result row :=
  let embedding := dict_get r "embedding" (PyList []) in
  let embedding :=
    match embedding with
    | PyList l => PyList (map sanitize l)
    | _ => embedding
    end in
  match json_dumps embedding with
  | Ok embedding_json =>
      Ok (mkRow (dict_get r "id" PyNone)
                (dict_get r "RecipeName" PyNone)
                (dict_get r "TimeToCook" PyNone)
                (dict_get r "Ingredients" PyNone)
                (dict_get r "Instructions" PyNone)
                embedding_json)
  | Raise e => Raise e
  end.

(** [batch_data]: a recipe whose preparation raises is skipped. *)
Fixpoint prepare_batch (batch : list recipe) : list row :=
  match batch with
  | [] => []
  | r :: rest =>
      match prepare r with
      | Ok recipe_values => recipe_values :: prepare_batch rest
      | Raise _ => prepare_batch rest
      end
  end.

(** The [try] block that executes the batch insert. *)
Definition insert_and_commit (batch_data : list row) : ST db unit :=
  executemany batch_data ;;; commit.

(** The body of the batch loop of [insert_recipes]. *)
Definition insert_batch (batch : list recipe) : ST db unit :=
  let batch_data := prepare_batch batch in
  match batch_data with
  | [] => ret tt        (* No valid data to insert *)
  | _ :: _ =>
      try_except
        (insert_and_commit batch_data)
        is_Exception
        (fun _ => rollback)
  end.

Fixpoint insert_loop (recipes : list recipe) (batch_size : Z)
         (starts : list Z) : ST db unit :=
  match starts with
  | [] => ret tt
  | i :: rest =>
      insert_batch (slice recipes i (i + batch_size)) ;;;
      insert_loop recipes batch_size rest
  end.

(** [insert_recipes(self, recipes, batch_size=50)]. *)
Definition insert_recipes (recipes : list recipe) (batch_size : Z)
  : ST db unit :=
  starts <- lift (range 0 (len recipes) batch_size) ;;
  insert_loop recipes batch_size starts.

Definition default_batch_size : Z := 50.

(** *** The search *)

(** [value LIKE pattern]: [%] stands for any run of characters, [_]
    for any one character, and a backslash takes the next character
    literally; the other characters are compared as they are. *)
Fixpoint like (pattern : string) : string -> bool :=
  match pattern with
  | EmptyString =>
      fun value => match value with EmptyString => true | _ => false end
  | String c pattern' =>
      if Ascii.eqb c "%" then
        fix any_run (value : string) : bool :=
          like pattern' value
          || match value with
             | EmptyString => false
             | String _ value' => any_run value'
             end
      else if Ascii.eqb c "_" then
        fun value => match value with
                     | String _ value' => like pattern' value'
                     | EmptyString => false
                     end
      else if Ascii.eqb c "\" then
        match pattern' with
        | EmptyString =>
            fun value => String.eqb value "\"
        | String d pattern'' =>
            fun value => match value with
                         | String x value' =>
                             Ascii.eqb x d && like pattern'' value'
                         | EmptyString => false
                         end
        end
      else
        fun value => match value with
                     | String x value' =>
                         Ascii.eqb x c && like pattern' value'
                     | EmptyString => false
                     end
  end.

(** The characters LIKE does not take literally, and the terms free of
    them. *)
Definition is_wildcard (c : ascii) : bool :=
  Ascii.eqb c "%" || Ascii.eqb c "_" || Ascii.eqb c "\".

Fixpoint literal (term : string) : bool :=
  match term with
  | EmptyString => true
  | String c term' => negb (is_wildcard c) && literal term'
  end.

(** [[i.strip().lower() for i in search_term.split(',') if i.strip()]]. *)
Definition parse_ingredients (search_term : string) : list string :=
  map (fun i => lower (strip i))
      (filter (fun i => negb (String.eqb (strip i) ""))
              (split "," search_term)).

(** [[f'%{ingredient}%' for ingredient in ingredients]]. *)
Definition like_params (ingredients : list string) : list string :=
  map (fun ingredient => ("%" ++ ingredient ++ "%")%string) ingredients.

(** [LOWER(Ingredients) LIKE p1 OR ... OR LOWER(Ingredients) LIKE pn];
    a NULL is matched by nothing. *)
Definition where_clause (params : list string) (r : row) : bool :=
  match Ingredients r with
  | PyStr s => existsb (fun p => like p (lower s)) params
  | _ => false
  end.

(** [SELECT RecipeName, TimeToCook, Ingredients, Instructions FROM
    recipes WHERE ... LIMIT limit]; a negative limit is a syntax
    error. *)
Definition select_matching (params : list string) (limit : Z)
  : ST db (list row) :=
  statement (SelectMatching params limit) ;;;
  fun d =>
    if limit <? 0 then (Raise (db_error "syntax error near LIMIT"), d)
    else (Ok (firstn (Z.to_nat limit) (filter (where_clause params) (table d))), d).

(** The row count of [recipes]. *)
Definition select_count : ST db Z :=
  statement SelectCount ;;;
  fun d => (Ok (len (table d)), d).

Definition similarity_one : pyval := PyFloat (FFin "1.0").

(** The dict built for one result row. *)
Definition to_recipe (r : row) : recipe :=
  [ ("RecipeName", RecipeName r);
    ("TimeToCook", TimeToCook r);
    ("Ingredients", Ingredients r);
    ("Instructions", Instructions r);
    ("similarity", similarity_one) ]%string.

(** [find_similar_recipes(self, search_term, limit=2)]; the outer
    handler logs and re-raises. *)
Definition find_similar_recipes (search_term : string) (limit : Z)
  : ST db (list recipe) :=
  try_except
    (count <- select_count ;;
     if count =? 0 then ret []
     else
       let ingredients := parse_ingredients search_term in
       match ingredients with
       | [] => ret []
       | _ :: _ =>
           results <- select_matching (like_params ingredients) limit ;;
           match results with
           | [] => ret []
           | _ :: _ => ret (map to_recipe results)
           end
       end)
    is_Exception
    (fun e => raise e).

Definition default_limit : Z := 2.

End WithEngine.

(** An engine that never fails on its own. *)
Definition no_faults : faults := fun _ => false.

(** A connection to a database holding [rows]. *)
Definition connected (rows : list row) : db := mkDb rows [] 0 [].

(** The number of elements of a serialised embedding, if it is an
    array. *)
Definition embedding_length (j : json_value) : option nat :=
  match j with
  | JArray l => Some (List.length l)
  | _ => None
  end.

(** Every row holds a vector the [VECTOR(768)] column accepts. *)
Definition vectors_ok (rows : list row) : Prop :=
  Forall (fun r => vector_ok (embedding r) = true) rows.

(** The rows the batch loop prepares, batch by batch, leaving out the
    batches with no valid data. *)
Definition prepared_batches (recipes : list recipe) (batch_size : Z)
           (starts : list Z) : list (list row) :=
  filter (fun rows => match rows with [] => false | _ => true end)
         (map (fun i => prepare_batch (slice recipes i (i + batch_size))) starts).

(** The batches [executemany] was called with. *)
Fixpoint executemany_calls (l : list db_event) : list (list row) :=
  match l with
  | [] => []
  | Executemany rows :: l' => rows :: executemany_calls l'
  | _ :: l' => executemany_calls l'
  end.

(** Rows that can be inserted one after the other into a table holding
    [existing]: each fits the schema where it comes. *)
Fixpoint rows_ok (existing rows : list row) : bool :=
  match rows with
  | [] => true
  | r :: rest => row_ok existing r && rows_ok (existing ++ [r]) rest
  end.

End VectorDB.

(* ================================================================== *)
(** ** vector_db.py: the cooking assistant *)
(* ================================================================== *)

Module CookingAssistant.

(** What [model.generate_content] returns: an object whose [text]
    attribute may be missing (reading it raises [AttributeError]), may
    raise something else when read, or holds a string. *)
Record generated : Type := mkGenerated {
  text : result string
}.

(** The generative-text library and its surroundings, as far as
    [process_message] touches them. *)
Record gemini : Type := mkGemini {
  import_genai : result unit;                  (* import google.generativeai *)
  api_key : option string;                     (* os.getenv('GEMINI_API_KEY') *)
  configure : option string -> result unit;    (* genai.configure(api_key=...) *)
  generate_content : option string -> string -> result generated
                                               (* model.generate_content(prompt) *)
}.

Definition instruction : string :=
  " You are a helpful recipe recommender assistant. Answer only if the question is relevant to the recipe recommendations, food based, time to cook, where the dish is most famous etc. all and only about food. If the question is not relevant to food, say 'I'm sorry, I can only help with recipe recommendations.'. Give answers in the format: Recipe name, Time to cook, Ingredients, Instructions. Give no extra information unless asked for.".

Definition no_response_fallback : string :=
  "I apologize, but I couldn't generate a response for your query. Please try again.".

Definition error_fallback : string :=
  "I apologize, but I encountered an error while trying to generate a response. Please ensure your GEMINI_API_KEY is correct and try again.".

Definition and_then {A B : Type} (r : result A) (k : A -> result B) : result B :=
  match r with
  | Ok a => k a
  | Raise e => Raise e
  end.

(** [hasattr(response, "text")]: only [AttributeError] means no. *)
Definition hasattr_text (response : generated) : result bool :=
  match text response with
  | Ok _ => Ok true
  | Raise e =>
      match exn_cls e with
      | AttributeError => Ok false
      | _ => Raise e
      end
  end.

(** The [try] block of [process_message]. *)
Definition generate (g : gemini) (message : string) : result string :=
  and_then (import_genai g) (fun _ =>
  and_then (configure g (api_key g)) (fun _ =>
  let prompt := (message ++ instruction)%string in
  and_then (generate_content g (api_key g) prompt) (fun response =>
  and_then (hasattr_text response) (fun has_text =>
  if has_text then
    and_then (text response) (fun t =>
    if negb (String.eqb t "") then text response
    else Ok no_response_fallback)
  else Ok no_response_fallback)))).

(** [process_message(self, message)]. *)
Definition process_message (g : gemini) (message : string) : result string :=
  match generate g message with
  | Ok r => Ok r
  | Raise e => if is_Exception e then Ok error_fallback else Raise e
  end.

End CookingAssistant.

(* ================================================================== *)
(** ** data_processor.py *)
(* ================================================================== *)

Module DataProcessor.

(** A cell of the frame [pd.read_csv] builds: an empty field is read as
    NaN, the others as a string, an integer, a float (kept as its
    [repr]) or a boolean. *)
Inductive cell : Type :=
| NaN
| Str (s : string)
| Int (z : Z)
| Float (repr : string)
| Bool (b : bool).

(** A row of the frame: its cells under the column names. *)
Definition series : Type := list (string * cell).

(** The frame, row by row; every row has a cell for every column. *)
Record DataFrame : Type := mkDataFrame {
  columns : list string;
  data : list (list cell)
}.

(** *** dtypes

    pandas keeps a frame column by column, each column under one dtype,
    and a row that is taken out across the columns, as [df.apply(...,
    axis=1)] does, under the one dtype that holds them all.  Under
    [float64] an integer is the float nearest to it. *)
Inductive dtype : Type :=
| int64
| float64
| bool_
| object_.

Definition dtype_of (c : cell) : dtype :=
  match c with
  | NaN | Float _ => float64
  | Int _ => int64
  | Bool _ => bool_
  | Str _ => object_
  end.

(** The dtype that holds both: integers and floats meet in [float64],
    everything else that differs in [object]. *)
Definition common_dtype (a b : dtype) : dtype :=
  match a, b with
  | int64, int64 => int64
  | float64, float64 | int64, float64 | float64, int64 => float64
  | bool_, bool_ => bool_
  | _, _ => object_
  end.

Definition dtype_of_all (l : list dtype) : dtype :=
  match l with
  | [] => object_
  | a :: rest => fold_left common_dtype rest a
  end.

(** The cells of the [j]-th column. *)
Definition column (df : DataFrame) (j : nat) : list cell :=
  flat_map (fun cells => match nth_error cells j with
                         | Some c => [c]
                         | None => []
                         end)
           (data df).

(** [df.dtypes]. *)
Definition dtypes (df : DataFrame) : list dtype :=
  map (fun j => dtype_of_all (map dtype_of (column df j)))
      (seq 0 (List.length (columns df))).

(** A cell as a column or a row of dtype [t] holds it. *)
Definition held (t : dtype) (c : cell) : cell :=
  match t, c with
  | float64, Int z => Float (float_repr_of_int z)
  | _, _ => c
  end.

(** The cells of a row as the frame holds them, each under the dtype of
    its column. *)
Definition stored (df : DataFrame) (cells : list cell) : list cell :=
  map (fun tc => held (fst tc) (snd tc)) (combine (dtypes df) cells).

(** The rows of the frame, cell by cell, as [df.to_dict('records')] goes
    through them. *)
Definition rows (df : DataFrame) : list series :=
  map (fun cells => combine (columns df) (stored df cells)) (data df).

(** The rows handed to the lambda of [df.apply(..., axis=1)]: each is a
    Series of the dtype common to the columns of the frame. *)
Definition applied_rows (df : DataFrame) : list series :=
  map (fun cells =>
         combine (columns df)
                 (map (held (dtype_of_all (dtypes df))) (stored df cells)))
      (data df).

(** What an f-string writes for a cell. *)
Definition format (c : cell) : string :=
  match c with
  | NaN => "nan"
  | Str s => s
  | Int z => str_of_int z
  | Float repr => repr
  | Bool true => "True"
  | Bool false => "False"
  end.

(** The lambda of [get_processed_data]. *)
Definition recipe_text (row : series) : string :=
  ("Recipe: " ++ format (dict_get row "RecipeName" (Str "")) ++ ". "
   ++ "Ingredients: " ++ format (dict_get row "Ingredients" (Str "")) ++ ". "
   ++ "TimeToCook: " ++ format (dict_get row "TimeToCook" (Str "")) ++ ". "
   ++ "Instructions: " ++ format (dict_get row "Instructions" (Str "")))%string.

Definition to_pyval (c : cell) : pyval :=
  match c with
  | NaN => PyFloat FNaN
  | Str s => PyStr s
  | Int z => PyInt z
  | Float repr => PyFloat (FFin repr)
  | Bool b => PyBool b
  end.

(** [df.to_dict('records')]. *)
Definition to_dict_records (df : DataFrame) : list pyval :=
  map (fun row => PyDict (map (fun kv => (fst kv, to_pyval (snd kv))) row))
      (rows df).

(** [get_processed_data(self)], given what [pd.read_csv(self.csv_path)]
    gives: a frame or an exception, which is logged and raised again. *)
Definition get_processed_data (read_csv : result DataFrame)
  : result (list string * list pyval) :=
  match read_csv with
  | Ok df => Ok (map recipe_text (applied_rows df), to_dict_records df)
  | Raise e => Raise e
  end.

End DataProcessor.

(* ================================================================== *)
(** ** recipe_search.py *)
(* ================================================================== *)

Module RecipeSearch.

(** [search_recipes_by_keywords(keywords, limit=3)], given what
    [VectorDB()] gives (a connection or an exception) and the engine.
    Beside the result, what became of the connection: none was made, or
    the connection as the call left it and whether [close()] was reached.
    The handler logs and raises again. *)
Definition search_recipes_by_keywords
           (connect : result VectorDB.db) (fault : VectorDB.faults)
           (keywords : list string) (limit : Z)
  : result (list VectorDB.recipe) * option (VectorDB.db * bool) :=
  match connect with
  | Raise e => (Raise e, None)
  | Ok vector_db =>
      (* Combine keywords into a search term *)
      let search_term := join " " keywords in
      match VectorDB.find_similar_recipes fault search_term limit vector_db with
      | (Ok results, d) => (Ok results, Some (d, true))
      | (Raise e, d) => (Raise e, Some (d, false))
      end
  end.

Definition default_limit : Z := 3.

End RecipeSearch.

(* ================================================================== *)
(** ** app/api.py *)
(* ================================================================== *)

Module Api.

Definition chat_error : string :=
  "Sorry, I encountered an error while processing your message. Please try again.".

(** The body of the [/chat] route: the payload returned for a message. *)
Definition chat (g : CookingAssistant.gemini) (message : string)
  : result (list (string * pyval)) :=
  match CookingAssistant.process_message g message with
  | Ok response => Ok [("response", PyStr response)]%string
  | Raise e =>
      if is_Exception e then Ok [("error", PyStr chat_error)]%string
      else Raise e
  end.

End Api.

(* ================================================================== *)
(** ** Properties of the embedding generator *)
(* ================================================================== *)

Section RetryLoop.

Import EmbeddingGenerator.

Variable remote : api.

(** One attempt, by cases on what the request is answered with. *)
Lemma attempt_body_cases texts max_retries attempt s :
  attempt_body remote texts max_retries attempt s =
  let s1 := sent s texts in
  match remote (requests s) texts with
  | Raise e =>
      if is_RequestException e
      then on_request_exception max_retries attempt e s1
      else (Raise e, s1)
  | Ok r =>
      if status_code r =? 503 then (Ok Continue, slept s1 20)
      else if status_code r =? 429 then (Ok Continue, slept s1 30)
      else if status_code r =? 500
           then (Ok Continue, slept s1 (30 * (attempt + 1)))
      else if error_status (status_code r)
           then on_request_exception max_retries attempt
                  (mkExn HTTPError "HTTP error status") s1
      else match json r with
           | Ok v => (Ok (Return v), s1)
           | Raise e =>
               if is_RequestException e
               then on_request_exception max_retries attempt e s1
               else (Raise e, s1)
           end
  end.
Proof.
  unfold attempt_body, try_except, bind, requests_post, on_request_exception.
  cbn zeta.
  destruct (remote (requests s) texts) as [r | e]; cbn.
  - destruct (status_code r =? 503); [reflexivity |].
    destruct (status_code r =? 429); [reflexivity |].
    destruct (status_code r =? 500); [reflexivity |].
    unfold raise_for_status, error_status.
    destruct ((400 <=? status_code r) && (status_code r <? 600)); cbn.
    + destruct (attempt =? max_retries - 1); reflexivity.
    + unfold response_json.
      destruct (json r) as [v | e]; cbn; [reflexivity |].
      destruct (is_RequestException e); [| reflexivity].
      destruct (attempt =? max_retries - 1); reflexivity.
  - destruct (is_RequestException e); [| reflexivity].
    destruct (attempt =? max_retries - 1); reflexivity.
Qed.

Lemma posts_app t1 t2 : posts (t1 ++ t2) = posts t1 ++ posts t2.
Proof.
  induction t1 as [| [p | n | c | c] t1 IH]; cbn; rewrite ?IH; reflexivity.
Qed.

Lemma checkpoints_written_app t1 t2 :
  checkpoints_written (t1 ++ t2)
  = checkpoints_written t1 ++ checkpoints_written t2.
Proof.
  induction t1 as [| [p | n | c | c] t1 IH]; cbn; rewrite ?IH; reflexivity.
Qed.

(** An attempt sends exactly one request, with the texts it was given,
    may sleep afterwards, and touches nothing else. *)
Lemma attempt_body_effect texts max_retries attempt s :
  let s' := snd (attempt_body remote texts max_retries attempt s) in
  requests s' = S (requests s)
  /\ disk s' = disk s
  /\ all_embeddings s' = all_embeddings s
  /\ processed_metadata s' = processed_metadata s
  /\ writes s' = writes s
  /\ exists evs, trace s' = trace s ++ Post texts :: evs /\ posts evs = []
                 /\ checkpoints_written evs = [].
Proof.
  rewrite attempt_body_cases. cbn zeta. unfold on_request_exception.
  assert (E0 : trace (sent s texts) = trace s ++ [Post texts]) by reflexivity.
  repeat match goal with
         | |- context [match ?x with _ => _ end] => destruct x
         end; cbn;
    repeat split;
    try (exists []; repeat split; reflexivity);
    try (rewrite <- app_assoc; eexists; repeat split; reflexivity).
Qed.


(** The retry loop sends at most one request per attempt, all with the
    same texts, and leaves the checkpoint file and the accumulators
    alone. *)
Lemma retry_loop_effect texts max_retries attempts : forall s,
  let s' := snd (retry_loop remote texts max_retries attempts s) in
  (requests s <= requests s' <= requests s + List.length attempts)%nat
  /\ disk s' = disk s
  /\ all_embeddings s' = all_embeddings s
  /\ processed_metadata s' = processed_metadata s
  /\ writes s' = writes s
  /\ exists evs, trace s' = trace s ++ evs
                 /\ posts evs = repeat texts (requests s' - requests s)
                 /\ checkpoints_written evs = [].
Proof.
  induction attempts as [| attempt rest IH]; intros s; cbn zeta.
  - cbn. repeat split; try lia.
    exists []. rewrite app_nil_r, Nat.sub_diag. repeat split; reflexivity.
  - cbn [retry_loop]. unfold bind.
    pose proof (attempt_body_effect texts max_retries attempt s) as H.
    cbn zeta in H.
    destruct (attempt_body remote texts max_retries attempt s) as [[c | e] s1].
    all: cbn [snd] in H;
         destruct H as (Hr & Hd & Ha & Hm & Hw & evs & Ht & Hp & Hc).
    + destruct c as [| v].
      * specialize (IH s1). cbn zeta in IH.
        destruct (retry_loop remote texts max_retries rest s1) as [r s2].
        cbn [snd] in *.
        destruct IH as (Hr2 & Hd2 & Ha2 & Hm2 & Hw2 & evs2 & Ht2 & Hp2 & Hc2).
        cbn [List.length].
        repeat split; try lia; try congruence.
        exists (Post texts :: evs ++ evs2). split; [| split].
        -- rewrite Ht2, Ht, <- app_assoc. reflexivity.
        -- cbn [posts]. rewrite posts_app, Hp, Hp2. cbn [app].
           replace (requests s2 - requests s)%nat
             with (S (requests s2 - requests s1)) by lia.
           reflexivity.
        -- cbn [checkpoints_written].
           rewrite checkpoints_written_app, Hc, Hc2. reflexivity.
      * cbn [ret snd List.length].
        repeat split; try lia; try congruence.
        exists (Post texts :: evs). split; [exact Ht | split; [| exact Hc]].
        cbn [posts]. rewrite Hp, Hr.
        replace (S (requests s) - requests s)%nat with 1%nat by lia.
        reflexivity.
    + cbn [snd List.length].
      repeat split; try lia; try congruence.
      exists (Post texts :: evs). split; [exact Ht | split; [| exact Hc]].
      cbn [posts]. rewrite Hp, Hr.
      replace (S (requests s) - requests s)%nat with 1%nat by lia.
      reflexivity.
Qed.


(** While every answer carries one of the three retried statuses, the
    loop runs through all its attempts and falls off its end. *)
Lemma retry_loop_exhausted texts max_retries attempts : forall s,
  (forall n, (n < List.length attempts)%nat ->
     exists r, remote (requests s + n)%nat texts = Ok r
               /\ retried_status (status_code r) = true) ->
  exists s', retry_loop remote texts max_retries attempts s = (Ok PyNone, s')
             /\ requests s' = (requests s + List.length attempts)%nat.
Proof.
  induction attempts as [| attempt rest IH]; intros s H.
  - exists s. cbn. split; [reflexivity | lia].
  - cbn [retry_loop]. unfold bind.
    destruct (H 0%nat) as (r & Hr & Hs); [cbn; lia |].
    rewrite Nat.add_0_r in Hr.
    pose proof (attempt_body_effect texts max_retries attempt s) as E.
    cbn zeta in E. destruct E as (Ereq & _).
    assert (Hc : fst (attempt_body remote texts max_retries attempt s) = Ok Continue).
    { rewrite attempt_body_cases. cbn zeta. rewrite Hr.
      unfold retried_status in Hs.
      destruct (status_code r =? 503); [reflexivity |].
      destruct (status_code r =? 429); [reflexivity |].
      destruct (status_code r =? 500); [reflexivity | discriminate]. }
    destruct (attempt_body remote texts max_retries attempt s) as [c s1].
    cbn [fst snd] in *. subst c.
    destruct (IH s1) as (s' & Hrun & Hreq).
    + intros n Hn. rewrite Ereq.
      destruct (H (S n)) as (r' & Hr' & Hs'); [cbn; lia |].
      exists r'. split; [| exact Hs'].
      rewrite <- Hr'. f_equal. lia.
    + exists s'. split; [exact Hrun |]. rewrite Hreq, Ereq. cbn. lia.
Qed.

End RetryLoop.

(** C10. When every one of the [max_retries] attempts of
    [_make_api_request] is answered with HTTP 503, 429 or 500, the function
    returns [None]: it does not raise and it returns no embedding list. *)
Theorem C10_exhausted_statuses_return_None :
  forall (remote : EmbeddingGenerator.api) (texts : list string)
         (max_retries : Z) (s : EmbeddingGenerator.state),
    (forall n, (n < Z.to_nat max_retries)%nat ->
       exists r, remote (EmbeddingGenerator.requests s + n)%nat texts = Ok r
                 /\ EmbeddingGenerator.retried_status
                      (EmbeddingGenerator.status_code r) = true) ->
    exists s',
      EmbeddingGenerator._make_api_request remote texts max_retries s
      = (Ok PyNone, s')
      /\ EmbeddingGenerator.requests s'
         = (EmbeddingGenerator.requests s + Z.to_nat max_retries)%nat.
Proof.
  intros remote texts max_retries s H.
  unfold EmbeddingGenerator._make_api_request.
  destruct (retry_loop_exhausted remote texts max_retries
              (map Z.of_nat (seq 0 (Z.to_nat max_retries))) s) as (s' & Hrun & Hreq).
  - rewrite length_map, length_seq. exact H.
  - exists s'. split; [exact Hrun |].
    rewrite Hreq, length_map, length_seq. reflexivity.
Qed.

(** Five answers 503, 429, 500, 500, 503 to the default five attempts. *)
Lemma C10_exhausted_statuses_witness :
  exists s',
    EmbeddingGenerator._make_api_request
      (EmbeddingGenerator.scripted
         [EmbeddingGenerator.answer 503 PyNone;
          EmbeddingGenerator.answer 429 PyNone;
          EmbeddingGenerator.answer 500 PyNone;
          EmbeddingGenerator.answer 500 PyNone;
          EmbeddingGenerator.answer 503 PyNone]
         (EmbeddingGenerator.answer 200 (PyList [])))
      ["soup"%string] 5 (EmbeddingGenerator.initial None)
    = (Ok PyNone, s')
    /\ EmbeddingGenerator.requests s' = 5%nat.
Proof.
  apply (C10_exhausted_statuses_return_None
           (EmbeddingGenerator.scripted
              [EmbeddingGenerator.answer 503 PyNone;
               EmbeddingGenerator.answer 429 PyNone;
               EmbeddingGenerator.answer 500 PyNone;
               EmbeddingGenerator.answer 500 PyNone;
               EmbeddingGenerator.answer 503 PyNone]
              (EmbeddingGenerator.answer 200 (PyList [])))
           ["soup"%string] 5 (EmbeddingGenerator.initial None)).
  intros n Hn. cbn in Hn.
  destruct n as [| [| [| [| [| n]]]]]; try lia;
    cbn; eexists; split; reflexivity.
Defined.

(** C9. A request answered 429 and then 200 returns the same embeddings as
    a request answered 200 at once: the body of the 200 response. *)
Theorem C9_retry_after_429_is_transparent :
  forall (remote_retry remote_direct : EmbeddingGenerator.api)
         (texts : list string) (body : pyval) (max_retries : Z)
         (s : EmbeddingGenerator.state),
    2 <= max_retries ->
    (exists r, remote_retry (EmbeddingGenerator.requests s) texts = Ok r
               /\ EmbeddingGenerator.status_code r = 429) ->
    remote_retry (S (EmbeddingGenerator.requests s)) texts
    = EmbeddingGenerator.answer 200 body ->
    remote_direct (EmbeddingGenerator.requests s) texts
    = EmbeddingGenerator.answer 200 body ->
    fst (EmbeddingGenerator._make_api_request remote_retry texts max_retries s)
    = fst (EmbeddingGenerator._make_api_request remote_direct texts max_retries s)
    /\ fst (EmbeddingGenerator._make_api_request remote_direct texts max_retries s)
       = Ok body.
Proof.
  intros remote_retry remote_direct texts body max_retries s Hmax
         (r & Hr & H429) H200 Hdirect.
  unfold EmbeddingGenerator._make_api_request.
  destruct (Z.to_nat max_retries) as [| [| n]] eqn:En; try lia.
  cbn [seq map EmbeddingGenerator.retry_loop]. unfold bind.
  assert (Hd : EmbeddingGenerator.attempt_body remote_direct texts max_retries
                 (Z.of_nat 0) s
               = (Ok (EmbeddingGenerator.Return body),
                  EmbeddingGenerator.sent s texts)).
  { rewrite attempt_body_cases. cbn zeta. rewrite Hdirect. reflexivity. }
  assert (Hr1 : EmbeddingGenerator.attempt_body remote_retry texts max_retries
                  (Z.of_nat 0) s
                = (Ok EmbeddingGenerator.Continue,
                   EmbeddingGenerator.slept (EmbeddingGenerator.sent s texts) 30)).
  { rewrite attempt_body_cases. cbn zeta. rewrite Hr, H429. reflexivity. }
  rewrite Hd, Hr1.
  assert (Hr2 : EmbeddingGenerator.attempt_body remote_retry texts max_retries
                  (Z.of_nat 1)
                  (EmbeddingGenerator.slept (EmbeddingGenerator.sent s texts) 30)
                = (Ok (EmbeddingGenerator.Return body),
                   EmbeddingGenerator.sent
                     (EmbeddingGenerator.slept (EmbeddingGenerator.sent s texts) 30)
                     texts)).
  { rewrite attempt_body_cases. cbn zeta.
    cbn [EmbeddingGenerator.requests EmbeddingGenerator.slept
         EmbeddingGenerator.sent].
    rewrite H200. reflexivity. }
  rewrite Hr2. cbn. split; reflexivity.
Qed.

(** A 429 followed by a 200, against a 200 at once, with five attempts. *)
Lemma C9_retry_after_429_witness :
  fst (EmbeddingGenerator._make_api_request
         (EmbeddingGenerator.scripted
            [EmbeddingGenerator.answer 429 PyNone]
            (EmbeddingGenerator.answer 200 (PyList [PyList [PyInt 1]])))
         ["soup"%string] 5 (EmbeddingGenerator.initial None))
  = fst (EmbeddingGenerator._make_api_request
           (EmbeddingGenerator.scripted []
              (EmbeddingGenerator.answer 200 (PyList [PyList [PyInt 1]])))
           ["soup"%string] 5 (EmbeddingGenerator.initial None))
  /\ fst (EmbeddingGenerator._make_api_request
            (EmbeddingGenerator.scripted []
               (EmbeddingGenerator.answer 200 (PyList [PyList [PyInt 1]])))
            ["soup"%string] 5 (EmbeddingGenerator.initial None))
     = Ok (PyList [PyList [PyInt 1]]).
Proof.
  apply (C9_retry_after_429_is_transparent
           (EmbeddingGenerator.scripted
              [EmbeddingGenerator.answer 429 PyNone]
              (EmbeddingGenerator.answer 200 (PyList [PyList [PyInt 1]])))
           (EmbeddingGenerator.scripted []
              (EmbeddingGenerator.answer 200 (PyList [PyList [PyInt 1]])))
           ["soup"%string] (PyList [PyList [PyInt 1]]) 5
           (EmbeddingGenerator.initial None)).
  - lia.
  - eexists. split; reflexivity.
  - reflexivity.
  - reflexivity.
Defined.


Lemma nth_error_after {A : Type} (pre : list A) (x : A) (rest : list A) (n : nat) :
  List.length pre = n -> nth_error (pre ++ x :: rest) n = Some x.
Proof.
  intros <-. rewrite nth_error_app2 by lia. rewrite Nat.sub_diag. reflexivity.
Qed.

Lemma nth_error_after1 {A : Type} (pre : list A) (x y : A) (rest : list A)
      (n : nat) :
  List.length pre = n -> nth_error (pre ++ x :: y :: rest) (n + 1) = Some y.
Proof.
  intros <-. rewrite nth_error_app2 by lia.
  replace (List.length pre + 1 - List.length pre)%nat with 1%nat by lia.
  reflexivity.
Qed.

Lemma nth_error_after2 {A : Type} (pre : list A) (x y z : A) (rest : list A)
      (n : nat) :
  List.length pre = n -> nth_error (pre ++ x :: y :: z :: rest) (n + 2) = Some z.
Proof.
  intros <-. rewrite nth_error_app2 by lia.
  replace (List.length pre + 2 - List.length pre)%nat with 2%nat by lia.
  reflexivity.
Qed.

Section RetryPolicy.

Import EmbeddingGenerator.

Variable remote : api.

(** An attempt that is not the last one and is answered with something
    the loop goes on after sleeps and hands over to the next attempt. *)
Lemma attempt_body_goes_on texts max_retries attempt s :
  goes_on (remote (requests s) texts) = true ->
  attempt <> max_retries - 1 ->
  exists seconds,
    attempt_body remote texts max_retries attempt s
    = (Ok Continue, slept (sent s texts) seconds).
Proof.
  intros Hgo Hne. rewrite attempt_body_cases. cbn zeta.
  unfold goes_on, retried_status, on_request_exception in *.
  destruct (Z.eqb_spec attempt (max_retries - 1)) as [E | _]; [contradiction |].
  destruct (remote (requests s) texts) as [r | e].
  - destruct (status_code r =? 503); [eexists; reflexivity |].
    destruct (status_code r =? 429); [eexists; reflexivity |].
    destruct (status_code r =? 500); [eexists; reflexivity |].
    destruct (error_status (status_code r)); [eexists; reflexivity |].
    cbn [orb] in Hgo.
    destruct (json r) as [v | e]; [discriminate |].
    rewrite Hgo. eexists. reflexivity.
  - rewrite Hgo. eexists. reflexivity.
Qed.

(** The attempts before the [k]-th, all of them answered with something
    the loop goes on after, leave a request and a sleep each in the
    trace. *)
Lemma retry_loop_going_on texts max_retries : forall (k a n : nat) s,
  (k < n)%nat ->
  (a + n <= Z.to_nat max_retries)%nat ->
  (forall j, (j < k)%nat ->
     goes_on (remote (requests s + j)%nat texts) = true) ->
  exists sk evs,
    retry_loop remote texts max_retries (map Z.of_nat (seq a n)) s
    = retry_loop remote texts max_retries
                 (map Z.of_nat (seq (a + k) (n - k))) sk
    /\ trace sk = trace s ++ evs
    /\ List.length evs = (2 * k)%nat
    /\ requests sk = (requests s + k)%nat.
Proof.
  induction k as [| k IH]; intros a n s Hk Hn Hgo.
  - exists s, []. rewrite Nat.add_0_r, Nat.sub_0_r, app_nil_r.
    repeat split; lia.
  - destruct n as [| n]; [lia |].
    cbn [seq map retry_loop]. unfold bind.
    destruct (attempt_body_goes_on texts max_retries (Z.of_nat a) s)
      as (w & ->).
    { specialize (Hgo 0%nat ltac:(lia)). rewrite Nat.add_0_r in Hgo. exact Hgo. }
    { lia. }
    destruct (IH (S a) n (slept (sent s texts) w)) as (sk & evs & Hrun & Ht & Hl & Hr).
    { lia. }
    { lia. }
    { intros j Hj. cbn [requests slept sent].
      replace (S (requests s) + j)%nat with (requests s + S j)%nat by lia.
      apply Hgo. lia. }
    exists sk, (Post texts :: Sleep w :: evs).
    rewrite Hrun. replace (S a + k)%nat with (a + S k)%nat by lia.
    cbn [Nat.sub]. split; [reflexivity |].
    split.
    + rewrite Ht. cbn [trace slept sent]. rewrite <- !app_assoc. reflexivity.
    + split; [cbn [List.length]; lia |].
      rewrite Hr. cbn [requests slept sent]. lia.
Qed.

(** A loop with an attempt to run begins by sending a request. *)
Lemma retry_loop_begins_with_post texts max_retries attempt rest s :
  exists evs,
    trace (snd (retry_loop remote texts max_retries (attempt :: rest) s))
    = trace s ++ Post texts :: evs.
Proof.
  cbn [retry_loop]. unfold bind.
  pose proof (attempt_body_effect remote texts max_retries attempt s) as H.
  cbn zeta in H.
  destruct (attempt_body remote texts max_retries attempt s) as [[[| v] | e] s1];
    cbn [snd] in H; destruct H as (_ & _ & _ & _ & _ & evs & Ht & _ & _).
  - pose proof (retry_loop_effect remote texts max_retries rest s1) as H2.
    cbn zeta in H2. destruct H2 as (_ & _ & _ & _ & _ & evs2 & Ht2 & _ & _).
    exists (evs ++ evs2). rewrite Ht2, Ht, <- app_assoc. reflexivity.
  - exists evs. exact Ht.
  - exists evs. exact Ht.
Qed.

(** The loop from an attempt on that goes on to the next one. *)
Lemma retry_loop_after_sleep texts max_retries attempt rest s seconds :
  attempt_body remote texts max_retries attempt s
  = (Ok Continue, slept (sent s texts) seconds) ->
  exists evs,
    trace (snd (retry_loop remote texts max_retries (attempt :: rest) s))
    = trace s ++ Post texts :: Sleep seconds :: evs
    /\ (rest <> [] -> exists evs', evs = Post texts :: evs').
Proof.
  intros Hbody. cbn [retry_loop]. unfold bind. rewrite Hbody.
  destruct rest as [| next rest].
  - exists []. cbn [retry_loop ret snd trace slept sent].
    rewrite <- app_assoc. split; [reflexivity | intros H; contradiction].
  - destruct (retry_loop_begins_with_post texts max_retries next rest
                (slept (sent s texts) seconds)) as (evs & Ht).
    exists (Post texts :: evs). rewrite Ht. cbn [trace slept sent].
    rewrite <- !app_assoc. split; [reflexivity |].
    intros _. exists evs. reflexivity.
Qed.

End RetryPolicy.

(** C2, the claim at two inputs.  A 404 followed by a 200 does not raise:
    the 404 is slept on for 10 seconds and retried.  And five 503 answers
    end the call after five requests: the retries are capped. *)
Lemma C2_other_status_retried_and_retries_capped :
  EmbeddingGenerator._make_api_request
    (EmbeddingGenerator.scripted
       [EmbeddingGenerator.answer 404 PyNone]
       (EmbeddingGenerator.answer 200 (PyList [PyList [PyInt 1]])))
    ["soup"%string] 5 (EmbeddingGenerator.initial None)
  = (Ok (PyList [PyList [PyInt 1]]),
     EmbeddingGenerator.mkState 2 EmbeddingGenerator.NoFile
       [EmbeddingGenerator.Post ["soup"%string];
        EmbeddingGenerator.Sleep 10;
        EmbeddingGenerator.Post ["soup"%string]] [] [] 0)
  /\ EmbeddingGenerator._make_api_request
       (EmbeddingGenerator.scripted [] (EmbeddingGenerator.answer 503 PyNone))
       ["soup"%string] 5 (EmbeddingGenerator.initial None)
     = (Ok PyNone,
        EmbeddingGenerator.mkState 5 EmbeddingGenerator.NoFile
          [EmbeddingGenerator.Post ["soup"%string]; EmbeddingGenerator.Sleep 20;
           EmbeddingGenerator.Post ["soup"%string]; EmbeddingGenerator.Sleep 20;
           EmbeddingGenerator.Post ["soup"%string]; EmbeddingGenerator.Sleep 20;
           EmbeddingGenerator.Post ["soup"%string]; EmbeddingGenerator.Sleep 20;
           EmbeddingGenerator.Post ["soup"%string]; EmbeddingGenerator.Sleep 20]
          [] [] 0).
Proof. split; reflexivity. Qed.

(** C2, as the code has it, for one call of [_make_api_request] and its
    attempt number [k] (counting from 0), reached because every earlier
    attempt was answered with something the loop goes on after.  The
    events of the call are a request and, unless the call ends there, a
    sleep per attempt: the [k]-th request is event [2k], and the sleep
    after it, event [2k + 1], is 20 s after a 503, 30 s after a 429 and
    [30 * (k + 1)] s after a 500.  Any other 4xx or 5xx status is raised
    by [raise_for_status] inside the [try] and handled as a network-level
    [RequestException] is: a sleep of [10 * (k + 1)] s, or, in the last
    attempt, the exception raised again with no sleep.  After the sleep
    comes the request of attempt [k + 1], if there is one; an answer
    with none of these statuses ends the call with its decoded body.
    Every branch uses up an attempt, so one call sends at most
    [max_retries] requests. *)
Theorem C2_retry_policy :
  forall (remote : EmbeddingGenerator.api) (texts : list string)
         (max_retries : Z) (s : EmbeddingGenerator.state) (k : nat),
    (k < Z.to_nat max_retries)%nat ->
    (forall j, (j < k)%nat ->
       EmbeddingGenerator.goes_on
         (remote (EmbeddingGenerator.requests s + j)%nat texts) = true) ->
    let attempt := Z.of_nat k in
    let answer := remote (EmbeddingGenerator.requests s + k)%nat texts in
    let run := EmbeddingGenerator._make_api_request remote texts max_retries s in
    exists evs,
      EmbeddingGenerator.trace (snd run) = EmbeddingGenerator.trace s ++ evs
      /\ nth_error evs (2 * k) = Some (EmbeddingGenerator.Post texts)
      /\ (forall r, answer = Ok r ->
            (EmbeddingGenerator.status_code r = 503 ->
               nth_error evs (2 * k + 1) = Some (EmbeddingGenerator.Sleep 20))
            /\ (EmbeddingGenerator.status_code r = 429 ->
               nth_error evs (2 * k + 1) = Some (EmbeddingGenerator.Sleep 30))
            /\ (EmbeddingGenerator.status_code r = 500 ->
               nth_error evs (2 * k + 1)
               = Some (EmbeddingGenerator.Sleep (30 * (attempt + 1))))
            /\ (EmbeddingGenerator.retried_status
                  (EmbeddingGenerator.status_code r) = false ->
                EmbeddingGenerator.error_status
                  (EmbeddingGenerator.status_code r) = true ->
                (attempt <> max_retries - 1 ->
                   nth_error evs (2 * k + 1)
                   = Some (EmbeddingGenerator.Sleep (10 * (attempt + 1))))
                /\ (attempt = max_retries - 1 ->
                    fst run = Raise (mkExn HTTPError "HTTP error status")
                    /\ List.length evs = (2 * k + 1)%nat))
            /\ (forall v,
                  EmbeddingGenerator.retried_status
                    (EmbeddingGenerator.status_code r) = false ->
                  EmbeddingGenerator.error_status
                    (EmbeddingGenerator.status_code r) = false ->
                  EmbeddingGenerator.json r = Ok v ->
                  fst run = Ok v /\ List.length evs = (2 * k + 1)%nat))
      /\ (forall e, answer = Raise e ->
            is_RequestException e = true ->
            (attempt <> max_retries - 1 ->
               nth_error evs (2 * k + 1)
               = Some (EmbeddingGenerator.Sleep (10 * (attempt + 1))))
            /\ (attempt = max_retries - 1 ->
                fst run = Raise e /\ List.length evs = (2 * k + 1)%nat))
      /\ (EmbeddingGenerator.goes_on answer = true ->
          attempt <> max_retries - 1 ->
          nth_error evs (2 * k + 2) = Some (EmbeddingGenerator.Post texts))
      /\ (EmbeddingGenerator.requests (snd run)
          <= EmbeddingGenerator.requests s + Z.to_nat max_retries)%nat.
Proof.
  intros remote texts max_retries s k Hk Hgo attempt answer run.
  destruct (retry_loop_going_on remote texts max_retries k 0
              (Z.to_nat max_retries) s Hk ltac:(lia) Hgo)
    as (sk & evs_k & Hrun & Htk & Hlen & Hreq).
  assert (Hrun' : run = EmbeddingGenerator.retry_loop remote texts max_retries
                          (attempt :: map Z.of_nat
                                        (seq (S k) (Z.to_nat max_retries - S k)))
                          sk).
  { subst run. unfold EmbeddingGenerator._make_api_request. rewrite Hrun.
    cbn [Nat.add].
    replace (Z.to_nat max_retries - k)%nat
      with (S (Z.to_nat max_retries - S k)) by lia.
    reflexivity. }
  set (rest := map Z.of_nat (seq (S k) (Z.to_nat max_retries - S k))) in *.
  assert (Hrest : attempt <> max_retries - 1 -> rest <> []).
  { intros Hne. subst rest attempt.
    destruct (Z.to_nat max_retries - S k)%nat eqn:E; [lia | discriminate]. }
  assert (Hanswer : remote (EmbeddingGenerator.requests sk) texts = answer).
  { subst answer. rewrite Hreq. reflexivity. }
  destruct (retry_loop_begins_with_post remote texts max_retries attempt rest sk)
    as (evs1 & Ht1).
  rewrite <- Hrun' in Ht1.
  exists (evs_k ++ EmbeddingGenerator.Post texts :: evs1).
  assert (Hsleep : forall seconds,
            EmbeddingGenerator.attempt_body remote texts max_retries attempt sk
            = (Ok EmbeddingGenerator.Continue,
               EmbeddingGenerator.slept (EmbeddingGenerator.sent sk texts) seconds) ->
            nth_error (evs_k ++ EmbeddingGenerator.Post texts :: evs1) (2 * k + 1)
            = Some (EmbeddingGenerator.Sleep seconds)
            /\ (attempt <> max_retries - 1 ->
                nth_error (evs_k ++ EmbeddingGenerator.Post texts :: evs1)
                          (2 * k + 2)
                = Some (EmbeddingGenerator.Post texts))).
  { intros seconds Hbody.
    destruct (retry_loop_after_sleep remote texts max_retries attempt rest sk
                seconds Hbody) as (evs2 & Ht2 & Hnext).
    rewrite <- Hrun', Ht1 in Ht2. apply app_inv_head in Ht2.
    injection Ht2 as ->. split.
    - apply nth_error_after1. exact Hlen.
    - intros Hne. destruct (Hnext (Hrest Hne)) as (evs' & ->).
      apply nth_error_after2. exact Hlen. }
  assert (Hend : forall (outcome : result pyval),
            EmbeddingGenerator.attempt_body remote texts max_retries attempt sk
            = (match outcome with
               | Ok v => Ok (EmbeddingGenerator.Return v)
               | Raise e => Raise e
               end, EmbeddingGenerator.sent sk texts) ->
            fst run = outcome
            /\ List.length (evs_k ++ EmbeddingGenerator.Post texts :: evs1)
               = (2 * k + 1)%nat).
  { intros outcome Hbody.
    assert (Hfinal : run = (outcome, EmbeddingGenerator.sent sk texts)).
    { rewrite Hrun'. cbn [EmbeddingGenerator.retry_loop]. unfold bind.
      rewrite Hbody. destruct outcome; reflexivity. }
    rewrite Hfinal in Ht1 |- *. cbn [fst snd] in *.
    cbn [EmbeddingGenerator.trace EmbeddingGenerator.sent] in Ht1.
    apply app_inv_head in Ht1. injection Ht1 as <-.
    split; [reflexivity |]. rewrite length_app, Hlen. cbn [List.length]. lia. }
  pose proof (attempt_body_cases remote texts max_retries attempt sk) as Hcases.
  cbn zeta in Hcases. rewrite Hanswer in Hcases.
  unfold EmbeddingGenerator.on_request_exception in Hcases.
  split; [rewrite Ht1, Htk, <- app_assoc; reflexivity |].
  split; [apply nth_error_after; exact Hlen |].
  split; [| split; [| split]].
  - intros r Hr. rewrite Hr in Hcases.
    split; [| split; [| split; [| split]]].
    + intros H. rewrite H in Hcases. apply (Hsleep 20 Hcases).
    + intros H. rewrite H in Hcases. apply (Hsleep 30 Hcases).
    + intros H. rewrite H in Hcases. apply (Hsleep _ Hcases).
    + intros Hnot Herr. unfold EmbeddingGenerator.retried_status in Hnot.
      destruct (EmbeddingGenerator.status_code r =? 503); [discriminate |].
      destruct (EmbeddingGenerator.status_code r =? 429); [discriminate |].
      destruct (EmbeddingGenerator.status_code r =? 500); [discriminate |].
      rewrite Herr in Hcases.
      destruct (Z.eqb_spec attempt (max_retries - 1)) as [E | E]; split;
        intros E'; try contradiction.
      * apply (Hend (Raise (mkExn HTTPError "HTTP error status")) Hcases).
      * apply (Hsleep _ Hcases).
    + intros v Hnot Herr Hjson.
      unfold EmbeddingGenerator.retried_status in Hnot.
      destruct (EmbeddingGenerator.status_code r =? 503); [discriminate |].
      destruct (EmbeddingGenerator.status_code r =? 429); [discriminate |].
      destruct (EmbeddingGenerator.status_code r =? 500); [discriminate |].
      rewrite Herr, Hjson in Hcases.
      apply (Hend (Ok v) Hcases).
  - intros e He Hreqexn. rewrite He, Hreqexn in Hcases.
    destruct (Z.eqb_spec attempt (max_retries - 1)) as [E | E]; split;
      intros E'; try contradiction.
    + apply (Hend (Raise e) Hcases).
    + apply (Hsleep _ Hcases).
  - intros Hgoes Hne.
    destruct (attempt_body_goes_on remote texts max_retries attempt sk)
      as (w & Hbody); [rewrite Hanswer; exact Hgoes | exact Hne |].
    apply (Hsleep w Hbody). exact Hne.
  - subst run. unfold EmbeddingGenerator._make_api_request.
    pose proof (retry_loop_effect remote texts max_retries
                  (map Z.of_nat (seq 0 (Z.to_nat max_retries))) s) as H.
    cbn zeta in H. rewrite length_map, length_seq in H. lia.
Qed.

(** A call of five attempts answered 500, 404, 500 and then 200: its
    third attempt is event 4, the sleep after its 500 lasts
    [30 * (2 + 1)] seconds, and the fourth request follows. *)
Lemma C2_retry_policy_witness :
  exists evs,
    EmbeddingGenerator.trace
      (snd (EmbeddingGenerator._make_api_request
              (EmbeddingGenerator.scripted
                 [EmbeddingGenerator.answer 500 PyNone;
                  EmbeddingGenerator.answer 404 PyNone;
                  EmbeddingGenerator.answer 500 PyNone]
                 (EmbeddingGenerator.answer 200 (PyList [])))
              ["soup"%string] 5 (EmbeddingGenerator.initial None)))
    = EmbeddingGenerator.trace (EmbeddingGenerator.initial None) ++ evs
    /\ nth_error evs 4 = Some (EmbeddingGenerator.Post ["soup"%string])
    /\ nth_error evs 5 = Some (EmbeddingGenerator.Sleep 90)
    /\ nth_error evs 6 = Some (EmbeddingGenerator.Post ["soup"%string]).
Proof.
  destruct (C2_retry_policy
              (EmbeddingGenerator.scripted
                 [EmbeddingGenerator.answer 500 PyNone;
                  EmbeddingGenerator.answer 404 PyNone;
                  EmbeddingGenerator.answer 500 PyNone]
                 (EmbeddingGenerator.answer 200 (PyList [])))
              ["soup"%string] 5 (EmbeddingGenerator.initial None) 2%nat)
    as (evs & Htrace & Hpost & Hstatus & _ & Hnext & _).
  - cbn. lia.
  - intros j Hj. destruct j as [| [| j]]; [reflexivity | reflexivity | lia].
  - exists evs. split; [exact Htrace |]. split; [exact Hpost |]. split.
    + destruct (Hstatus (EmbeddingGenerator.mkResponse 500 (Ok PyNone)) eq_refl)
        as (_ & _ & H500 & _).
      apply H500. reflexivity.
    + apply Hnext; [reflexivity | cbn; lia].
Defined.
Section BatchLoop.

Import EmbeddingGenerator.

Variable remote : api.
Variable store : storage.

Lemma make_api_request_effect texts max_retries s :
  let s' := snd (_make_api_request remote texts max_retries s) in
  disk s' = disk s
  /\ all_embeddings s' = all_embeddings s
  /\ processed_metadata s' = processed_metadata s
  /\ writes s' = writes s
  /\ exists evs, trace s' = trace s ++ evs
                 /\ (forall p, In p (posts evs) -> p = texts)
                 /\ checkpoints_written evs = [].
Proof.
  unfold _make_api_request.
  pose proof (retry_loop_effect remote texts max_retries
                (map Z.of_nat (seq 0 (Z.to_nat max_retries))) s) as H.
  cbn zeta in *.
  destruct H as (_ & Hd & Ha & Hm & Hw & evs & Ht & Hp & Hc).
  repeat split; try assumption.
  exists evs. split; [exact Ht |]. split; [| exact Hc].
  intros p Hin. rewrite Hp in Hin. apply repeat_spec in Hin. exact Hin.
Qed.

(** A write, by what it comes to. *)
Lemma save_checkpoint_cases batch_index s :
  _save_checkpoint store batch_index (all_embeddings s) (processed_metadata s) s
  = save store batch_index s.
Proof.
  unfold _save_checkpoint, save, saved, save_failed, current_checkpoint.
  destruct (store (writes s)); reflexivity.
Qed.

(** A write touches the file and the trace only, and when it goes
    through the file holds the accumulators. *)
Lemma save_effect batch_index s :
  let c := current_checkpoint batch_index s in
  let s' := snd (save store batch_index s) in
  requests s' = requests s
  /\ all_embeddings s' = all_embeddings s
  /\ processed_metadata s' = processed_metadata s
  /\ writes s' = S (writes s)
  /\ ((fst (save store batch_index s) = Ok tt
       /\ store (writes s) = Written
       /\ disk s' = Pickled c
       /\ trace s' = trace s ++ [SaveCheckpoint c])
      \/ (exists e, fst (save store batch_index s) = Raise e
                    /\ (store (writes s) = NotOpened e
                        \/ exists on_load, store (writes s) = Torn e on_load)
                    /\ trace s' = trace s ++ [SaveFailed c])).
Proof.
  unfold save. cbn zeta.
  destruct (store (writes s)) as [| e | e on_load]; cbn;
    repeat split; try reflexivity.
  - left. repeat split.
  - right. exists e. repeat split. left. reflexivity.
  - right. exists e. repeat split. right. exists on_load. reflexivity.
Qed.

Lemma save_accumulators batch_index s :
  (e <- get_all_embeddings ;;
   m <- get_processed_metadata ;;
   _save_checkpoint store batch_index e m)%py s
  = save store batch_index s.
Proof.
  unfold bind, get_all_embeddings, get_processed_metadata.
  apply save_checkpoint_cases.
Qed.

Lemma handler_cases batch_index exc s :
  (e <- get_all_embeddings ;;
   m <- get_processed_metadata ;;
   _save_checkpoint store batch_index e m ;;;
   raise exc)%py s
  = on_batch_error store batch_index exc s.
Proof.
  unfold bind, get_all_embeddings, get_processed_metadata, on_batch_error.
  rewrite save_checkpoint_cases.
  destruct (save store batch_index s) as [[[] | e] s']; reflexivity.
Qed.

(** One batch, by cases on how its request and its writes end. *)
Lemma process_batch_cases texts metadata batch_size i s :
  process_batch remote store texts metadata batch_size i s =
  match _make_api_request remote (slice texts i (i + batch_size))
                          default_max_retries s with
  | (Raise e, s1) => on_batch_error store (i / batch_size) e s1
  | (Ok batch_embeddings, s1) =>
      match iter batch_embeddings with
      | Raise e => on_batch_error store (i / batch_size) e s1
      | Ok l =>
          let s2 := extended s1 l (slice metadata i (i + batch_size)) in
          if (i / batch_size) mod 5 =? 0
          then match save store (i / batch_size) s2 with
               | (Ok _, s3) => (Ok tt, slept s3 1)
               | (Raise e, s3) => on_batch_error store (i / batch_size) e s3
               end
          else (Ok tt, slept s2 1)
      end
  end.
Proof.
  unfold process_batch, try_except. cbn zeta.
  unfold bind at 1.
  destruct (_make_api_request remote (slice texts i (i + batch_size))
              default_max_retries s) as [[v | e] s1]; cbn [is_Exception].
  2: { apply handler_cases. }
  unfold bind at 1. unfold extend_all_embeddings at 1.
  destruct (iter v) as [l | e]; cbn [is_Exception].
  2: { apply handler_cases. }
  unfold bind at 1. unfold extend_processed_metadata at 1.
  cbn [requests disk trace all_embeddings processed_metadata writes].
  change (mkState (requests s1) (disk s1) (trace s1) (all_embeddings s1 ++ l)
            (processed_metadata s1 ++ slice metadata i (i + batch_size))
            (writes s1))
    with (extended s1 l (slice metadata i (i + batch_size))).
  set (s2 := extended s1 l (slice metadata i (i + batch_size))).
  unfold bind at 1.
  destruct ((i / batch_size) mod 5 =? 0).
  - rewrite save_accumulators.
    destruct (save store (i / batch_size) s2) as [[[] | e] s3];
      cbn [is_Exception].
    + reflexivity.
    + apply handler_cases.
  - reflexivity.
Qed.

(** What the handler leaves behind. *)
Lemma on_batch_error_effect batch_index exc s :
  let c := current_checkpoint batch_index s in
  let s' := snd (on_batch_error store batch_index exc s) in
  requests s' = requests s
  /\ all_embeddings s' = all_embeddings s
  /\ processed_metadata s' = processed_metadata s
  /\ writes s' = S (writes s)
  /\ ((fst (on_batch_error store batch_index exc s) = Raise exc
       /\ store (writes s) = Written
       /\ disk s' = Pickled c
       /\ trace s' = trace s ++ [SaveCheckpoint c])
      \/ (exists e, fst (on_batch_error store batch_index exc s) = Raise e
                    /\ (store (writes s) = NotOpened e
                        \/ exists on_load, store (writes s) = Torn e on_load)
                    /\ trace s' = trace s ++ [SaveFailed c])).
Proof.
  unfold on_batch_error. cbn zeta.
  pose proof (save_effect batch_index s) as H. cbn zeta in H.
  destruct (save store batch_index s) as [[[] | e] s1]; cbn [fst snd] in *;
    destruct H as (Hr & Ha & Hm & Hw & [(Hf & Hs & Hd & Ht) | (e' & Hf & Hs & Ht)]);
    try discriminate; repeat split; try assumption.
  - left. repeat split; assumption.
  - right. exists e'. injection Hf as ->. repeat split; assumption.
Qed.

(** A handler that raises has just tried to write the accumulators. *)
Lemma on_batch_error_last batch_index exc s :
  match on_batch_error store batch_index exc s with
  | (Ok _, _) => False
  | (Raise e, s') =>
      (trace s' = trace s ++ [SaveCheckpoint (current_checkpoint batch_index s')]
       /\ disk s' = Pickled (current_checkpoint batch_index s')
       /\ e = exc)
      \/ (trace s' = trace s ++ [SaveFailed (current_checkpoint batch_index s')]
          /\ (store (writes s) = NotOpened e
              \/ exists on_load, store (writes s) = Torn e on_load))
  end.
Proof.
  pose proof (on_batch_error_effect batch_index exc s) as H. cbn zeta in H.
  destruct (on_batch_error store batch_index exc s) as [[[] | e] s'];
    cbn [fst snd] in H;
    destruct H as (_ & Ha & Hm & _ & [(Hf & _ & Hd & Ht) | (e' & Hf & Hs & Ht)]);
    try discriminate.
  - left. unfold current_checkpoint in *. rewrite Ha, Hm.
    injection Hf as ->. repeat split; assumption.
  - right. unfold current_checkpoint in *. rewrite Ha, Hm.
    injection Hf as ->. split; assumption.
Qed.

(** A batch sends requests for its own slice of the texts only. *)
Lemma process_batch_posts texts metadata batch_size i s :
  let s' := snd (process_batch remote store texts metadata batch_size i s) in
  exists evs, trace s' = trace s ++ evs
              /\ forall p, In p (posts evs) -> p = slice texts i (i + batch_size).
Proof.
  rewrite process_batch_cases. cbn zeta.
  pose proof (make_api_request_effect (slice texts i (i + batch_size))
                default_max_retries s) as H.
  cbn zeta in H.
  assert (Herr : forall exc s1 evs,
            trace s1 = trace s ++ evs ->
            (forall p, In p (posts evs) -> p = slice texts i (i + batch_size)) ->
            exists evs',
              trace (snd (on_batch_error store (i / batch_size) exc s1))
              = trace s ++ evs'
              /\ forall p, In p (posts evs') -> p = slice texts i (i + batch_size)).
  { intros exc s1 evs Ht Hp.
    pose proof (on_batch_error_effect (i / batch_size) exc s1) as E.
    cbn zeta in E.
    destruct E as (_ & _ & _ & _ & [(_ & _ & _ & Ht') | (e' & _ & _ & Ht')]);
      eexists; (split; [rewrite Ht', Ht, <- app_assoc; reflexivity |]);
      intros p; rewrite posts_app; cbn [posts]; rewrite app_nil_r; apply Hp. }
  destruct (_make_api_request remote (slice texts i (i + batch_size))
              default_max_retries s) as [[v | e] s1];
    cbn [snd] in H; destruct H as (_ & _ & _ & _ & evs & Ht & Hp & _).
  2: { apply (Herr e s1 evs Ht Hp). }
  destruct (iter v) as [l | e]; [| apply (Herr e s1 evs Ht Hp)].
  destruct ((i / batch_size) mod 5 =? 0).
  - pose proof (save_effect (i / batch_size)
                  (extended s1 l (slice metadata i (i + batch_size)))) as E.
    cbn zeta in E.
    destruct (save store (i / batch_size)
                (extended s1 l (slice metadata i (i + batch_size))))
      as [[[] | e] s3]; cbn [fst snd] in E.
    + destruct E as (_ & _ & _ & _ & [(_ & _ & _ & Ht') | (e' & Hf & _)]);
        [| discriminate].
      cbn [snd slept trace]. rewrite Ht'. cbn [extended trace]. rewrite Ht.
      eexists. split; [rewrite <- !app_assoc; reflexivity |].
      intros p. rewrite posts_app. cbn [posts app]. rewrite app_nil_r. apply Hp.
    + destruct E as (_ & _ & _ & _ & [(Hf & _) | (e' & _ & _ & Ht')]);
        [discriminate |].
      apply (Herr e s3 (evs ++ [SaveFailed
                                  (current_checkpoint (i / batch_size)
                                     (extended s1 l
                                        (slice metadata i (i + batch_size))))])).
      * rewrite Ht'. cbn [extended trace]. rewrite Ht, <- app_assoc. reflexivity.
      * intros p. rewrite posts_app. cbn [posts]. rewrite app_nil_r. apply Hp.
  - cbn [snd slept extended trace]. rewrite Ht.
    eexists. split; [rewrite <- app_assoc; reflexivity |].
    intros p. rewrite posts_app. cbn [posts]. rewrite app_nil_r. apply Hp.
Qed.

(** The loop sends requests for the batches it was given only. *)
Lemma batch_loop_posts texts metadata batch_size starts : forall s,
  let s' := snd (batch_loop remote store texts metadata batch_size starts s) in
  exists evs, trace s' = trace s ++ evs
              /\ forall p, In p (posts evs) ->
                   exists i, In i starts /\ p = slice texts i (i + batch_size).
Proof.
  induction starts as [| i rest IH]; intros s; cbn zeta.
  - exists []. cbn. rewrite app_nil_r. split; [reflexivity | contradiction].
  - cbn [batch_loop]. unfold bind.
    pose proof (process_batch_posts texts metadata batch_size i s) as H.
    cbn zeta in H.
    destruct (process_batch remote store texts metadata batch_size i s)
      as [[[] | e] s1];
      cbn [snd] in H; destruct H as (evs & Ht & Hp).
    + specialize (IH s1). cbn zeta in IH.
      destruct IH as (evs2 & Ht2 & Hp2).
      exists (evs ++ evs2). split.
      * rewrite Ht2, Ht, app_assoc. reflexivity.
      * intros p. rewrite posts_app. intros Hin.
        apply in_app_or in Hin. destruct Hin as [Hin | Hin].
        -- exists i. split; [left; reflexivity | apply Hp; exact Hin].
        -- destruct (Hp2 p Hin) as (j & Hj & Hpj).
           exists j. split; [right; exact Hj | exact Hpj].
    + cbn [snd]. exists evs. split; [exact Ht |].
      intros p Hin. exists i. split; [left; reflexivity | apply Hp; exact Hin].
Qed.

(** What a batch leaves behind, when it succeeds and when it raises. *)
Lemma process_batch_checkpoints texts metadata batch_size i s :
  let b := i / batch_size in
  match process_batch remote store texts metadata batch_size i s with
  | (Ok _, s') =>
      (exists l, all_embeddings s' = all_embeddings s ++ l)
      /\ processed_metadata s'
         = processed_metadata s ++ slice metadata i (i + batch_size)
      /\ (b mod 5 = 0 ->
          store (writes s) = Written
          /\ writes s' = S (writes s)
          /\ disk s' = Pickled (current_checkpoint b s')
          /\ exists pre,
               trace s' = pre ++ [SaveCheckpoint (current_checkpoint b s');
                                  Sleep 1])
      /\ (b mod 5 <> 0 ->
          writes s' = writes s
          /\ disk s' = disk s
          /\ exists pre, trace s' = pre ++ [Sleep 1]
                         /\ checkpoints_written (trace s')
                            = checkpoints_written (trace s))
  | (Raise e, s') =>
      exists pre,
        (trace s' = pre ++ [SaveCheckpoint (current_checkpoint b s')]
         /\ disk s' = Pickled (current_checkpoint b s'))
        \/ (trace s' = pre ++ [SaveFailed (current_checkpoint b s')]
            /\ (store (writes s' - 1)%nat = NotOpened e
                \/ exists on_load, store (writes s' - 1)%nat = Torn e on_load))
  end.
Proof.
  cbn zeta. rewrite process_batch_cases.
  pose proof (make_api_request_effect (slice texts i (i + batch_size))
                default_max_retries s) as H.
  cbn zeta in H.
  assert (Herr : forall exc s1,
            match on_batch_error store (i / batch_size) exc s1 with
            | (Ok _, _) => False
            | (Raise e, s') =>
                exists pre,
                  (trace s' = pre ++ [SaveCheckpoint
                                        (current_checkpoint (i / batch_size) s')]
                   /\ disk s' = Pickled (current_checkpoint (i / batch_size) s'))
                  \/ (trace s' = pre ++ [SaveFailed
                                           (current_checkpoint (i / batch_size) s')]
                      /\ (store (writes s' - 1)%nat = NotOpened e
                          \/ exists on_load,
                               store (writes s' - 1)%nat = Torn e on_load))
            end).
  { intros exc s1.
    pose proof (on_batch_error_last (i / batch_size) exc s1) as L.
    pose proof (on_batch_error_effect (i / batch_size) exc s1) as E.
    cbn zeta in E. destruct E as (_ & _ & _ & Hw & _).
    destruct (on_batch_error store (i / batch_size) exc s1) as [[[] | e] s'];
      [exact L |].
    cbn [snd] in Hw. exists (trace s1).
    destruct L as [(Ht & Hd & _) | (Ht & Hs)].
    - left. split; assumption.
    - right. split; [exact Ht |].
      replace (writes s' - 1)%nat with (writes s1) by lia. exact Hs. }
  assert (Herr' : forall exc s1 (P : state -> Prop),
            match on_batch_error store (i / batch_size) exc s1 with
            | (Ok _, s') => P s'
            | (Raise e, s') =>
                exists pre,
                  (trace s' = pre ++ [SaveCheckpoint
                                        (current_checkpoint (i / batch_size) s')]
                   /\ disk s' = Pickled (current_checkpoint (i / batch_size) s'))
                  \/ (trace s' = pre ++ [SaveFailed
                                           (current_checkpoint (i / batch_size) s')]
                      /\ (store (writes s' - 1)%nat = NotOpened e
                          \/ exists on_load,
                               store (writes s' - 1)%nat = Torn e on_load))
            end).
  { intros exc s1 P. specialize (Herr exc s1).
    destruct (on_batch_error store (i / batch_size) exc s1) as [[[] | e] s'];
      [contradiction | exact Herr]. }
  destruct (_make_api_request remote (slice texts i (i + batch_size))
              default_max_retries s) as [[v | e] s1];
    cbn [snd] in H; destruct H as (Hd & Ha & Hm & Hw & evs & Ht & _ & Hc).
  2: { apply Herr'. }
  destruct (iter v) as [l | e]; [| apply Herr'].
  cbn zeta. destruct (Z.eqb_spec ((i / batch_size) mod 5) 0) as [E | E].
  - pose proof (save_effect (i / batch_size)
                  (extended s1 l (slice metadata i (i + batch_size)))) as S.
    cbn zeta in S.
    destruct (save store (i / batch_size)
                (extended s1 l (slice metadata i (i + batch_size))))
      as [[[] | e] s3]; cbn [fst snd] in S; [| apply Herr'].
    destruct S as (_ & Ha3 & Hm3 & Hw3 & [(_ & Hs & Hd3 & Ht3) | (e' & Hf & _)]);
      [| discriminate].
    cbn [extended all_embeddings processed_metadata writes] in Ha3, Hm3, Hw3, Hs.
    split; [exists l; cbn [slept all_embeddings]; rewrite Ha3, Ha; reflexivity |].
    split; [cbn [slept processed_metadata]; rewrite Hm3, Hm; reflexivity |].
    split; [| intros E'; contradiction].
    intros _. cbn [slept writes disk trace].
    split; [rewrite <- Hw; exact Hs |].
    split; [rewrite Hw3, Hw; reflexivity |].
    unfold current_checkpoint in *.
    cbn [slept all_embeddings processed_metadata extended] in *.
    rewrite Ha3, Hm3.
    split; [exact Hd3 |].
    exists (trace s1). rewrite Ht3. cbn [extended trace].
    rewrite <- app_assoc. reflexivity.
  - split; [exists l; cbn; rewrite Ha; reflexivity |].
    split; [cbn; rewrite Hm; reflexivity |].
    split; [intros E'; contradiction |].
    intros _. cbn [slept extended writes disk trace].
    split; [exact Hw |]. split; [exact Hd |].
    exists (trace s1). split; [reflexivity |].
    rewrite Ht, !checkpoints_written_app, Hc. cbn. rewrite !app_nil_r.
    reflexivity.
Qed.

(** A loop that raises has just tried to write the accumulators. *)
Lemma batch_loop_raise texts metadata batch_size starts : forall s,
  match batch_loop remote store texts metadata batch_size starts s with
  | (Ok _, _) => True
  | (Raise e, s') =>
      exists b pre,
        (trace s' = pre ++ [SaveCheckpoint (current_checkpoint b s')]
         /\ disk s' = Pickled (current_checkpoint b s'))
        \/ (trace s' = pre ++ [SaveFailed (current_checkpoint b s')]
            /\ (store (writes s' - 1)%nat = NotOpened e
                \/ exists on_load, store (writes s' - 1)%nat = Torn e on_load))
  end.
Proof.
  induction starts as [| i rest IH]; intros s; [exact I |].
  cbn [batch_loop]. unfold bind.
  pose proof (process_batch_checkpoints texts metadata batch_size i s) as H.
  cbn zeta in H.
  destruct (process_batch remote store texts metadata batch_size i s)
    as [[[] | e] s1].
  - apply IH.
  - destruct H as (pre & H). exists (i / batch_size), pre. exact H.
Qed.

End BatchLoop.
(** The [k]-th batch of a run that starts at batch [start_batch] has the
    batch index [start_batch + k]. *)
Lemma range_batch_index start_batch stop batch_size starts :
  0 < batch_size ->
  range (start_batch * batch_size) stop batch_size = Ok starts ->
  forall k i, nth_error starts k = Some i ->
              i / batch_size = start_batch + Z.of_nat k.
Proof.
  intros Hpos. unfold range.
  destruct (Z.eqb_spec batch_size 0); [lia |].
  intros [= <-] k i Hnth.
  rewrite nth_error_map in Hnth.
  destruct (nth_error (seq 0 (range_len (start_batch * batch_size) stop batch_size)) k)
    as [k' |] eqn:Ek; [| discriminate].
  cbn in Hnth. injection Hnth as <-.
  pose proof (nth_error_Some (seq 0 (range_len (start_batch * batch_size) stop batch_size)) k) as Hlen.
  assert (Hk : (k < List.length (seq 0 (range_len (start_batch * batch_size) stop batch_size)))%nat)
    by (apply Hlen; congruence).
  rewrite length_seq in Hk.
  apply nth_error_nth with (d := 0%nat) in Ek.
  rewrite seq_nth in Ek by exact Hk. cbn in Ek. subst k'.
  replace (start_batch * batch_size + Z.of_nat k * batch_size)
    with ((start_batch + Z.of_nat k) * batch_size) by lia.
  apply Z.div_mul. lia.
Qed.


(** [range] one step at a time. *)
Lemma range_step start stop step :
  0 < step -> start < stop ->
  exists rest, range (start + step) stop step = Ok rest
               /\ range start stop step = Ok (start :: rest).
Proof.
  intros Hstep Hlt. unfold range.
  destruct (Z.eqb_spec step 0); [lia |].
  eexists. split; [reflexivity |]. f_equal.
  assert (Hlen : range_len start stop step
                 = S (range_len (start + step) stop step)).
  { unfold range_len.
    destruct (Z.ltb_spec 0 step); [| lia].
    destruct (Z.ltb_spec start stop); [| lia].
    destruct (Z.ltb_spec (start + step) stop).
    - replace (stop - start - 1) with ((stop - (start + step) - 1) + 1 * step) by lia.
      rewrite Z.div_add by lia.
      assert (0 <= (stop - (start + step) - 1) / step)
        by (apply Z.div_pos; lia).
      lia.
    - rewrite Z.div_small by lia. reflexivity. }
  rewrite Hlen. cbn [seq map]. f_equal; [lia |].
  rewrite <- seq_shift, map_map. apply map_ext. intros k. lia.
Qed.

Lemma range_empty start stop step :
  0 < step -> stop <= start -> range start stop step = Ok [].
Proof.
  intros Hstep Hle. unfold range, range_len.
  destruct (Z.eqb_spec step 0); [lia |].
  destruct (Z.ltb_spec 0 step); [| lia].
  destruct (Z.ltb_spec start stop); [lia |]. reflexivity.
Qed.

(** The length of a batch. *)
Lemma length_slice_batch {A : Type} (l : list A) (i size : Z) :
  0 <= i -> 0 < size -> i <= len l ->
  List.length (slice l i (i + size)) = Z.to_nat (Z.min size (len l - i)).
Proof.
  intros Hi Hsize Hlen. unfold slice, slice_bound.
  destruct (Z.ltb_spec i 0); [lia |].
  destruct (Z.ltb_spec (i + size) 0); [lia |].
  rewrite length_firstn, length_skipn. unfold len in *. lia.
Qed.

(** The batches from [start] on cover what is left of the list. *)
Lemma batches_cover {A : Type} (l : list A) (size : Z) :
  0 < size ->
  forall (n : nat) (start : Z) (starts : list Z),
    (Z.to_nat (len l - start) <= n)%nat ->
    0 <= start <= len l ->
    range start (len l) size = Ok starts ->
    list_sum (map (fun i => List.length (slice l i (i + size))) starts)
    = Z.to_nat (len l - start).
Proof.
  intros Hsize. unfold list_sum.
  induction n as [| n IH]; intros start starts Hn Hstart Hrange.
  - rewrite range_empty in Hrange by lia. injection Hrange as <-. cbn. lia.
  - destruct (Z.ltb_spec start (len l)) as [Hlt | Hge].
    + destruct (range_step start (len l) size Hsize Hlt) as (rest & Hrest & Hall).
      rewrite Hall in Hrange. injection Hrange as <-.
      cbn [map fold_right].
      rewrite length_slice_batch by lia.
      destruct (Z.ltb_spec (start + size) (len l)) as [Hmore | Hlast].
      * rewrite (IH (start + size) rest) by (try exact Hrest; lia). lia.
      * rewrite range_empty in Hrest by lia. injection Hrest as <-. cbn. lia.
    + rewrite range_empty in Hrange by lia. injection Hrange as <-. cbn. lia.
Qed.


(** A batch followed by the rest of the list is the list from the start
    of the batch on. *)
Lemma slice_then_rest {A : Type} (l : list A) (i size : Z) :
  0 <= i -> 0 < size ->
  slice l i (i + size) ++ skipn (Z.to_nat (i + size)) l = skipn (Z.to_nat i) l.
Proof.
  intros Hi Hsize. unfold slice, slice_bound.
  destruct (Z.ltb_spec i 0); [lia |].
  destruct (Z.ltb_spec (i + size) 0); [lia |].
  destruct (Z.le_gt_cases i (len l)) as [Hin | Hout].
  - rewrite (Z.min_l i) by lia.
    destruct (Z.le_gt_cases (i + size) (len l)) as [Hfull | Hlast].
    + rewrite (Z.min_l (i + size)) by lia.
      replace (Z.to_nat (i + size)) with (Z.to_nat (i + size - i) + Z.to_nat i)%nat
        by lia.
      rewrite <- skipn_skipn. apply firstn_skipn.
    + rewrite (Z.min_r (i + size)) by lia.
      rewrite (skipn_all2 (n := Z.to_nat (i + size))) by (unfold len in *; lia).
      rewrite app_nil_r. apply firstn_all2.
      rewrite length_skipn. unfold len in *. lia.
  - rewrite (Z.min_r i) by lia. rewrite (Z.min_r (i + size)) by lia.
    rewrite Z.sub_diag. cbn [Z.to_nat firstn app].
    rewrite !skipn_all2 by (unfold len in *; lia). reflexivity.
Qed.

(** The batches from [start] on, put end to end, are the list from
    [start] on, for a list no longer than the range. *)
Lemma batches_concat {A : Type} (l : list A) (size stop : Z) :
  0 < size -> len l <= stop ->
  forall (n : nat) (start : Z) (starts : list Z),
    (Z.to_nat (stop - start) <= n)%nat ->
    0 <= start ->
    range start stop size = Ok starts ->
    List.concat (map (fun i => slice l i (i + size)) starts) = skipn (Z.to_nat start) l.
Proof.
  intros Hsize Hstop. induction n as [| n IH]; intros start starts Hn Hstart Hrange.
  - rewrite range_empty in Hrange by lia. injection Hrange as <-. cbn.
    symmetry. apply skipn_all2. unfold len in *. lia.
  - destruct (Z.ltb_spec start stop) as [Hlt | Hge].
    + destruct (range_step start stop size Hsize Hlt) as (rest & Hrest & Hall).
      rewrite Hall in Hrange. injection Hrange as <-.
      cbn [map List.concat].
      rewrite (IH (start + size) rest) by (try exact Hrest; lia).
      apply slice_then_rest; lia.
    + rewrite range_empty in Hrange by lia. injection Hrange as <-. cbn.
      symmetry. apply skipn_all2. unfold len in *. lia.
Qed.


Lemma firstn_plus {A : Type} (n m : nat) : forall l : list A,
  firstn (n + m) l = firstn n l ++ firstn m (skipn n l).
Proof.
  induction n as [| n IH]; intros l; [reflexivity |].
  destruct l as [| x l]; cbn.
  - rewrite firstn_nil. reflexivity.
  - rewrite IH. reflexivity.
Qed.

(** A batch is the first [size] elements of what is left at its start. *)
Lemma slice_firstn_skipn {A : Type} (l : list A) (i size : Z) :
  0 <= i -> 0 < size ->
  slice l i (i + size) = firstn (Z.to_nat size) (skipn (Z.to_nat i) l).
Proof.
  intros Hi Hsize. unfold slice, slice_bound.
  destruct (Z.ltb_spec i 0); [lia |].
  destruct (Z.ltb_spec (i + size) 0); [lia |].
  destruct (Z.le_gt_cases i (len l)) as [Hin | Hout].
  - rewrite (Z.min_l i) by lia.
    destruct (Z.le_gt_cases (i + size) (len l)) as [Hfull | Hlast].
    + rewrite (Z.min_l (i + size)) by lia. f_equal. lia.
    + rewrite (Z.min_r (i + size)) by lia.
      rewrite !firstn_all2; [reflexivity | |];
        rewrite length_skipn; unfold len in *; lia.
  - rewrite (Z.min_r i) by lia. rewrite (Z.min_r (i + size)) by lia.
    rewrite Z.sub_diag. cbn [Z.to_nat firstn].
    rewrite (skipn_all2 (n := Z.to_nat i)) by (unfold len in *; lia).
    rewrite firstn_nil. reflexivity.
Qed.

Lemma firstn_then_slice {A : Type} (l : list A) (i size : Z) :
  0 <= i -> 0 < size ->
  firstn (Z.to_nat i) l ++ slice l i (i + size) = firstn (Z.to_nat (i + size)) l.
Proof.
  intros Hi Hsize. rewrite slice_firstn_skipn by lia.
  replace (Z.to_nat (i + size)) with (Z.to_nat i + Z.to_nat size)%nat by lia.
  symmetry. apply firstn_plus.
Qed.


(** Two slices that meet. *)
Lemma slice_app {A : Type} (l : list A) (a b c : Z) :
  0 <= a <= b -> b <= c -> slice l a b ++ slice l b c = slice l a c.
Proof.
  intros Hab Hbc. unfold slice, slice_bound.
  destruct (Z.ltb_spec a 0); [lia |].
  destruct (Z.ltb_spec b 0); [lia |].
  destruct (Z.ltb_spec c 0); [lia |].
  set (n := len l).
  replace (Z.to_nat (Z.min c n - Z.min a n))
    with (Z.to_nat (Z.min b n - Z.min a n) + Z.to_nat (Z.min c n - Z.min b n))%nat
    by lia.
  rewrite firstn_plus, skipn_skipn. do 3 f_equal. lia.
Qed.

Lemma slice_empty {A : Type} (l : list A) (a : Z) : slice l a a = [].
Proof. unfold slice. rewrite Z.sub_diag. reflexivity. Qed.

(** A slice that runs to the end of the list. *)
Lemma slice_to_end {A : Type} (l : list A) (a c : Z) :
  0 <= a -> len l <= c -> slice l a c = skipn (Z.to_nat a) l.
Proof.
  intros Ha Hc. unfold slice, slice_bound.
  destruct (Z.ltb_spec a 0); [lia |].
  destruct (Z.ltb_spec c 0); [unfold len in *; lia |].
  rewrite (Z.min_r c) by lia.
  destruct (Z.le_gt_cases a (len l)).
  - rewrite (Z.min_l a) by lia. apply firstn_all2.
    rewrite length_skipn. unfold len in *. lia.
  - rewrite (Z.min_r a) by lia. rewrite Z.sub_diag. cbn [Z.to_nat firstn].
    symmetry. apply skipn_all2. unfold len in *. lia.
Qed.

(** The batches of a range reach the end of the list. *)
Lemma range_len_reaches (start stop step : Z) :
  0 < step -> stop <= start + Z.of_nat (range_len start stop step) * step.
Proof.
  intros Hstep. unfold range_len.
  destruct (Z.ltb_spec 0 step); [| lia].
  destruct (Z.ltb_spec start stop); [| lia].
  assert (Hq : 0 <= (stop - start - 1) / step) by (apply Z.div_pos; lia).
  rewrite Z2Nat.id by lia.
  pose proof (Z.mod_pos_bound (stop - start - 1) step Hstep).
  pose proof (Z.div_mod (stop - start - 1) step ltac:(lia)). nia.
Qed.

Lemma range_starts (start stop step : Z) :
  step <> 0 ->
  range start stop step
  = Ok (map (fun k => start + Z.of_nat k * step)
            (seq 0 (range_len start stop step))).
Proof.
  intros Hstep. unfold range. destruct (Z.eqb_spec step 0); [contradiction |].
  reflexivity.
Qed.

(** *** [np.array] *)

Lemma np_array_cases (l : list pyval) :
  np_array l = Ok l
  \/ exists msg, np_array l = Raise (mkExn ValueError msg).
Proof.
  unfold np_array. destruct (shape (PyList l)); [left | right; eexists];
    reflexivity.
Qed.

(** What [np.array] returns is the list it was given. *)
Lemma np_array_returns (l rows : list pyval) : np_array l = Ok rows -> rows = l.
Proof.
  unfold np_array. destruct (shape (PyList l)); [| discriminate].
  intros [= <-]. reflexivity.
Qed.

(** Rows of one shape make an array. *)
Lemma np_array_uniform (sh : list nat) (l : list pyval) :
  (forall x, In x l -> shape x = Some sh) -> np_array l = Ok l.
Proof.
  intros H. unfold np_array.
  assert (Hall : forall rest, (forall x, In x rest -> shape x = Some sh) ->
                              all_of_shape shape sh rest = true).
  { induction rest as [| y rest IH]; intros Hr; [reflexivity |].
    cbn [all_of_shape]. rewrite (Hr y (or_introl eq_refl)).
    destruct (list_eq_dec Nat.eq_dec sh sh); [| contradiction].
    apply IH. intros x Hx. apply Hr. right. exact Hx. }
  destruct l as [| x rest]; [reflexivity |].
  cbn [shape]. rewrite (H x (or_introl eq_refl)).
  rewrite Hall; [reflexivity |]. intros y Hy. apply H. right. exact Hy.
Qed.

(** *** A run, unfolded *)

(** A run is its batch loop, started from the loaded checkpoint, and
    then [np.array]. *)
Lemma generate_embeddings_unfold remote store texts metadata batch_size file
      starts :
  range (EmbeddingGenerator.start_batch file * batch_size) (len texts) batch_size
  = Ok starts ->
  EmbeddingGenerator.generate_embeddings remote store texts metadata batch_size
    (EmbeddingGenerator.initial file)
  = match EmbeddingGenerator.batch_loop remote store texts metadata batch_size
            starts (EmbeddingGenerator.loaded file) with
    | (Ok _, s') =>
        (match np_array (EmbeddingGenerator.all_embeddings s') with
         | Ok rows => Ok (rows, EmbeddingGenerator.processed_metadata s')
         | Raise e => Raise e
         end, s')
    | (Raise e, s') => (Raise e, s')
    end.
Proof.
  intros Hrange.
  assert (Hstep : forall s0,
            (EmbeddingGenerator.batch_loop remote store texts metadata batch_size
               starts ;;;
             e <- EmbeddingGenerator.get_all_embeddings ;;
             embeddings <- lift (np_array e) ;;
             m <- EmbeddingGenerator.get_processed_metadata ;;
             ret (embeddings, m))%py s0
            = match EmbeddingGenerator.batch_loop remote store texts metadata
                      batch_size starts s0 with
              | (Ok _, s') =>
                  (match np_array (EmbeddingGenerator.all_embeddings s') with
                   | Ok rows => Ok (rows, EmbeddingGenerator.processed_metadata s')
                   | Raise e => Raise e
                   end, s')
              | (Raise e, s') => (Raise e, s')
              end).
  { intros s0. unfold bind at 1.
    destruct (EmbeddingGenerator.batch_loop remote store texts metadata
                batch_size starts s0) as [[[] | e] s']; [| reflexivity].
    unfold bind, EmbeddingGenerator.get_all_embeddings,
           EmbeddingGenerator.get_processed_metadata, lift, ret.
    destruct (np_array (EmbeddingGenerator.all_embeddings s')); reflexivity. }
  unfold EmbeddingGenerator.generate_embeddings.
  unfold bind at 1. unfold EmbeddingGenerator._load_checkpoint.
  destruct file as [c |];
    cbn [EmbeddingGenerator.initial EmbeddingGenerator.started
         EmbeddingGenerator.on_disk EmbeddingGenerator.disk
         EmbeddingGenerator.start_batch] in *;
    cbn beta iota zeta;
    unfold bind at 1; unfold EmbeddingGenerator.set_accumulators at 1;
    cbn [EmbeddingGenerator.requests EmbeddingGenerator.trace
         EmbeddingGenerator.disk EmbeddingGenerator.writes];
    unfold bind at 1; unfold lift at 1; rewrite Hrange;
    apply Hstep.
Qed.

(** A checkpoint file that cannot be unpickled ends the run at once. *)
Lemma generate_embeddings_unreadable remote store texts metadata batch_size e :
  EmbeddingGenerator.generate_embeddings remote store texts metadata batch_size
    (EmbeddingGenerator.started (EmbeddingGenerator.Unreadable e))
  = (Raise e, EmbeddingGenerator.started (EmbeddingGenerator.Unreadable e)).
Proof. reflexivity. Qed.

Lemma started_on_disk file :
  EmbeddingGenerator.started (EmbeddingGenerator.on_disk file)
  = EmbeddingGenerator.initial file.
Proof. reflexivity. Qed.

Section LoopParts.

Import EmbeddingGenerator.

Variable remote : api.
Variable store : storage.

(** The loop over two lists of batches, one after the other. *)
Lemma batch_loop_app texts metadata batch_size l1 l2 : forall s,
  batch_loop remote store texts metadata batch_size (l1 ++ l2) s
  = match batch_loop remote store texts metadata batch_size l1 s with
    | (Ok _, s1) => batch_loop remote store texts metadata batch_size l2 s1
    | (Raise e, s1) => (Raise e, s1)
    end.
Proof.
  induction l1 as [| i l1 IH]; intros s; [reflexivity |].
  cbn [app batch_loop]. unfold bind.
  destruct (process_batch remote store texts metadata batch_size i s)
    as [[[] | e] s1]; [apply IH | reflexivity].
Qed.

End LoopParts.

Section Healthy.

Import EmbeddingGenerator.

Variable embedding_of : string -> pyval.

(** Against an API that embeds every text, one request settles a batch. *)
Lemma make_api_request_embed_all texts s :
  _make_api_request (embed_all embedding_of) texts default_max_retries s
  = (Ok (PyList (map embedding_of texts)), sent s texts).
Proof.
  unfold _make_api_request, default_max_retries.
  change (map Z.of_nat (seq 0 (Z.to_nat 5))) with [0; 1; 2; 3; 4].
  cbn [retry_loop]. unfold bind. rewrite attempt_body_cases. reflexivity.
Qed.

(** One batch of a run in which nothing fails. *)
Lemma process_batch_embed_all texts metadata batch_size i s :
  process_batch (embed_all embedding_of) reliable texts metadata batch_size i s
  = (Ok tt,
     let batch := slice texts i (i + batch_size) in
     let s2 := extended (sent s batch) (map embedding_of batch)
                        (slice metadata i (i + batch_size)) in
     if (i / batch_size) mod 5 =? 0
     then slept (saved s2 (i / batch_size)) 1
     else slept s2 1).
Proof.
  rewrite process_batch_cases, make_api_request_embed_all. cbn [iter]. cbn zeta.
  destruct ((i / batch_size) mod 5 =? 0); reflexivity.
Qed.

(** The first [n] batches from batch [start] on, in a run in which
    nothing fails: what has been gathered, what has been written and what
    has been requested. *)
Lemma batch_loop_healthy texts metadata batch_size start :
  0 < batch_size -> 0 <= start ->
  forall (n : nat) (s : state),
    let a := start * batch_size in
    let written (b : Z) :=
      mkCheckpoint b
        (all_embeddings s
           ++ map embedding_of (slice texts a ((b + 1) * batch_size)))
        (processed_metadata s ++ slice metadata a ((b + 1) * batch_size)) in
    let multiples :=
      filter (fun b => b mod 5 =? 0)
             (map (fun k => start + Z.of_nat k) (seq 0 n)) in
    exists s',
      batch_loop (embed_all embedding_of) reliable texts metadata batch_size
                 (map (fun k => a + Z.of_nat k * batch_size) (seq 0 n)) s
      = (Ok tt, s')
      /\ all_embeddings s'
         = all_embeddings s
             ++ map embedding_of (slice texts a (a + Z.of_nat n * batch_size))
      /\ processed_metadata s'
         = processed_metadata s
             ++ slice metadata a (a + Z.of_nat n * batch_size)
      /\ checkpoints_written (trace s')
         = checkpoints_written (trace s) ++ map written multiples
      /\ disk s' = last (map (fun b => Pickled (written b)) multiples) (disk s)
      /\ posts (trace s')
         = posts (trace s)
             ++ map (fun k => slice texts (a + Z.of_nat k * batch_size)
                                    (a + Z.of_nat k * batch_size + batch_size))
                    (seq 0 n).
Proof.
  intros Hsize Hstart n s. cbn zeta.
  induction n as [| n IH].
  - exists s. cbn [seq map filter batch_loop ret last].
    rewrite Z.add_0_r, !slice_empty. cbn [map]. rewrite !app_nil_r.
    repeat split.
  - destruct IH as (sn & Hrun & Ha & Hm & Hw & Hd & Hp).
    rewrite seq_S, !map_app, filter_app, batch_loop_app, Hrun.
    cbn [Nat.add map batch_loop]. unfold bind.
    rewrite process_batch_embed_all. cbn zeta.
    set (i := start * batch_size + Z.of_nat n * batch_size).
    assert (Hb : i / batch_size = start + Z.of_nat n).
    { subst i. replace (start * batch_size + Z.of_nat n * batch_size)
        with ((start + Z.of_nat n) * batch_size) by lia.
      apply Z.div_mul. lia. }
    assert (Hnext : start * batch_size + Z.of_nat (S n) * batch_size
                    = i + batch_size) by (subst i; lia).
    assert (He : all_embeddings sn
                   ++ map embedding_of (slice texts i (i + batch_size))
                 = all_embeddings s
                     ++ map embedding_of
                            (slice texts (start * batch_size) (i + batch_size))).
    { rewrite Ha, <- app_assoc, <- map_app. fold i.
      rewrite slice_app by (subst i; nia). reflexivity. }
    assert (Hmeta : processed_metadata sn ++ slice metadata i (i + batch_size)
                    = processed_metadata s
                        ++ slice metadata (start * batch_size) (i + batch_size)).
    { rewrite Hm, <- app_assoc. fold i.
      rewrite slice_app by (subst i; nia). reflexivity. }
    rewrite Hb, Hnext. cbn [filter].
    replace ((start + Z.of_nat n + 1) * batch_size) with (i + batch_size)
      by (subst i; lia).
    destruct (Z.eqb_spec ((start + Z.of_nat n) mod 5) 0) as [E | E].
    + eexists. split; [reflexivity |].
      cbn [slept saved trace disk all_embeddings processed_metadata].
      unfold current_checkpoint.
      cbn [extended sent all_embeddings processed_metadata trace disk].
      rewrite He, Hmeta.
      split; [reflexivity |]. split; [reflexivity |].
      split; [| split].
      * rewrite !checkpoints_written_app, Hw. cbn [checkpoints_written map].
        rewrite !app_nil_r, map_app, <- app_assoc. cbn [map].
        replace ((start + Z.of_nat n + 1) * batch_size) with (i + batch_size)
          by (subst i; lia).
        reflexivity.
      * rewrite map_app. cbn [map]. rewrite last_last.
        replace ((start + Z.of_nat n + 1) * batch_size) with (i + batch_size)
          by (subst i; lia).
        reflexivity.
      * rewrite !posts_app, Hp. cbn [posts]. rewrite !app_nil_r.
        rewrite <- app_assoc. reflexivity.
    + eexists. split; [reflexivity |].
      cbn [slept extended sent all_embeddings processed_metadata trace disk].
      rewrite He, Hmeta, !app_nil_r.
      split; [reflexivity |]. split; [reflexivity |].
      split; [| split].
      * rewrite !checkpoints_written_app, Hw. cbn [checkpoints_written].
        rewrite !app_nil_r. reflexivity.
      * exact Hd.
      * rewrite !posts_app, Hp. cbn [posts]. rewrite !app_nil_r.
        rewrite <- app_assoc. reflexivity.
Qed.

End Healthy.

(** A run in which nothing fails, from any checkpoint: what it gathers
    and returns, what it writes and what it requests. *)
Lemma generate_embeddings_healthy :
  forall (embedding_of : string -> pyval) (texts : list string)
         (metadata : list pyval) (batch_size : Z)
         (file : option EmbeddingGenerator.checkpoint),
    0 < batch_size ->
    0 <= EmbeddingGenerator.start_batch file ->
    let start := EmbeddingGenerator.start_batch file in
    let a := start * batch_size in
    let n := range_len a (len texts) batch_size in
    let before := EmbeddingGenerator.loaded file in
    let rows := EmbeddingGenerator.all_embeddings before
                  ++ map embedding_of (skipn (Z.to_nat a) texts) in
    let meta := EmbeddingGenerator.processed_metadata before
                  ++ slice metadata a (a + Z.of_nat n * batch_size) in
    let written (b : Z) :=
      EmbeddingGenerator.mkCheckpoint b
        (EmbeddingGenerator.all_embeddings before
           ++ map embedding_of (slice texts a ((b + 1) * batch_size)))
        (EmbeddingGenerator.processed_metadata before
           ++ slice metadata a ((b + 1) * batch_size)) in
    let multiples :=
      filter (fun b => b mod 5 =? 0)
             (map (fun k => start + Z.of_nat k) (seq 0 n)) in
    let run := EmbeddingGenerator.generate_embeddings
                 (EmbeddingGenerator.embed_all embedding_of)
                 EmbeddingGenerator.reliable
                 texts metadata batch_size (EmbeddingGenerator.initial file) in
    fst run = match np_array rows with
              | Ok e => Ok (e, meta)
              | Raise x => Raise x
              end
    /\ EmbeddingGenerator.all_embeddings (snd run) = rows
    /\ EmbeddingGenerator.checkpoints_written
         (EmbeddingGenerator.trace (snd run))
       = map written multiples
    /\ EmbeddingGenerator.disk (snd run)
       = last (map (fun b => EmbeddingGenerator.Pickled (written b)) multiples)
              (EmbeddingGenerator.on_disk file)
    /\ EmbeddingGenerator.posts (EmbeddingGenerator.trace (snd run))
       = map (fun k => slice texts (a + Z.of_nat k * batch_size)
                             (a + Z.of_nat k * batch_size + batch_size))
             (seq 0 n).
Proof.
  intros embedding_of texts metadata batch_size file Hsize Hstart. cbn zeta.
  assert (Hne : batch_size <> 0) by lia.
  rewrite (generate_embeddings_unfold _ _ _ _ _ _ _ (range_starts _ _ _ Hne)).
  destruct (batch_loop_healthy embedding_of texts metadata batch_size
              (EmbeddingGenerator.start_batch file) Hsize Hstart
              (range_len (EmbeddingGenerator.start_batch file * batch_size)
                         (len texts) batch_size)
              (EmbeddingGenerator.loaded file))
    as (s' & -> & Ha & Hm & Hw & Hd & Hp).
  assert (Hrows : EmbeddingGenerator.all_embeddings s'
                  = EmbeddingGenerator.all_embeddings
                      (EmbeddingGenerator.loaded file)
                      ++ map embedding_of
                             (skipn (Z.to_nat
                                       (EmbeddingGenerator.start_batch file
                                        * batch_size)) texts)).
  { rewrite Ha. do 2 f_equal. apply slice_to_end; [lia |].
    apply range_len_reaches. exact Hsize. }
  assert (Hnone : EmbeddingGenerator.trace (EmbeddingGenerator.loaded file) = []
                  /\ EmbeddingGenerator.disk (EmbeddingGenerator.loaded file)
                     = EmbeddingGenerator.on_disk file)
    by (destruct file; split; reflexivity).
  destruct Hnone as (Htrace & Hdisk).
  rewrite Htrace in Hw, Hp. rewrite Hdisk in Hd. cbn [fst snd].
  rewrite Hrows in *. rewrite Hm.
  split; [| split; [reflexivity | split; [exact Hw | split; [exact Hd | exact Hp]]]].
  destruct (np_array _); reflexivity.
Qed.

(* ================================================================== *)
(** ** More on the embedding generator *)
(* ================================================================== *)

Section RetryLoopMore.

Import EmbeddingGenerator.

Variable remote : api.

Lemma seconds_slept_app t1 t2 :
  seconds_slept (t1 ++ t2) = seconds_slept t1 + seconds_slept t2.
Proof.
  induction t1 as [| [p | n | c | c] t1 IH]; cbn [app seconds_slept]; lia.
Qed.

(** One attempt sleeps at most [30 * (attempt + 1)] seconds. *)
Lemma attempt_body_sleep texts max_retries attempt s :
  0 <= attempt ->
  exists evs,
    trace (snd (attempt_body remote texts max_retries attempt s)) = trace s ++ evs
    /\ 0 <= seconds_slept evs <= 30 * (attempt + 1).
Proof.
  intros Ha. rewrite attempt_body_cases. cbn zeta.
  unfold on_request_exception.
  repeat match goal with
         | |- context [match ?x with _ => _ end] => destruct x
         end; cbn [snd slept sent trace];
    rewrite <- ?app_assoc; eexists; (split; [reflexivity |]);
    cbn [seconds_slept app]; lia.
Qed.

(** The bound of a list of attempts. *)
Lemma retry_loop_sleep texts max_retries attempts : forall s,
  Forall (fun a => 0 <= a) attempts ->
  exists evs,
    trace (snd (retry_loop remote texts max_retries attempts s)) = trace s ++ evs
    /\ 0 <= seconds_slept evs
       <= fold_right (fun a acc => 30 * (a + 1) + acc) 0 attempts.
Proof.
  induction attempts as [| a rest IH]; intros s Hpos.
  - exists []. cbn [retry_loop ret snd seconds_slept fold_right].
    rewrite app_nil_r. split; [reflexivity | lia].
  - inversion Hpos as [| ? ? Ha Hrest]; subst.
    cbn [retry_loop fold_right]. unfold bind.
    destruct (attempt_body_sleep texts max_retries a s Ha) as (evs & Ht & Hs).
    assert (Hfold : 0 <= fold_right (fun a acc => 30 * (a + 1) + acc) 0 rest).
    { clear -Hrest. induction Hrest; cbn [fold_right]; lia. }
    destruct (attempt_body remote texts max_retries a s) as [[[| v] | e] s1];
      cbn [snd] in *.
    + destruct (IH s1 Hrest) as (evs2 & Ht2 & Hs2).
      exists (evs ++ evs2). split.
      * rewrite Ht2, Ht, app_assoc. reflexivity.
      * rewrite seconds_slept_app. lia.
    + exists evs. split; [exact Ht | lia].
    + exists evs. split; [exact Ht | lia].
Qed.

Lemma attempts_bound (m : nat) :
  fold_right (fun a acc => 30 * (a + 1) + acc) 0 (map Z.of_nat (seq 0 m))
  = 15 * Z.of_nat m * (Z.of_nat m + 1).
Proof.
  induction m as [| m IH]; [reflexivity |].
  rewrite seq_S, map_app, fold_right_app. cbn [map fold_right Nat.add].
  assert (Hgen : forall l b,
            fold_right (fun a acc => 30 * (a + 1) + acc) b l
            = fold_right (fun a acc => 30 * (a + 1) + acc) 0 l + b).
  { induction l as [| x l IHl]; intros b; cbn [fold_right]; [lia |].
    rewrite IHl. lia. }
  rewrite Hgen, IH, Nat2Z.inj_succ. unfold Z.succ. ring.
Qed.

(** A value that [retry_loop] returns is the decoded body of an answer
    whose status is neither retried nor an error, or it is the [None] of
    a loop that used up its attempts. *)
Lemma retry_loop_returns texts max_retries attempts : forall s v s',
  retry_loop remote texts max_retries attempts s = (Ok v, s') ->
  (exists n r,
      (requests s <= n < requests s')%nat
      /\ remote n texts = Ok r
      /\ retried_status (status_code r) = false
      /\ error_status (status_code r) = false
      /\ json r = Ok v)
  \/ (v = PyNone /\ requests s' = (requests s + List.length attempts)%nat).
Proof.
  induction attempts as [| a rest IH]; intros s v s' Hrun.
  - cbn in Hrun. injection Hrun as <- <-. right.
    split; [reflexivity | cbn [List.length]; lia].
  - cbn [retry_loop] in Hrun. unfold bind in Hrun.
    pose proof (attempt_body_effect remote texts max_retries a s) as Heff.
    cbn zeta in Heff. destruct Heff as (Hreq & _).
    pose proof (attempt_body_cases remote texts max_retries a s) as Hcases.
    cbn zeta in Hcases.
    destruct (attempt_body remote texts max_retries a s) as [[[| w] | e] s1];
      cbn [snd] in Hreq.
    + destruct (IH s1 v s' Hrun) as [(n & r & Hn & Hr) | (Hv & Hn)].
      * left. exists n, r. split; [lia | exact Hr].
      * right. split; [exact Hv |]. cbn [List.length]. lia.
    + cbn in Hrun. injection Hrun as <- <-.
      left. exists (requests s).
      unfold on_request_exception in Hcases.
      destruct (remote (requests s) texts) as [r | e] eqn:Hr.
      * exists r. split; [lia |]. split; [reflexivity |].
        unfold retried_status.
        destruct (status_code r =? 503); [discriminate |].
        destruct (status_code r =? 429); [discriminate |].
        destruct (status_code r =? 500); [discriminate |].
        destruct (error_status (status_code r)).
        -- destruct (a =? max_retries - 1); discriminate.
        -- destruct (json r) as [v' | e].
           ++ injection Hcases as ->. repeat split.
           ++ destruct (is_RequestException e); [| discriminate].
              destruct (a =? max_retries - 1); discriminate.
      * destruct (is_RequestException e); [| discriminate].
        destruct (a =? max_retries - 1); discriminate.
    + cbn in Hrun. discriminate.
Qed.

End RetryLoopMore.

(** X1. One call of [_make_api_request] sleeps at most
    [15 * m * (m + 1)] seconds in all, for [m] attempts: 450 seconds with
    the default of five. *)
Theorem X1_make_api_request_sleep_bound :
  forall (remote : EmbeddingGenerator.api) (texts : list string)
         (max_retries : Z) (s : EmbeddingGenerator.state),
  exists evs,
    EmbeddingGenerator.trace
      (snd (EmbeddingGenerator._make_api_request remote texts max_retries s))
    = EmbeddingGenerator.trace s ++ evs
    /\ 0 <= EmbeddingGenerator.seconds_slept evs
       <= 15 * Z.max 0 max_retries * (Z.max 0 max_retries + 1).
Proof.
  intros remote texts max_retries s.
  unfold EmbeddingGenerator._make_api_request.
  destruct (retry_loop_sleep remote texts max_retries
              (map Z.of_nat (seq 0 (Z.to_nat max_retries))) s) as (evs & Ht & Hs).
  - apply Forall_forall. intros a Hin. apply in_map_iff in Hin.
    destruct Hin as (k & <- & _). lia.
  - exists evs. split; [exact Ht |].
    rewrite attempts_bound in Hs.
    replace (Z.max 0 max_retries) with (Z.of_nat (Z.to_nat max_retries)) by lia.
    exact Hs.
Qed.

(** X2. What [_make_api_request] returns is the decoded body of an answer
    to one of its own requests whose status is none of 503, 429, 500 and
    no 4xx or 5xx, or else the [None] it returns after sending
    [max_retries] requests: the body of an error answer is never
    returned. *)
Theorem X2_make_api_request_returns_accepted_body :
  forall (remote : EmbeddingGenerator.api) (texts : list string)
         (max_retries : Z) (s s' : EmbeddingGenerator.state) (v : pyval),
    EmbeddingGenerator._make_api_request remote texts max_retries s = (Ok v, s') ->
    (exists n r,
        (EmbeddingGenerator.requests s <= n < EmbeddingGenerator.requests s')%nat
        /\ remote n texts = Ok r
        /\ EmbeddingGenerator.retried_status (EmbeddingGenerator.status_code r) = false
        /\ EmbeddingGenerator.error_status (EmbeddingGenerator.status_code r) = false
        /\ EmbeddingGenerator.json r = Ok v)
    \/ (v = PyNone
        /\ EmbeddingGenerator.requests s'
           = (EmbeddingGenerator.requests s + Z.to_nat max_retries)%nat).
Proof.
  intros remote texts max_retries s s' v Hrun.
  unfold EmbeddingGenerator._make_api_request in Hrun.
  apply retry_loop_returns in Hrun.
  rewrite length_map, length_seq in Hrun. exact Hrun.
Qed.

(** A 500 and then a 201 with a body. *)
Lemma X2_make_api_request_returns_witness :
  exists n r,
    (0 <= n < 2)%nat
    /\ EmbeddingGenerator.scripted
         [EmbeddingGenerator.answer 500 PyNone]
         (EmbeddingGenerator.answer 201 (PyList [PyInt 7])) n ["soup"%string]
       = Ok r
    /\ EmbeddingGenerator.retried_status (EmbeddingGenerator.status_code r) = false
    /\ EmbeddingGenerator.error_status (EmbeddingGenerator.status_code r) = false
    /\ EmbeddingGenerator.json r = Ok (PyList [PyInt 7]).
Proof.
  destruct (X2_make_api_request_returns_accepted_body
              (EmbeddingGenerator.scripted
                 [EmbeddingGenerator.answer 500 PyNone]
                 (EmbeddingGenerator.answer 201 (PyList [PyInt 7])))
              ["soup"%string] 5 (EmbeddingGenerator.initial None)
              (EmbeddingGenerator.sent
                 (EmbeddingGenerator.slept
                    (EmbeddingGenerator.sent (EmbeddingGenerator.initial None)
                       ["soup"%string]) 30)
                 ["soup"%string])
              (PyList [PyInt 7])) as [H | (H & _)].
  - reflexivity.
  - exact H.
  - discriminate H.
Defined.

Section Honest.

Import EmbeddingGenerator.

Variable remote : api.
Hypothesis remote_honest : honest remote.

Lemma make_api_request_honest texts max_retries s v s' :
  _make_api_request remote texts max_retries s = (Ok v, s') ->
  v = PyNone \/ exists l, v = PyList l /\ List.length l = List.length texts.
Proof.
  intros Hrun. unfold _make_api_request in Hrun.
  apply retry_loop_returns in Hrun.
  destruct Hrun as [(n & r & _ & Hr & Hretried & Herror & Hjson) | (Hv & _)].
  - right. exact (remote_honest n texts r v Hr Hretried Herror Hjson).
  - left. exact Hv.
Qed.

(** The handler never returns normally. *)
Lemma on_batch_error_raises store batch_index exc s :
  exists e, fst (on_batch_error store batch_index exc s) = Raise e.
Proof.
  unfold on_batch_error.
  destruct (save store batch_index s) as [[[] | e] s']; eexists; reflexivity.
Qed.

(** A batch that succeeds against an honest API has added one embedding
    per text of the batch, whatever the file system does. *)
Lemma process_batch_honest store texts metadata batch_size i s s' :
  process_batch remote store texts metadata batch_size i s = (Ok tt, s') ->
  List.length (all_embeddings s')
  = (List.length (all_embeddings s)
     + List.length (slice texts i (i + batch_size)))%nat
  /\ processed_metadata s'
     = processed_metadata s ++ slice metadata i (i + batch_size).
Proof.
  rewrite process_batch_cases.
  pose proof (make_api_request_effect remote (slice texts i (i + batch_size))
                default_max_retries s) as Heff.
  cbn zeta in Heff.
  assert (Hno : forall exc s1,
            on_batch_error store (i / batch_size) exc s1 <> (Ok tt, s')).
  { intros exc s1 H.
    destruct (on_batch_error_raises store (i / batch_size) exc s1) as (e & He).
    rewrite H in He. discriminate. }
  destruct (_make_api_request remote (slice texts i (i + batch_size))
              default_max_retries s) as [[v | e] s1] eqn:Hrun;
    cbn [snd] in Heff; destruct Heff as (_ & Ha & Hm & _).
  2: { intros H. exfalso. exact (Hno _ _ H). }
  destruct (make_api_request_honest _ _ _ _ _ Hrun) as [-> | (l & -> & Hlen)].
  { cbn [iter]. intros H. exfalso. exact (Hno _ _ H). }
  cbn [iter]. cbn zeta.
  destruct ((i / batch_size) mod 5 =? 0).
  - pose proof (save_effect store (i / batch_size)
                  (extended s1 l (slice metadata i (i + batch_size)))) as S.
    cbn zeta in S.
    destruct (save store (i / batch_size)
                (extended s1 l (slice metadata i (i + batch_size))))
      as [[[] | e] s3]; cbn [fst snd] in S.
    + destruct S as (_ & Ha3 & Hm3 & _). intros [= <-].
      cbn [slept all_embeddings processed_metadata].
      rewrite Ha3, Hm3. cbn [extended all_embeddings processed_metadata].
      rewrite length_app, Ha, Hm, Hlen. split; reflexivity.
    + intros H. exfalso. exact (Hno _ _ H).
  - intros [= <-]. cbn [slept extended all_embeddings processed_metadata].
    rewrite length_app, Ha, Hm, Hlen. split; reflexivity.
Qed.

(** A loop that returns against an honest API has added one embedding
    per text of its batches. *)
Lemma batch_loop_honest_length store texts metadata batch_size starts :
  forall s s',
    batch_loop remote store texts metadata batch_size starts s = (Ok tt, s') ->
    List.length (all_embeddings s')
    = (List.length (all_embeddings s)
       + list_sum (map (fun i => List.length (slice texts i (i + batch_size)))
                       starts))%nat.
Proof.
  induction starts as [| i rest IH]; intros s s'.
  - cbn. intros [= <-]. lia.
  - cbn [batch_loop]. unfold bind.
    destruct (process_batch remote store texts metadata batch_size i s)
      as [[[] | e] s1] eqn:Hb; [| discriminate].
    intros Hrest.
    destruct (process_batch_honest _ _ _ _ _ _ _ Hb) as (H1 & _).
    rewrite (IH _ _ Hrest), H1. cbn [map]. unfold list_sum.
    cbn [fold_right]. lia.
Qed.

(** A batch against an honest API on a file system that does not fail:
    it adds one embedding per text of the batch, or it raises and leaves
    the accumulators, as they were, in the checkpoint file. *)
Lemma process_batch_honest_reliable texts metadata batch_size i s :
  match process_batch remote reliable texts metadata batch_size i s with
  | (Ok _, s') =>
      List.length (all_embeddings s')
      = (List.length (all_embeddings s)
         + List.length (slice texts i (i + batch_size)))%nat
      /\ processed_metadata s'
         = processed_metadata s ++ slice metadata i (i + batch_size)
      /\ exists pre, trace s' = pre ++ [Sleep 1]
  | (Raise _, s') =>
      all_embeddings s' = all_embeddings s
      /\ processed_metadata s' = processed_metadata s
      /\ disk s' = Pickled (current_checkpoint (i / batch_size) s')
      /\ exists pre,
           trace s' = pre ++ [SaveCheckpoint
                                (current_checkpoint (i / batch_size) s')]
  end.
Proof.
  rewrite process_batch_cases.
  pose proof (make_api_request_effect remote (slice texts i (i + batch_size))
                default_max_retries s) as Heff.
  cbn zeta in Heff.
  destruct (_make_api_request remote (slice texts i (i + batch_size))
              default_max_retries s) as [[v | e] s1] eqn:Hrun;
    cbn [snd] in Heff; destruct Heff as (_ & Ha & Hm & _).
  - destruct (make_api_request_honest _ _ _ _ _ Hrun) as [-> | (l & -> & Hlen)].
    + cbn [iter]. unfold on_batch_error, save, reliable.
      cbn [saved all_embeddings processed_metadata disk trace].
      unfold current_checkpoint. cbn [all_embeddings processed_metadata].
      repeat split; try assumption. exists (trace s1). reflexivity.
    + cbn [iter]. cbn zeta. unfold save, reliable.
      destruct ((i / batch_size) mod 5 =? 0);
        cbn [slept saved extended all_embeddings processed_metadata trace];
        rewrite length_app, Ha, Hm, Hlen;
        (split; [reflexivity |]); (split; [reflexivity |]);
        eexists; reflexivity.
  - unfold on_batch_error, save, reliable.
    cbn [saved all_embeddings processed_metadata disk trace].
    unfold current_checkpoint. cbn [all_embeddings processed_metadata].
    repeat split; try assumption. exists (trace s1). reflexivity.
Qed.

(** A run against an honest API, on a file system that does not fail,
    keeps the accumulators in step with the batches: the loop ends with
    one embedding per text and the metadata as given, or it raises and
    leaves a checkpoint that holds exactly the batches before its batch
    index. *)
Lemma batch_loop_honest texts metadata batch_size :
  0 < batch_size -> len metadata <= len texts ->
  forall (n : nat) (k : Z) (starts : list Z) (s : state),
    (Z.to_nat (len texts - k * batch_size) <= n)%nat ->
    0 <= k -> k * batch_size <= len texts ->
    range (k * batch_size) (len texts) batch_size = Ok starts ->
    len (all_embeddings s) = k * batch_size ->
    processed_metadata s = firstn (Z.to_nat (k * batch_size)) metadata ->
    match batch_loop remote reliable texts metadata batch_size starts s with
    | (Ok _, s') =>
        len (all_embeddings s') = len texts /\ processed_metadata s' = metadata
        /\ (s' = s \/ exists pre, trace s' = pre ++ [Sleep 1])
    | (Raise _, s') =>
        exists b,
          0 <= b /\ b * batch_size <= len texts
          /\ disk s' = Pickled (mkCheckpoint b (all_embeddings s')
                                             (processed_metadata s'))
          /\ len (all_embeddings s') = b * batch_size
          /\ processed_metadata s' = firstn (Z.to_nat (b * batch_size)) metadata
    end.
Proof.
  intros Hsize Hmeta.
  induction n as [| n IH]; intros k starts s Hn Hk Hle Hrange Hall Hpm.
  - rewrite range_empty in Hrange by lia. injection Hrange as <-. cbn.
    split; [lia |]. split; [| left; reflexivity].
    rewrite Hpm. apply firstn_all2. unfold len in *. lia.
  - destruct (Z.ltb_spec (k * batch_size) (len texts)) as [Hlt | Hge].
    + destruct (range_step (k * batch_size) (len texts) batch_size Hsize Hlt)
        as (rest & Hrest & Hall').
      rewrite Hall' in Hrange. injection Hrange as <-.
      cbn [batch_loop]. unfold bind.
      pose proof (process_batch_honest_reliable texts metadata batch_size
                    (k * batch_size) s) as Hb.
      rewrite Z.div_mul in Hb by lia.
      destruct (process_batch remote reliable texts metadata batch_size
                  (k * batch_size) s) as [[[] | e] s1].
      * destruct Hb as (Hlen1 & Hpm1 & Hlast1).
        rewrite length_slice_batch in Hlen1 by lia.
        rewrite Hpm, firstn_then_slice in Hpm1 by lia.
        destruct (Z.ltb_spec (k * batch_size + batch_size) (len texts))
          as [Hmore | Hlast].
        -- specialize (IH (k + 1) rest s1).
           destruct (batch_loop remote reliable texts metadata batch_size rest s1)
             as [[[] | e] s2].
           ++ destruct IH as (H1 & H2 & H3); try lia.
              ** replace ((k + 1) * batch_size)
                   with (k * batch_size + batch_size) by lia. exact Hrest.
              ** unfold len in *. lia.
              ** rewrite Hpm1. f_equal. lia.
              ** split; [exact H1 |]. split; [exact H2 |]. right.
                 destruct H3 as [-> | H3]; assumption.
           ++ apply IH; try lia.
              ** replace ((k + 1) * batch_size)
                   with (k * batch_size + batch_size) by lia. exact Hrest.
              ** unfold len in *. lia.
              ** rewrite Hpm1. f_equal. lia.
        -- rewrite range_empty in Hrest by lia. injection Hrest as <-. cbn.
           split; [unfold len in *; lia |]. split; [| right; exact Hlast1].
           rewrite Hpm1. apply firstn_all2. unfold len in *. lia.
      * destruct Hb as (Ha1 & Hm1 & Hd1 & _).
        exists k. split; [exact Hk |]. split; [exact Hle |].
        split; [exact Hd1 |]. rewrite Ha1, Hm1. split; assumption.
    + rewrite range_empty in Hrange by lia. injection Hrange as <-. cbn.
      split; [lia |]. split; [| left; reflexivity].
      rewrite Hpm. apply firstn_all2. unfold len in *. lia.
Qed.

End Honest.

Section Answered.

Import EmbeddingGenerator.

Variable remote : api.
Variable store : storage.
Hypothesis answered : answers_every_text remote.
Hypothesis written : forall n, store n = Written.

(** A property of every embedding the API hands out. *)
Variable P : pyval -> Prop.
Hypothesis answers_P :
  forall n texts l x, remote n texts = answer 200 (PyList l) -> In x l -> P x.

Lemma save_written batch_index s :
  save store batch_index s = (Ok tt, saved s batch_index).
Proof. unfold save. rewrite written. reflexivity. Qed.

(** Against such a remote one request settles a batch. *)
Lemma make_api_request_answered texts s :
  exists l, _make_api_request remote texts default_max_retries s
            = (Ok (PyList l), sent s texts)
            /\ List.length l = List.length texts
            /\ (forall x, In x l -> P x).
Proof.
  destruct (answered (requests s) texts) as (l & Hl & Hlen).
  exists l. split; [| split; [exact Hlen |]].
  - unfold _make_api_request, default_max_retries.
    change (map Z.of_nat (seq 0 (Z.to_nat 5))) with [0; 1; 2; 3; 4].
    cbn [retry_loop]. unfold bind. rewrite attempt_body_cases. cbn zeta.
    rewrite Hl. reflexivity.
  - intros x Hx. exact (answers_P _ _ _ _ Hl Hx).
Qed.

Lemma process_batch_answered texts metadata batch_size i s :
  exists s' l,
    process_batch remote store texts metadata batch_size i s = (Ok tt, s')
    /\ all_embeddings s' = all_embeddings s ++ l
    /\ List.length l = List.length (slice texts i (i + batch_size))
    /\ (forall x, In x l -> P x).
Proof.
  rewrite process_batch_cases.
  destruct (make_api_request_answered (slice texts i (i + batch_size)) s)
    as (l & -> & Hlen & HP).
  cbn [iter]. cbn zeta. rewrite save_written.
  destruct ((i / batch_size) mod 5 =? 0); eexists; exists l;
    (split; [reflexivity |]); (split; [reflexivity |]); split; assumption.
Qed.

Lemma batch_loop_answered texts metadata batch_size starts : forall s,
  exists s' l,
    batch_loop remote store texts metadata batch_size starts s = (Ok tt, s')
    /\ all_embeddings s' = all_embeddings s ++ l
    /\ List.length l
       = list_sum (map (fun i => List.length (slice texts i (i + batch_size)))
                       starts)
    /\ (forall x, In x l -> P x).
Proof.
  induction starts as [| i rest IH]; intros s.
  - exists s, []. cbn. rewrite app_nil_r. repeat split. intros x [].
  - cbn [batch_loop]. unfold bind.
    destruct (process_batch_answered texts metadata batch_size i s)
      as (s1 & l1 & -> & Ha1 & Hl1 & HP1).
    destruct (IH s1) as (s' & l2 & -> & Ha2 & Hl2 & HP2).
    exists s', (l1 ++ l2). split; [reflexivity |].
    split; [rewrite Ha2, Ha1, app_assoc; reflexivity |].
    split.
    + rewrite length_app, Hl1, Hl2. cbn [map]. unfold list_sum.
      cbn [fold_right]. reflexivity.
    + intros x Hx. apply in_app_or in Hx. destruct Hx; auto.
Qed.

End Answered.

(** C1, the claim at one input.  A first run over 70 texts is answered for
    two batches and then loses the network: it leaves a checkpoint with
    batch index 2 and 64 embeddings.  A later run over 3 texts loads it,
    sends nothing, and returns 64 embeddings for its 3 texts. *)
Lemma C1_stale_checkpoint_output_length :
  let first_run :=
    EmbeddingGenerator.generate_embeddings
      (EmbeddingGenerator.scripted
         [EmbeddingGenerator.answer 200 (PyList (repeat (PyList []) 32));
          EmbeddingGenerator.answer 200 (PyList (repeat (PyList []) 32))]
         (Raise (mkExn ConnectionError "connection lost")))
      EmbeddingGenerator.reliable
      (repeat "text"%string 70) (repeat PyNone 70) 32
      (EmbeddingGenerator.initial None) in
  let file := EmbeddingGenerator.disk (snd first_run) in
  let texts := ["soup"; "stew"; "salad"]%string in
  let second_run :=
    EmbeddingGenerator.generate_embeddings
      (EmbeddingGenerator.embed_all (fun _ => PyList []))
      EmbeddingGenerator.reliable
      texts [PyNone; PyNone; PyNone] 32
      (EmbeddingGenerator.started file) in
  (exists c, file = EmbeddingGenerator.Pickled c
             /\ EmbeddingGenerator.batch_index c = 2)
  /\ EmbeddingGenerator.posts (EmbeddingGenerator.trace (snd second_run)) = []
  /\ (exists e m, fst second_run = Ok (e, m) /\ len e = 64)
  /\ len texts = 3.
Proof.
  cbv zeta. split; [| split; [| split]].
  - eexists. split; vm_compute; reflexivity.
  - vm_compute. reflexivity.
  - eexists. eexists. split; vm_compute; reflexivity.
  - reflexivity.
Qed.

(** C1, as the code has it.  With a checkpoint whose batch index is 2 and
    the default batch size of 32, every request carries one of the batches
    [texts[64 + 32k : 96 + 32k]], whatever the API and the file system
    do.  When the checkpoint holds 64 embeddings, there are at least 64
    texts and every answer the API gets accepted carries one embedding
    per text, a run that returns returns as many embeddings as there are
    texts.  And the run does return when every request is answered with
    one embedding per text, every write goes through and the rows, those
    of the checkpoint and those of the answers, have one shape. *)
Theorem C1_resume_from_checkpoint :
  forall (remote : EmbeddingGenerator.api) (store : EmbeddingGenerator.storage)
         (texts : list string) (metadata : list pyval)
         (file : EmbeddingGenerator.checkpoint),
    EmbeddingGenerator.batch_index file = 2 ->
    let run := EmbeddingGenerator.generate_embeddings remote store texts metadata
                 EmbeddingGenerator.default_batch_size
                 (EmbeddingGenerator.initial (Some file)) in
    (forall p,
        In p (EmbeddingGenerator.posts (EmbeddingGenerator.trace (snd run))) ->
        exists k, 0 <= k /\ p = slice texts (64 + 32 * k) (64 + 32 * k + 32))
    /\ (EmbeddingGenerator.honest remote ->
        List.length (EmbeddingGenerator.embeddings file) = 64%nat ->
        64 <= len texts ->
        forall e m, fst run = Ok (e, m) -> len e = len texts)
    /\ (forall sh : list nat,
          EmbeddingGenerator.answers_every_text remote ->
          (forall n, store n = EmbeddingGenerator.Written) ->
          (forall x, In x (EmbeddingGenerator.embeddings file) ->
                     shape x = Some sh) ->
          (forall n batch l x,
              remote n batch = EmbeddingGenerator.answer 200 (PyList l) ->
              In x l -> shape x = Some sh) ->
          List.length (EmbeddingGenerator.embeddings file) = 64%nat ->
          64 <= len texts ->
          exists e m, fst run = Ok (e, m) /\ len e = len texts).
Proof.
  intros remote store texts metadata file Hindex run. subst run.
  assert (Hrange : range (EmbeddingGenerator.start_batch (Some file) * 32)
                         (len texts) 32
                   = Ok (map (fun k => 64 + Z.of_nat k * 32)
                             (seq 0 (range_len 64 (len texts) 32)))).
  { cbn [EmbeddingGenerator.start_batch]. rewrite Hindex. reflexivity. }
  unfold EmbeddingGenerator.default_batch_size.
  rewrite (generate_embeddings_unfold _ _ _ _ _ _ _ Hrange).
  set (starts := map (fun k => 64 + Z.of_nat k * 32)
                     (seq 0 (range_len 64 (len texts) 32))) in *.
  set (s0 := EmbeddingGenerator.loaded (Some file)).
  assert (Hcover : 64 <= len texts ->
                   list_sum (map (fun i => List.length (slice texts i (i + 32)))
                                 starts)
                   = Z.to_nat (len texts - 64)).
  { intros Hlen.
    apply (batches_cover texts 32 ltac:(lia) (Z.to_nat (len texts - 64)) 64 starts);
      try lia.
    cbn [EmbeddingGenerator.start_batch] in Hrange.
    rewrite Hindex in Hrange. exact Hrange. }
  split; [| split].
  - pose proof (batch_loop_posts remote store texts metadata 32 starts s0) as H.
    cbn zeta in H. destruct H as (evs & Ht & Hp).
    assert (Hs : EmbeddingGenerator.trace
                   (snd (EmbeddingGenerator.batch_loop remote store texts metadata
                           32 starts s0)) = evs) by (rewrite Ht; reflexivity).
    intros p Hin.
    assert (Hin' : In p (EmbeddingGenerator.posts evs)).
    { rewrite <- Hs.
      destruct (EmbeddingGenerator.batch_loop remote store texts metadata 32
                  starts s0) as [[[] | e] s']; exact Hin. }
    destruct (Hp p Hin') as (i & Hi & ->).
    apply in_map_iff in Hi. destruct Hi as (k & <- & _).
    exists (Z.of_nat k). split; [lia |]. f_equal; lia.
  - intros Hhonest Hfile Hlen e m.
    destruct (EmbeddingGenerator.batch_loop remote store texts metadata 32
                starts s0) as [[[] | x] s'] eqn:Hloop; cbn [fst];
      [| discriminate].
    pose proof (batch_loop_honest_length remote Hhonest store texts metadata 32
                  starts s0 s' Hloop) as Hsum.
    destruct (np_array (EmbeddingGenerator.all_embeddings s')) as [rows | x]
      eqn:Harray; [| discriminate].
    intros [= <- <-]. apply np_array_returns in Harray. subst rows.
    unfold len at 1. rewrite Hsum, (Hcover Hlen).
    subst s0. cbn [EmbeddingGenerator.loaded EmbeddingGenerator.all_embeddings].
    rewrite Hfile. unfold len in *. lia.
  - intros sh Hremote Hstore Hfileshape Hshape Hfile Hlen.
    destruct (batch_loop_answered remote store Hremote Hstore
                (fun x => shape x = Some sh) Hshape texts metadata 32 starts s0)
      as (s' & l & -> & Ha & Hl & HP).
    cbn [fst].
    assert (Harray : np_array (EmbeddingGenerator.all_embeddings s')
                     = Ok (EmbeddingGenerator.all_embeddings s')).
    { apply (np_array_uniform sh). rewrite Ha. intros x Hx.
      apply in_app_or in Hx. destruct Hx as [Hx | Hx]; [| exact (HP x Hx)].
      apply Hfileshape. exact Hx. }
    rewrite Harray. eexists. eexists. split; [reflexivity |].
    unfold len at 1. rewrite Ha, length_app, Hl, (Hcover Hlen).
    subst s0. cbn [EmbeddingGenerator.loaded EmbeddingGenerator.all_embeddings].
    rewrite Hfile. unfold len in *. lia.
Qed.

(** Seventy texts, a checkpoint of the first two batches, and a remote that
    answers every request. *)
Lemma C1_resume_from_checkpoint_witness :
  exists e m,
    fst (EmbeddingGenerator.generate_embeddings
           (EmbeddingGenerator.embed_all (fun _ => PyList [PyFloat (FFin "0.5")]))
           EmbeddingGenerator.reliable
           (repeat "text"%string 70) (repeat PyNone 70)
           EmbeddingGenerator.default_batch_size
           (EmbeddingGenerator.initial
              (Some (EmbeddingGenerator.mkCheckpoint 2
                       (repeat (PyList [PyFloat (FFin "0.5")]) 64)
                       (repeat PyNone 64)))))
    = Ok (e, m)
    /\ len e = len (repeat "text"%string 70).
Proof.
  destruct (C1_resume_from_checkpoint
              (EmbeddingGenerator.embed_all (fun _ => PyList [PyFloat (FFin "0.5")]))
              EmbeddingGenerator.reliable
              (repeat "text"%string 70) (repeat PyNone 70)
              (EmbeddingGenerator.mkCheckpoint 2
                 (repeat (PyList [PyFloat (FFin "0.5")]) 64)
                 (repeat PyNone 64))
              eq_refl) as (_ & _ & H).
  apply (H [1%nat]).
  - intros n texts. eexists. split; [reflexivity | apply length_map].
  - intros n. reflexivity.
  - intros x Hx. apply repeat_spec in Hx. subst x. reflexivity.
  - intros n batch l x Hl Hx. injection Hl as <-.
    apply in_map_iff in Hx. destruct Hx as (t & <- & _). reflexivity.
  - reflexivity.
  - vm_compute. discriminate.
Defined.

(** C5, the claim at one input.  Two texts in batches of one.  The first
    batch is embedded and its checkpoint written; the answer to the
    second cannot be iterated over, and the write of the handler is cut
    short after [open] has emptied the file.  The exception that leaves
    the run is the one of the write, the checkpoint of the first batch is
    gone, and the next run cannot so much as load the file. *)
Lemma C5_failed_write_loses_the_checkpoint :
  let remote :=
    EmbeddingGenerator.scripted
      [EmbeddingGenerator.answer 200 (PyList [PyList [PyFloat (FFin "0.5")]])]
      (EmbeddingGenerator.answer 200 PyNone) in
  let store : EmbeddingGenerator.storage :=
    fun n => if Nat.eqb n 1
             then EmbeddingGenerator.Torn (mkExn OSError "No space left on device")
                                          (mkExn EOFError "Ran out of input")
             else EmbeddingGenerator.Written in
  let first_run :=
    EmbeddingGenerator.generate_embeddings remote store
      ["soup"; "stew"]%string [PyNone; PyNone] 1
      (EmbeddingGenerator.initial None) in
  let second_run :=
    EmbeddingGenerator.generate_embeddings remote store
      ["soup"; "stew"]%string [PyNone; PyNone] 1
      (EmbeddingGenerator.started (EmbeddingGenerator.disk (snd first_run))) in
  fst first_run = Raise (mkExn OSError "No space left on device")
  /\ EmbeddingGenerator.checkpoints_written
       (EmbeddingGenerator.trace (snd first_run))
     = [EmbeddingGenerator.mkCheckpoint 0 [PyList [PyFloat (FFin "0.5")]] [PyNone]]
  /\ EmbeddingGenerator.all_embeddings (snd first_run)
     = [PyList [PyFloat (FFin "0.5")]]
  /\ EmbeddingGenerator.disk (snd first_run)
     = EmbeddingGenerator.Unreadable (mkExn EOFError "Ran out of input")
  /\ fst second_run = Raise (mkExn EOFError "Ran out of input").
Proof. cbv zeta. repeat split; vm_compute; reflexivity. Qed.

(** C5, as the code has it, for a run of [generate_embeddings].

    When nothing fails (every text is embedded at once and every write
    goes through), the checkpoints written during the run are, in this
    order, one for every batch whose absolute index [b] is a multiple of
    5: the index [b] with all embeddings and metadata gathered up to and
    including that batch.

    Whatever the API and the file system do: a batch that succeeds under
    such an index has written that checkpoint just before its final
    sleep, and a batch that raises has tried, as its last act, to write
    the accumulators under its index; when that write went through the
    file holds them.  So does a run that raises, unless the exception is
    the one of loading the checkpoint file or of [np.array] after the
    loop.  When the first request of a run raises something that is not
    a [RequestException] and the write goes through, the run raises that
    exception with everything loaded in the file under the batch index
    it started from.  A write that fails raises in place of the batch. *)
Theorem C5_checkpoint_cadence :
  forall (remote : EmbeddingGenerator.api) (store : EmbeddingGenerator.storage)
         (texts : list string) (metadata : list pyval) (batch_size : Z),
    0 < batch_size ->
    (forall (embedding_of : string -> pyval)
            (file : option EmbeddingGenerator.checkpoint),
        0 <= EmbeddingGenerator.start_batch file ->
        let start := EmbeddingGenerator.start_batch file in
        let a := start * batch_size in
        let before := EmbeddingGenerator.loaded file in
        let written (b : Z) :=
          EmbeddingGenerator.mkCheckpoint b
            (EmbeddingGenerator.all_embeddings before
               ++ map embedding_of (slice texts a ((b + 1) * batch_size)))
            (EmbeddingGenerator.processed_metadata before
               ++ slice metadata a ((b + 1) * batch_size)) in
        let multiples :=
          filter (fun b => b mod 5 =? 0)
                 (map (fun k => start + Z.of_nat k)
                      (seq 0 (range_len a (len texts) batch_size))) in
        let run := EmbeddingGenerator.generate_embeddings
                     (EmbeddingGenerator.embed_all embedding_of)
                     EmbeddingGenerator.reliable texts metadata batch_size
                     (EmbeddingGenerator.initial file) in
        EmbeddingGenerator.checkpoints_written
          (EmbeddingGenerator.trace (snd run))
        = map written multiples
        /\ EmbeddingGenerator.disk (snd run)
           = last (map (fun b => EmbeddingGenerator.Pickled (written b)) multiples)
                  (EmbeddingGenerator.on_disk file))
    /\ (forall i s,
          let b := i / batch_size in
          match EmbeddingGenerator.process_batch remote store texts metadata
                  batch_size i s with
          | (Ok _, s') =>
              (exists l, EmbeddingGenerator.all_embeddings s'
                         = EmbeddingGenerator.all_embeddings s ++ l)
              /\ EmbeddingGenerator.processed_metadata s'
                 = EmbeddingGenerator.processed_metadata s
                     ++ slice metadata i (i + batch_size)
              /\ (b mod 5 = 0 ->
                  store (EmbeddingGenerator.writes s) = EmbeddingGenerator.Written
                  /\ EmbeddingGenerator.writes s'
                     = S (EmbeddingGenerator.writes s)
                  /\ EmbeddingGenerator.disk s'
                     = EmbeddingGenerator.Pickled
                         (EmbeddingGenerator.current_checkpoint b s')
                  /\ exists pre,
                       EmbeddingGenerator.trace s'
                       = pre ++ [EmbeddingGenerator.SaveCheckpoint
                                   (EmbeddingGenerator.current_checkpoint b s');
                                 EmbeddingGenerator.Sleep 1])
              /\ (b mod 5 <> 0 ->
                  EmbeddingGenerator.writes s' = EmbeddingGenerator.writes s
                  /\ EmbeddingGenerator.disk s' = EmbeddingGenerator.disk s
                  /\ exists pre,
                       EmbeddingGenerator.trace s'
                       = pre ++ [EmbeddingGenerator.Sleep 1]
                       /\ EmbeddingGenerator.checkpoints_written
                            (EmbeddingGenerator.trace s')
                          = EmbeddingGenerator.checkpoints_written
                              (EmbeddingGenerator.trace s))
          | (Raise e, s') =>
              exists pre,
                (EmbeddingGenerator.trace s'
                 = pre ++ [EmbeddingGenerator.SaveCheckpoint
                             (EmbeddingGenerator.current_checkpoint b s')]
                 /\ EmbeddingGenerator.disk s'
                    = EmbeddingGenerator.Pickled
                        (EmbeddingGenerator.current_checkpoint b s'))
                \/ (EmbeddingGenerator.trace s'
                    = pre ++ [EmbeddingGenerator.SaveFailed
                                (EmbeddingGenerator.current_checkpoint b s')]
                    /\ (store (EmbeddingGenerator.writes s' - 1)%nat
                        = EmbeddingGenerator.NotOpened e
                        \/ exists on_load,
                             store (EmbeddingGenerator.writes s' - 1)%nat
                             = EmbeddingGenerator.Torn e on_load))
          end)
    /\ (forall (file : EmbeddingGenerator.checkpoint_file) e s',
          EmbeddingGenerator.generate_embeddings remote store texts metadata
            batch_size (EmbeddingGenerator.started file) = (Raise e, s') ->
          file = EmbeddingGenerator.Unreadable e
          \/ np_array (EmbeddingGenerator.all_embeddings s') = Raise e
          \/ exists b pre,
               (EmbeddingGenerator.trace s'
                = pre ++ [EmbeddingGenerator.SaveCheckpoint
                            (EmbeddingGenerator.current_checkpoint b s')]
                /\ EmbeddingGenerator.disk s'
                   = EmbeddingGenerator.Pickled
                       (EmbeddingGenerator.current_checkpoint b s'))
               \/ (EmbeddingGenerator.trace s'
                   = pre ++ [EmbeddingGenerator.SaveFailed
                               (EmbeddingGenerator.current_checkpoint b s')]
                   /\ (store (EmbeddingGenerator.writes s' - 1)%nat
                       = EmbeddingGenerator.NotOpened e
                       \/ exists on_load,
                            store (EmbeddingGenerator.writes s' - 1)%nat
                            = EmbeddingGenerator.Torn e on_load)))
    /\ (forall (file : option EmbeddingGenerator.checkpoint) e,
          let start := EmbeddingGenerator.start_batch file in
          let batch := slice texts (start * batch_size)
                             (start * batch_size + batch_size) in
          0 <= start ->
          start * batch_size < len texts ->
          remote 0%nat batch = Raise e ->
          is_RequestException e = false ->
          store 0%nat = EmbeddingGenerator.Written ->
          EmbeddingGenerator.generate_embeddings remote store texts metadata
            batch_size (EmbeddingGenerator.initial file)
          = (Raise e,
             EmbeddingGenerator.saved
               (EmbeddingGenerator.sent (EmbeddingGenerator.loaded file) batch)
               start)).
Proof.
  intros remote store texts metadata batch_size Hsize.
  assert (Hne : batch_size <> 0) by lia.
  split; [| split; [| split]].
  - intros embedding_of file Hstart. cbn zeta.
    destruct (generate_embeddings_healthy embedding_of texts metadata batch_size
                file Hsize Hstart) as (_ & _ & Hw & Hd & _).
    split; [exact Hw | exact Hd].
  - intros i s. apply process_batch_checkpoints.
  - intros file e s' Hrun.
    destruct file as [| c | x].
    + change (EmbeddingGenerator.started EmbeddingGenerator.NoFile)
        with (EmbeddingGenerator.initial None) in Hrun.
      rewrite (generate_embeddings_unfold _ _ _ _ _ _ _ (range_starts _ _ _ Hne))
        in Hrun.
      match type of Hrun with
      | context [EmbeddingGenerator.batch_loop ?r ?st ?t ?m ?b ?l ?s] =>
          pose proof (batch_loop_raise r st t m b l s) as Hloop;
          destruct (EmbeddingGenerator.batch_loop r st t m b l s)
            as [[[] | e'] s1]
      end.
      * right. left.
        destruct (np_array (EmbeddingGenerator.all_embeddings s1)) eqn:Ha;
          [discriminate |].
        injection Hrun as <- <-. exact Ha.
      * injection Hrun as <- <-. right. right. exact Hloop.
    + change (EmbeddingGenerator.started (EmbeddingGenerator.Pickled c))
        with (EmbeddingGenerator.initial (Some c)) in Hrun.
      rewrite (generate_embeddings_unfold _ _ _ _ _ _ _ (range_starts _ _ _ Hne))
        in Hrun.
      match type of Hrun with
      | context [EmbeddingGenerator.batch_loop ?r ?st ?t ?m ?b ?l ?s] =>
          pose proof (batch_loop_raise r st t m b l s) as Hloop;
          destruct (EmbeddingGenerator.batch_loop r st t m b l s)
            as [[[] | e'] s1]
      end.
      * right. left.
        destruct (np_array (EmbeddingGenerator.all_embeddings s1)) eqn:Ha;
          [discriminate |].
        injection Hrun as <- <-. exact Ha.
      * injection Hrun as <- <-. right. right. exact Hloop.
    + rewrite generate_embeddings_unreadable in Hrun.
      injection Hrun as <- <-. left. reflexivity.
  - intros file e start batch Hstart Hlt Hremote Hexn Hstore.
    destruct (range_step (start * batch_size) (len texts) batch_size Hsize Hlt)
      as (rest & _ & Hrange).
    subst start batch.
    rewrite (generate_embeddings_unfold _ _ _ _ _ _ _ Hrange).
    cbn [EmbeddingGenerator.batch_loop]. unfold bind.
    rewrite process_batch_cases.
    assert (Hreq : EmbeddingGenerator._make_api_request remote
                     (slice texts (EmbeddingGenerator.start_batch file * batch_size)
                            (EmbeddingGenerator.start_batch file * batch_size
                             + batch_size))
                     EmbeddingGenerator.default_max_retries
                     (EmbeddingGenerator.loaded file)
                   = (Raise e,
                      EmbeddingGenerator.sent (EmbeddingGenerator.loaded file)
                        (slice texts
                           (EmbeddingGenerator.start_batch file * batch_size)
                           (EmbeddingGenerator.start_batch file * batch_size
                            + batch_size)))).
    { unfold EmbeddingGenerator._make_api_request,
             EmbeddingGenerator.default_max_retries.
      change (map Z.of_nat (seq 0 (Z.to_nat 5))) with [0; 1; 2; 3; 4].
      cbn [EmbeddingGenerator.retry_loop]. unfold bind.
      rewrite attempt_body_cases. cbn zeta.
      replace (EmbeddingGenerator.requests (EmbeddingGenerator.loaded file))
        with 0%nat by (destruct file; reflexivity).
      rewrite Hremote, Hexn. reflexivity. }
    rewrite Hreq, Z.div_mul by lia.
    unfold EmbeddingGenerator.on_batch_error, EmbeddingGenerator.save.
    replace (EmbeddingGenerator.writes
               (EmbeddingGenerator.sent (EmbeddingGenerator.loaded file)
                  (slice texts (EmbeddingGenerator.start_batch file * batch_size)
                         (EmbeddingGenerator.start_batch file * batch_size
                          + batch_size))))
      with 0%nat by (destruct file; reflexivity).
    rewrite Hstore. reflexivity.
Qed.

(** A run of eleven texts in batches of two in which nothing fails writes
    the checkpoints of batch 0 and batch 5; and a fresh run whose first
    request is refused with a [TypeError] raises it after writing the
    empty accumulators under batch index 0. *)
Lemma C5_checkpoint_cadence_witness :
  let texts := map (fun k => str_of_int (Z.of_nat k)) (seq 0 11) in
  let embedding_of (t : string) := PyList [PyStr t] in
  let refused := mkExn TypeError "not JSON serializable" in
  EmbeddingGenerator.checkpoints_written
    (EmbeddingGenerator.trace
       (snd (EmbeddingGenerator.generate_embeddings
               (EmbeddingGenerator.embed_all embedding_of)
               EmbeddingGenerator.reliable texts (repeat PyNone 11) 2
               (EmbeddingGenerator.initial None))))
  = [EmbeddingGenerator.mkCheckpoint 0
       (map embedding_of (slice texts 0 2)) (repeat PyNone 2);
     EmbeddingGenerator.mkCheckpoint 5
       (map embedding_of (slice texts 0 12)) (repeat PyNone 11)]
  /\ EmbeddingGenerator.generate_embeddings
       (EmbeddingGenerator.scripted [] (Raise refused))
       EmbeddingGenerator.reliable texts (repeat PyNone 11) 2
       (EmbeddingGenerator.initial None)
     = (Raise refused,
        EmbeddingGenerator.saved
          (EmbeddingGenerator.sent (EmbeddingGenerator.loaded None)
             (slice texts (0 * 2) (0 * 2 + 2)))
          0).
Proof.
  cbv zeta. split.
  - destruct (C5_checkpoint_cadence
                (EmbeddingGenerator.embed_all (fun t => PyList [PyStr t]))
                EmbeddingGenerator.reliable
                (map (fun k => str_of_int (Z.of_nat k)) (seq 0 11))
                (repeat PyNone 11) 2 ltac:(lia)) as (Hhealthy & _).
    destruct (Hhealthy (fun t => PyList [PyStr t]) None ltac:(cbn; lia))
      as (Hwritten & _).
    rewrite Hwritten. vm_compute. reflexivity.
  - destruct (C5_checkpoint_cadence
                (EmbeddingGenerator.scripted []
                   (Raise (mkExn TypeError "not JSON serializable")))
                EmbeddingGenerator.reliable
                (map (fun k => str_of_int (Z.of_nat k)) (seq 0 11))
                (repeat PyNone 11) 2 ltac:(lia)) as (_ & _ & _ & Hfirst).
    apply (Hfirst None (mkExn TypeError "not JSON serializable")).
    + cbn. lia.
    + vm_compute. reflexivity.
    + reflexivity.
    + reflexivity.
    + reflexivity.
Defined.
(* ================================================================== *)
(** ** Properties of the vector store *)
(* ================================================================== *)

Section Insert.

Import VectorDB.

Variable fault : faults.

Lemma executemany_calls_app l1 l2 :
  executemany_calls (l1 ++ l2) = executemany_calls l1 ++ executemany_calls l2.
Proof.
  induction l1 as [| [rows | | params limit | |] l1 IH]; cbn;
    rewrite ?IH; reflexivity.
Qed.

(** Rows that fit the schema one after the other carry vectors the
    column accepts. *)
Lemma rows_ok_vectors rows : forall existing,
  rows_ok existing rows = true -> vectors_ok rows.
Proof.
  induction rows as [| r rest IH]; intros existing H; [constructor |].
  cbn [rows_ok] in H. apply andb_prop in H. destruct H as (Hr & Hrest).
  constructor; [| exact (IH _ Hrest)].
  unfold row_ok in Hr. apply andb_prop in Hr. apply Hr.
Qed.

(** Inserting rows touches only the uncommitted rows; it succeeds when
    the rows fit the schema one after the other, and then they are all
    there. *)
Lemma insert_rows_effect rows : forall d,
  let d' := snd (insert_rows rows d) in
  table d' = table d /\ statements d' = statements d /\ log d' = log d
  /\ match fst (insert_rows rows d) with
     | Ok _ => uncommitted d' = uncommitted d ++ rows
               /\ rows_ok (table d ++ uncommitted d) rows = true
     | Raise e => is_Exception e = true
                  /\ rows_ok (table d ++ uncommitted d) rows = false
     end.
Proof.
  induction rows as [| r rest IH]; intros d; cbn zeta.
  - cbn. rewrite app_nil_r. repeat split.
  - cbn [insert_rows rows_ok]. unfold bind, insert_row.
    destruct (row_ok (table d ++ uncommitted d) r) eqn:Hok.
    + specialize (IH (mkDb (table d) (uncommitted d ++ [r]) (statements d) (log d))).
      cbn zeta in IH. cbn [table uncommitted] in IH.
      rewrite app_assoc in IH.
      destruct (insert_rows rest
                  (mkDb (table d) (uncommitted d ++ [r]) (statements d) (log d)))
        as [[[] | e] d']; cbn [fst snd] in *;
        destruct IH as (Ht & Hs & Hl & Hu); cbn in Ht, Hs, Hl.
      * destruct Hu as (Hu & Hv).
        repeat split; try assumption.
        rewrite Hu, <- app_assoc. reflexivity.
      * repeat split; try assumption; apply Hu.
    + cbn. repeat split.
Qed.

(** What [rollback] does, by whether its statement fails. *)
Lemma rollback_cases d :
  rollback fault d
  = if fault (statements d)
    then (Raise (db_error "the statement failed"),
          mkDb (table d) (uncommitted d) (S (statements d)) (log d ++ [Rollback]))
    else (Ok tt, mkDb (table d) [] (S (statements d)) (log d ++ [Rollback])).
Proof.
  unfold rollback, statement, bind.
  destruct (fault (statements d)); reflexivity.
Qed.

(** The [try] block of a batch: it stores the rows when neither
    statement fails and the rows fit the schema; otherwise it raises and
    leaves the table as it was. *)
Lemma insert_and_commit_cases rows d :
  uncommitted d = [] ->
  let attempt := insert_and_commit fault rows d in
  match fst attempt with
  | Ok _ =>
      attempt = (Ok tt, mkDb (table d ++ rows) [] (S (S (statements d)))
                             ((log d ++ [Executemany rows]) ++ [Commit]))
      /\ fault (statements d) = false
      /\ fault (S (statements d)) = false
      /\ rows_ok (table d) rows = true
  | Raise e =>
      is_Exception e = true
      /\ table (snd attempt) = table d
      /\ (fault (statements d) = false -> fault (S (statements d)) = false ->
          rows_ok (table d) rows = false)
      /\ exists evs,
           log (snd attempt) = log d ++ Executemany rows :: evs
           /\ statements (snd attempt) = (statements d + S (List.length evs))%nat
           /\ (evs = [] \/ evs = [Commit])
  end.
Proof.
  intros Hu. cbn zeta.
  unfold insert_and_commit, executemany, commit, bind, statement.
  destruct (fault (statements d)) eqn:F1; cbn [fst snd].
  - cbn [table log statements].
    split; [reflexivity |]. split; [reflexivity |].
    split; [discriminate |].
    exists []. split; [reflexivity |]. split; [cbn; lia | left; reflexivity].
  - pose proof (insert_rows_effect rows
                  (mkDb (table d) (uncommitted d) (S (statements d))
                        (log d ++ [Executemany rows]))) as H.
    cbn zeta in H. cbn [table uncommitted statements log] in H.
    rewrite Hu, app_nil_r in H. rewrite Hu.
    destruct (insert_rows rows
                (mkDb (table d) [] (S (statements d))
                      (log d ++ [Executemany rows])))
      as [[[] | e] d1] eqn:Hins; cbn [fst snd] in *;
      destruct H as (Ht & Hs & Hl & Hrows).
    + destruct Hrows as (Hun & Hok). cbn [app] in Hun.
      rewrite ?Hs.
      destruct (fault (S (statements d))) eqn:F2; cbn [fst snd].
      * cbn [table log statements]. rewrite ?Ht, ?Hl, ?Hs.
        split; [reflexivity |]. split; [reflexivity |].
        split; [discriminate |].
        exists [Commit]. rewrite <- app_assoc.
        split; [reflexivity |]. split; [cbn; lia | right; reflexivity].
      * rewrite ?Ht, ?Hl, ?Hun. repeat split; try reflexivity. exact Hok.
    + destruct Hrows as (He & Hbad).
      cbn [table log statements fst snd].
      split; [exact He |]. split; [exact Ht |].
      split; [intros _ _; exact Hbad |].
      exists []. rewrite ?Hl, ?Hs.
      split; [reflexivity |]. split; [cbn; lia | left; reflexivity].
Qed.

(** The body of the batch loop: nothing for a batch without data; the
    outcome of the [try] block when it succeeds; the outcome of
    [rollback] when it does not. *)
Lemma insert_batch_cases batch d :
  uncommitted d = [] ->
  let rows := prepare_batch batch in
  let attempt := insert_and_commit fault rows d in
  (rows = [] -> insert_batch fault batch d = (Ok tt, d))
  /\ (rows <> [] -> fst attempt = Ok tt -> insert_batch fault batch d = attempt)
  /\ (rows <> [] -> forall e, fst attempt = Raise e ->
        insert_batch fault batch d = rollback fault (snd attempt)).
Proof.
  intros Hu. cbn zeta. unfold insert_batch.
  destruct (prepare_batch batch) as [| r rest] eqn:Hrows.
  - split; [reflexivity |]. split; intros H; contradiction.
  - set (rows := r :: rest).
    pose proof (insert_and_commit_cases rows d Hu) as H. cbn zeta in H.
    unfold try_except.
    destruct (insert_and_commit fault rows d) as [[[] | e] d1];
      cbn [fst snd] in *.
    + split; [discriminate |]. split; [reflexivity |].
      intros _ e He. discriminate.
    + destruct H as (Hexn & _). rewrite Hexn.
      split; [discriminate |]. split; [intros _ He; discriminate |].
      reflexivity.
Qed.

(** One batch, as the loop sees it. *)
Lemma insert_batch_effect batch d :
  uncommitted d = [] ->
  let rows := prepare_batch batch in
  let after := insert_batch fault batch d in
  exists evs,
    log (snd after) = log d ++ evs
    /\ statements (snd after) = (statements d + List.length evs)%nat
    /\ executemany_calls evs = match rows with [] => [] | _ => [rows] end
    /\ (table (snd after) = table d
        \/ (table (snd after) = table d ++ rows
            /\ rows_ok (table d) rows = true
            /\ rows <> []))
    /\ match fst after with
       | Ok _ =>
           uncommitted (snd after) = []
           /\ forall k, nth_error evs k = Some Rollback ->
                        fault (statements d + k)%nat = false
       | Raise e =>
           e = db_error "the statement failed"
           /\ rows <> []
           /\ table (snd after) = table d
           /\ exists pre, evs = pre ++ [Rollback]
                          /\ fault (statements d + List.length pre)%nat = true
       end.
Proof.
  intros Hu. cbn zeta.
  destruct (insert_batch_cases batch d Hu) as (Hnone & Hgood & Hbad).
  destruct (prepare_batch batch) as [| r rest] eqn:Hrows.
  - rewrite (Hnone eq_refl). cbn [fst snd].
    exists []. rewrite app_nil_r.
    split; [reflexivity |]. split; [cbn; lia |]. split; [reflexivity |].
    split; [left; reflexivity |].
    split; [exact Hu |]. intros [| k]; discriminate.
  - set (rows := r :: rest) in *.
    assert (Hne : rows <> []) by discriminate.
    specialize (Hgood Hne). specialize (Hbad Hne).
    pose proof (insert_and_commit_cases rows d Hu) as H. cbn zeta in H.
    destruct (insert_and_commit fault rows d) as [[[] | e] d1] eqn:Hattempt;
      cbn [fst snd] in *.
    + destruct H as (Heq & _ & _ & Hok). rewrite (Hgood eq_refl).
      injection Heq as ->. cbn [fst snd table uncommitted statements log].
      exists [Executemany rows; Commit]. rewrite <- app_assoc.
      split; [reflexivity |]. split; [cbn; lia |]. split; [reflexivity |].
      split; [right; split; [reflexivity | split; [exact Hok | exact Hne]] |].
      split; [reflexivity |].
      intros [| [| [| k]]]; discriminate.
    + destruct H as (_ & Ht & _ & evs & Hl & Hs & Hevs).
      rewrite (Hbad e eq_refl), rollback_cases.
      destruct (fault (statements d1)) eqn:F; cbn [fst snd table uncommitted
                                                   statements log].
      * exists ((Executemany rows :: evs) ++ [Rollback]).
        rewrite Hl, <- app_assoc.
        split; [reflexivity |].
        split; [rewrite Hs, length_app; cbn; lia |].
        split; [destruct Hevs as [-> | ->]; reflexivity |].
        split; [left; exact Ht |].
        split; [reflexivity |]. split; [exact Hne |]. split; [exact Ht |].
        exists (Executemany rows :: evs). split; [reflexivity |].
        cbn [List.length]. rewrite <- F. f_equal. lia.
      * exists ((Executemany rows :: evs) ++ [Rollback]).
        rewrite Hl, <- app_assoc.
        split; [reflexivity |].
        split; [rewrite Hs, length_app; cbn; lia |].
        split; [destruct Hevs as [-> | ->]; reflexivity |].
        split; [left; exact Ht |].
        split; [reflexivity |].
        intros k Hk.
        destruct Hevs as [-> | ->]; cbn [List.length] in Hs.
        -- destruct k as [| [| [| k]]]; try discriminate.
           rewrite <- F. f_equal. lia.
        -- destruct k as [| [| [| [| k]]]]; try discriminate.
           rewrite <- F. f_equal. lia.
Qed.

Lemma firstn_prepared_cons recipes batch_size i rest n :
  exists m,
    match prepare_batch (slice recipes i (i + batch_size)) with
    | [] => []
    | _ :: _ => [prepare_batch (slice recipes i (i + batch_size))]
    end ++ firstn n (prepared_batches recipes batch_size rest)
    = firstn m (prepared_batches recipes batch_size (i :: rest)).
Proof.
  unfold prepared_batches. cbn [map filter].
  destruct (prepare_batch (slice recipes i (i + batch_size))) as [| r rows].
  - exists n. reflexivity.
  - exists (S n). reflexivity.
Qed.

(** The whole loop. *)
Lemma insert_loop_effect recipes batch_size starts : forall d,
  uncommitted d = [] ->
  let run := insert_loop fault recipes batch_size starts d in
  exists evs kept,
    log (snd run) = log d ++ evs
    /\ statements (snd run) = (statements d + List.length evs)%nat
    /\ table (snd run) = table d ++ List.concat kept
    /\ (forall rows, In rows kept ->
          vectors_ok rows
          /\ rows <> []
          /\ exists i, In i starts
                       /\ rows = prepare_batch (slice recipes i (i + batch_size)))
    /\ match fst run with
       | Ok _ =>
           uncommitted (snd run) = []
           /\ executemany_calls evs = prepared_batches recipes batch_size starts
           /\ forall k, nth_error evs k = Some Rollback ->
                        fault (statements d + k)%nat = false
       | Raise e =>
           e = db_error "the statement failed"
           /\ exists pre n,
                evs = pre ++ [Rollback]
                /\ fault (statements d + List.length pre)%nat = true
                /\ executemany_calls evs
                   = firstn n (prepared_batches recipes batch_size starts)
                /\ (n <= List.length (prepared_batches recipes batch_size starts))%nat
       end.
Proof.
  induction starts as [| i rest IH]; intros d Hu; cbn zeta.
  - cbn [insert_loop ret fst snd]. exists [], [].
    cbn [List.concat]. rewrite !app_nil_r.
    split; [reflexivity |]. split; [cbn; lia |]. split; [reflexivity |].
    split; [intros rows [] |].
    split; [exact Hu |]. split; [reflexivity |].
    intros [| k]; discriminate.
  - cbn [insert_loop]. unfold bind.
    destruct (insert_batch_effect (slice recipes i (i + batch_size)) d Hu)
      as (evs1 & Hl1 & Hs1 & Hc1 & Ht1 & Hres1).
    destruct (insert_batch fault (slice recipes i (i + batch_size)) d)
      as [[[] | e] d1]; cbn [fst snd] in *.
    + destruct Hres1 as (Hu1 & Hroll1).
      destruct (IH d1 Hu1) as (evs2 & kept & Hl2 & Hs2 & Ht2 & Hkept & Hres2).
      cbn zeta in *.
      assert (Hold : forall rows, In rows kept ->
                     vectors_ok rows
                     /\ rows <> []
                     /\ exists j, In j (i :: rest)
                                  /\ rows = prepare_batch
                                              (slice recipes j (j + batch_size))).
      { intros rows Hk. destruct (Hkept rows Hk) as (Hv & Hn & j & Hj & Hrow).
        split; [exact Hv |]. split; [exact Hn |].
        exists j. split; [right; exact Hj | exact Hrow]. }
      assert (Hkeep : exists kept',
                 table (snd (insert_loop fault recipes batch_size rest d1))
                 = table d ++ List.concat kept'
                 /\ forall rows, In rows kept' ->
                      vectors_ok rows
                      /\ rows <> []
                      /\ exists j, In j (i :: rest)
                                   /\ rows = prepare_batch
                                               (slice recipes j (j + batch_size))).
      { destruct Ht1 as [Ht1 | (Ht1 & Hok & Hne)].
        - exists kept. rewrite Ht2, Ht1. split; [reflexivity | exact Hold].
        - exists (prepare_batch (slice recipes i (i + batch_size)) :: kept).
          rewrite Ht2, Ht1. cbn [List.concat]. rewrite <- app_assoc.
          split; [reflexivity |].
          intros rows [<- | Hin]; [| exact (Hold rows Hin)].
          split; [exact (rows_ok_vectors _ _ Hok) |]. split; [exact Hne |].
          exists i. split; [left; reflexivity | reflexivity]. }
      destruct Hkeep as (kept' & Htable & Hkept').
      exists (evs1 ++ evs2), kept'.
      split; [rewrite Hl2, Hl1, app_assoc; reflexivity |].
      split; [rewrite Hs2, Hs1, length_app; lia |].
      split; [exact Htable |]. split; [exact Hkept' |].
      clear Htable Hkept' Hold.
      destruct (fst (insert_loop fault recipes batch_size rest d1)) as [[] | e].
      * destruct Hres2 as (Hu2 & Hc2 & Hroll2).
           split; [exact Hu2 |]. split.
           ++ rewrite executemany_calls_app, Hc1, Hc2.
              unfold prepared_batches. cbn [map filter].
              destruct (prepare_batch (slice recipes i (i + batch_size)));
                reflexivity.
           ++ intros k Hk.
              destruct (Nat.lt_ge_cases k (List.length evs1)) as [Hlt | Hge].
              ** rewrite nth_error_app1 in Hk by exact Hlt.
                 exact (Hroll1 k Hk).
              ** rewrite nth_error_app2 in Hk by exact Hge.
                 pose proof (Hroll2 _ Hk) as Hf. rewrite Hs1 in Hf.
                 rewrite <- Hf. f_equal. lia.
      * destruct Hres2 as (-> & pre & n & Hpre & Hf & Hc2 & Hn).
           split; [reflexivity |].
           destruct (firstn_prepared_cons recipes batch_size i rest n)
             as (m & Hm).
           exists (evs1 ++ pre), (Nat.min m (List.length
                                     (prepared_batches recipes batch_size
                                        (i :: rest)))).
           split; [rewrite Hpre, app_assoc; reflexivity |].
           split; [rewrite length_app, <- Hf, Hs1; f_equal; lia |].
           split; [| apply Nat.le_min_r].
           rewrite executemany_calls_app, Hc1, Hc2, Hm.
           destruct (Nat.le_ge_cases m (List.length
                                          (prepared_batches recipes batch_size
                                             (i :: rest)))) as [Hle | Hge].
           ++ rewrite Nat.min_l by exact Hle. reflexivity.
           ++ rewrite Nat.min_r by exact Hge.
              rewrite firstn_all2 by exact Hge. rewrite firstn_all. reflexivity.
    + destruct Hres1 as (-> & Hne & Ht & pre & Hpre & Hf).
      exists evs1, [].
      cbn [List.concat]. rewrite app_nil_r.
      split; [exact Hl1 |]. split; [exact Hs1 |]. split; [exact Ht |].
      split; [intros rows [] |].
      split; [reflexivity |].
      exists pre, 1%nat.
      split; [exact Hpre |]. split; [exact Hf |].
      unfold prepared_batches. cbn [map filter].
      destruct (prepare_batch (slice recipes i (i + batch_size))) as [| r rows];
        [contradiction |].
      split; [rewrite Hc1; reflexivity | cbn; lia].
Qed.

End Insert.



Lemma traverse_length {A B : Type} (f : A -> result B) (l : list A) :
  forall ys, traverse f l = Ok ys -> List.length ys = List.length l.
Proof.
  induction l as [| x l IH]; intros ys; cbn.
  - intros [= <-]. reflexivity.
  - destruct (f x) as [y | e]; [| discriminate].
    destruct (traverse f l) as [ys' | e]; [| discriminate].
    intros [= <-]. cbn. f_equal. apply IH. reflexivity.
Qed.

(** A sanitised element is never written as the token [NaN]. *)
Lemma json_dumps_sanitize_not_NaN (x : pyval) :
  VectorDB.json_dumps (VectorDB.sanitize x) <> Ok VectorDB.JNaN.
Proof.
  destruct x as [| b | z | [| negative | repr] | s | l | l | d | name]; cbn;
    try discriminate.
  - destruct (traverse VectorDB.json_dumps l); discriminate.
  - destruct (traverse VectorDB.json_dumps l); discriminate.
  - match goal with
    | |- context [traverse ?f d] => destruct (traverse f d); discriminate
    end.
Qed.

Lemma traverse_sanitize_no_NaN (l : list pyval) :
  forall js, traverse VectorDB.json_dumps (map VectorDB.sanitize l) = Ok js ->
             ~ In VectorDB.JNaN js.
Proof.
  induction l as [| x l IH]; intros js; cbn [map traverse].
  - intros [= <-] [].
  - pose proof (json_dumps_sanitize_not_NaN x) as Hx.
    destruct (VectorDB.json_dumps (VectorDB.sanitize x)) as [j | e]; [| discriminate].
    destruct (traverse VectorDB.json_dumps (map VectorDB.sanitize l)) as [js' | e];
      [| discriminate].
    intros [= <-] [Hj | Hin].
    + apply Hx. rewrite Hj. reflexivity.
    + exact (IH js' eq_refl Hin).
Qed.

(** A vector the column accepts is an array of 768 numbers. *)
Lemma vector_ok_array (j : VectorDB.json_value) :
  VectorDB.vector_ok j = true ->
  exists js, j = VectorDB.JArray js
             /\ List.length js = 768%nat
             /\ forallb VectorDB.is_json_number js = true.
Proof.
  destruct j as [| | | | | | | js |]; cbn; try discriminate.
  intros H. apply andb_prop in H. destruct H as (Hlen & Hnum).
  apply Nat.eqb_eq in Hlen.
  exists js. split; [reflexivity |]. split; [exact Hlen | exact Hnum].
Qed.

(** A run over recipes that make one batch is the body of the loop on
    them. *)
Lemma insert_recipes_one_batch fault (recipes : list VectorDB.recipe)
      batch_size d :
  0 < len recipes <= batch_size ->
  VectorDB.insert_recipes fault recipes batch_size d
  = VectorDB.insert_batch fault recipes d.
Proof.
  intros Hlen.
  unfold VectorDB.insert_recipes, bind, lift.
  rewrite range_starts by lia.
  assert (Hone : range_len 0 (len recipes) batch_size = 1%nat).
  { unfold range_len.
    destruct (Z.ltb_spec 0 batch_size); [| lia].
    destruct (Z.ltb_spec 0 (len recipes)); [| lia].
    rewrite Z.sub_0_r, Z.div_small by lia. reflexivity. }
  rewrite Hone. cbn [seq map VectorDB.insert_loop]. unfold bind.
  rewrite slice_to_end by lia.
  change (Z.to_nat (0 + Z.of_nat 0 * batch_size)) with 0%nat.
  cbn [skipn].
  destruct (VectorDB.insert_batch fault recipes d) as [[[] | e] d'];
    reflexivity.
Qed.

(** C3, the claim at one input.  A recipe whose embedding is a tuple is
    not sanitised: its NaN is serialised and sent as it is. *)
Lemma C3_tuple_embedding_sent_with_NaN :
  VectorDB.executemany_calls
    (VectorDB.log
       (snd (VectorDB.insert_recipes VectorDB.no_faults
               [[("id", PyInt 1); ("embedding", PyTuple [PyFloat FNaN])]%string]
               VectorDB.default_batch_size (VectorDB.connected []))))
  = [[VectorDB.mkRow (PyInt 1) PyNone PyNone PyNone PyNone
                     (VectorDB.JArray [VectorDB.JNaN])]].
Proof. vm_compute. reflexivity. Qed.

(** C3, as the code has it.  For a recipe whose embedding is a list, the
    row that is prepared carries the serialised list with each NaN float
    replaced by 0.0 and every other element as it was, so no NaN token at
    the top of the array.  [insert_recipes] checks no length and no
    element: the rows of a batch are sent as they were prepared.  It is
    the [VECTOR(768)] column that refuses a row whose serialised
    embedding is not an array of 768 numbers, and the batch goes with it:
    nothing of a batch that holds such a row is stored, while a batch
    whose rows all fit is stored when no statement fails.  After a run,
    every row of the table was there before or carries an array of 768
    numbers. *)
Theorem C3_nan_sanitised_and_768_enforced :
  (forall (r : VectorDB.recipe) (l : list pyval) (values : VectorDB.row),
      dict_get r "embedding" (PyList []) = PyList l ->
      VectorDB.prepare r = Ok values ->
      VectorDB.json_dumps (PyList (map VectorDB.sanitize l))
      = Ok (VectorDB.embedding values)
      /\ (forall k, nth_error l k = Some (PyFloat FNaN) ->
                    nth_error (map VectorDB.sanitize l) k
                    = Some (PyFloat zero_float))
      /\ (forall k x, nth_error l k = Some x -> x <> PyFloat FNaN ->
                      nth_error (map VectorDB.sanitize l) k = Some x)
      /\ exists js, VectorDB.embedding values = VectorDB.JArray js
                    /\ List.length js = List.length l
                    /\ ~ In VectorDB.JNaN js)
  /\ (forall (fault : VectorDB.faults) (batch : list VectorDB.recipe)
             (batch_size : Z) (d : VectorDB.db),
         0 < len batch <= batch_size ->
         VectorDB.uncommitted d = [] ->
         let rows := VectorDB.prepare_batch batch in
         let run := VectorDB.insert_recipes fault batch batch_size d in
         rows <> [] ->
         VectorDB.executemany_calls (VectorDB.log (snd run))
         = VectorDB.executemany_calls (VectorDB.log d) ++ [rows]
         /\ (forall values,
               In values rows ->
               VectorDB.vector_ok (VectorDB.embedding values) = false ->
               VectorDB.table (snd run) = VectorDB.table d)
         /\ (fault (VectorDB.statements d) = false ->
             fault (S (VectorDB.statements d)) = false ->
             VectorDB.rows_ok (VectorDB.table d) rows = true ->
             VectorDB.table (snd run) = VectorDB.table d ++ rows))
  /\ (forall (fault : VectorDB.faults) (recipes : list VectorDB.recipe)
             (batch_size : Z) (d : VectorDB.db),
         VectorDB.uncommitted d = [] ->
         forall stored,
           In stored (VectorDB.table
                        (snd (VectorDB.insert_recipes fault recipes batch_size d))) ->
           In stored (VectorDB.table d)
           \/ exists js, VectorDB.embedding stored = VectorDB.JArray js
                         /\ List.length js = 768%nat
                         /\ forallb VectorDB.is_json_number js = true).
Proof.
  split; [| split].
  - intros r l values Hget Hprep.
    unfold VectorDB.prepare in Hprep. rewrite Hget in Hprep.
    destruct (VectorDB.json_dumps (PyList (map VectorDB.sanitize l)))
      as [j |] eqn:Hdump; [| discriminate].
    injection Hprep as <-. cbn [VectorDB.embedding].
    split; [reflexivity |]. split; [| split].
    + intros k Hk. rewrite nth_error_map, Hk. reflexivity.
    + intros k x Hk Hx. rewrite nth_error_map, Hk. cbn.
      destruct x as [| | | [| |] | | | | |]; try reflexivity. contradiction.
    + cbn in Hdump.
      destruct (traverse VectorDB.json_dumps (map VectorDB.sanitize l))
        as [js |] eqn:Hjs; [| discriminate].
      injection Hdump as <-. exists js. split; [reflexivity |]. split.
      * rewrite (traverse_length _ _ _ Hjs). apply length_map.
      * apply (traverse_sanitize_no_NaN l js Hjs).
  - intros fault batch batch_size d Hlen Hu rows run Hne. subst rows run.
    rewrite (insert_recipes_one_batch fault batch batch_size d Hlen).
    destruct (insert_batch_cases fault batch d Hu) as (_ & Hgood & Hbad).
    specialize (Hgood Hne). specialize (Hbad Hne).
    pose proof (insert_and_commit_cases fault (VectorDB.prepare_batch batch) d Hu)
      as H. cbn zeta in H.
    destruct (VectorDB.insert_and_commit fault (VectorDB.prepare_batch batch) d)
      as [[[] | e] d1]; cbn [fst snd] in *.
    + destruct H as (Heq & _ & _ & Hok). rewrite (Hgood eq_refl).
      injection Heq as ->. cbn [snd VectorDB.table VectorDB.log].
      split; [| split].
      * rewrite !executemany_calls_app. cbn. rewrite app_nil_r. reflexivity.
      * intros values Hin Hbadv.
        pose proof (rows_ok_vectors _ _ Hok) as Hv.
        unfold VectorDB.vectors_ok in Hv. rewrite Forall_forall in Hv.
        rewrite (Hv values Hin) in Hbadv. discriminate.
      * intros _ _ _. reflexivity.
    + destruct H as (_ & Ht & Hwhy & evs & Hl & _ & Hevs).
      rewrite (Hbad e eq_refl), rollback_cases.
      assert (Htable : VectorDB.table
                         (snd (if fault (VectorDB.statements d1)
                               then (Raise (VectorDB.db_error "the statement failed"),
                                     VectorDB.mkDb (VectorDB.table d1)
                                       (VectorDB.uncommitted d1)
                                       (S (VectorDB.statements d1))
                                       (VectorDB.log d1 ++ [VectorDB.Rollback]))
                               else (Ok tt,
                                     VectorDB.mkDb (VectorDB.table d1) []
                                       (S (VectorDB.statements d1))
                                       (VectorDB.log d1 ++ [VectorDB.Rollback]))))
                       = VectorDB.table d).
      { destruct (fault (VectorDB.statements d1)); exact Ht. }
      split; [| split].
      * destruct (fault (VectorDB.statements d1));
          cbn [snd VectorDB.log]; rewrite Hl, !executemany_calls_app;
          destruct Hevs as [-> | ->]; cbn; rewrite ?app_nil_r; reflexivity.
      * intros values _ _. exact Htable.
      * intros F1 F2 Hok. rewrite (Hwhy F1 F2) in Hok. discriminate.
  - intros fault recipes batch_size d Hu stored Hin.
    unfold VectorDB.insert_recipes, bind, lift in Hin.
    destruct (range 0 (len recipes) batch_size) as [starts | e];
      [| left; exact Hin].
    destruct (insert_loop_effect fault recipes batch_size starts d Hu)
      as (evs & kept & _ & _ & Ht & Hkept & _).
    rewrite Ht in Hin. apply in_app_or in Hin.
    destruct Hin as [Hin | Hin]; [left; exact Hin | right].
    apply in_concat in Hin. destruct Hin as (rows & Hrows & Hin).
    destruct (Hkept rows Hrows) as (Hv & _).
    unfold VectorDB.vectors_ok in Hv. rewrite Forall_forall in Hv.
    exact (vector_ok_array _ (Hv stored Hin)).
Qed.

(** A list embedding with a NaN in front; and a batch of two recipes, the
    first with 768 numbers in a list, the second with 768 elements in a
    tuple, one of them NaN: both rows are sent, neither is stored. *)
Lemma C3_nan_sanitised_witness :
  let good : VectorDB.recipe :=
    [("id", PyInt 1);
     ("embedding", PyList (repeat (PyFloat (FFin "0.5")) 768))]%string in
  let bad : VectorDB.recipe :=
    [("id", PyInt 2);
     ("embedding", PyTuple (PyFloat FNaN
                              :: repeat (PyFloat (FFin "0.5")) 767))]%string in
  let run := VectorDB.insert_recipes VectorDB.no_faults [good; bad] 50
               (VectorDB.connected []) in
  (exists js,
      VectorDB.JArray [VectorDB.JFloat "0.0"; VectorDB.JFloat "0.5"]
      = VectorDB.JArray js
      /\ List.length js = List.length [PyFloat FNaN; PyFloat (FFin "0.5")]
      /\ ~ In VectorDB.JNaN js)
  /\ VectorDB.executemany_calls (VectorDB.log (snd run))
     = [VectorDB.prepare_batch [good; bad]]
  /\ VectorDB.table (snd run) = []
  /\ VectorDB.table
       (snd (VectorDB.insert_recipes VectorDB.no_faults [good] 50
               (VectorDB.connected [])))
     = VectorDB.prepare_batch [good].
Proof.
  cbv beta zeta.
  destruct C3_nan_sanitised_and_768_enforced as (Hprepare & Hbatch & _).
  split; [| split; [| split]].
  - destruct (Hprepare
                [("id", PyInt 1);
                 ("embedding", PyList [PyFloat FNaN; PyFloat (FFin "0.5")])]%string
                [PyFloat FNaN; PyFloat (FFin "0.5")]
                (VectorDB.mkRow (PyInt 1) PyNone PyNone PyNone PyNone
                   (VectorDB.JArray [VectorDB.JFloat "0.0"; VectorDB.JFloat "0.5"]))
                eq_refl eq_refl) as (_ & _ & _ & H).
    exact H.
  - destruct (Hbatch VectorDB.no_faults
                [[("id", PyInt 1);
                  ("embedding", PyList (repeat (PyFloat (FFin "0.5")) 768))];
                 [("id", PyInt 2);
                  ("embedding",
                   PyTuple (PyFloat FNaN
                              :: repeat (PyFloat (FFin "0.5")) 767))]]%string
                50 (VectorDB.connected [])) as (Hsent & _).
    + cbn. lia.
    + reflexivity.
    + vm_compute. discriminate.
    + exact Hsent.
  - destruct (Hbatch VectorDB.no_faults
                [[("id", PyInt 1);
                  ("embedding", PyList (repeat (PyFloat (FFin "0.5")) 768))];
                 [("id", PyInt 2);
                  ("embedding",
                   PyTuple (PyFloat FNaN
                              :: repeat (PyFloat (FFin "0.5")) 767))]]%string
                50 (VectorDB.connected [])) as (_ & Hrefused & _).
    + cbn. lia.
    + reflexivity.
    + vm_compute. discriminate.
    + apply (Hrefused
               (VectorDB.mkRow (PyInt 2) PyNone PyNone PyNone PyNone
                  (VectorDB.JArray
                     (VectorDB.JNaN
                        :: repeat (VectorDB.JFloat "0.5") 767)))).
      * right. left. vm_compute. reflexivity.
      * vm_compute. reflexivity.
  - destruct (Hbatch VectorDB.no_faults
                [[("id", PyInt 1);
                  ("embedding", PyList (repeat (PyFloat (FFin "0.5")) 768))]]%string
                50 (VectorDB.connected [])) as (_ & _ & Hstored).
    + cbn. lia.
    + reflexivity.
    + vm_compute. discriminate.
    + apply Hstored; vm_compute; reflexivity.
Defined.

(** A pattern [%] matches everything. *)
Lemma like_percent (value : string) : VectorDB.like "%" value = true.
Proof.
  induction value as [| c value IH]; [reflexivity |].
  cbn in *. exact IH.
Qed.

(** A term free of wildcards, followed by [%], matches the values it is a
    prefix of. *)
Lemma like_literal_prefix (term : string) :
  VectorDB.literal term = true ->
  forall value, VectorDB.like (term ++ "%") value = String.prefix term value.
Proof.
  induction term as [| c term IH]; intros Hlit value.
  - cbn [String.append]. rewrite like_percent. destruct value; reflexivity.
  - cbn [VectorDB.literal] in Hlit. apply andb_prop in Hlit.
    destruct Hlit as (Hc & Hterm).
    unfold VectorDB.is_wildcard in Hc.
    apply negb_true_iff in Hc. apply orb_false_elim in Hc.
    destruct Hc as (Hc & Hbackslash). apply orb_false_elim in Hc.
    destruct Hc as (Hpercent & Hunderscore).
    cbn [String.append VectorDB.like].
    rewrite Hpercent, Hunderscore, Hbackslash.
    destruct value as [| x value]; [reflexivity |].
    cbn [String.prefix]. rewrite (IH Hterm).
    destruct (ascii_dec c x) as [-> | Hne].
    + rewrite Ascii.eqb_refl. reflexivity.
    + destruct (Ascii.eqb_spec x c) as [-> | _]; [contradiction | reflexivity].
Qed.

(** For a term free of wildcards the pattern [%term%] is containment. *)
Lemma like_contains (term value : string) :
  VectorDB.literal term = true ->
  VectorDB.like ("%" ++ term ++ "%") value = contains value term.
Proof.
  intros Hlit.
  induction value as [| c value IH].
  - change (VectorDB.like ("%" ++ term ++ "%") "")
      with (VectorDB.like (term ++ "%") "" || false).
    cbn [contains]. rewrite (like_literal_prefix term Hlit). reflexivity.
  - change (VectorDB.like ("%" ++ term ++ "%") (String c value))
      with (VectorDB.like (term ++ "%") (String c value)
            || VectorDB.like ("%" ++ term ++ "%") value).
    rewrite IH, (like_literal_prefix term Hlit). reflexivity.
Qed.

Section Search.

Import VectorDB.

Variable fault : faults.

(** What a search that returns gives back: at most [limit] rows, each
    built from a stored row whose lower-cased ingredients match the LIKE
    pattern of one of the parsed terms, each with similarity 1.0. *)
Lemma find_similar_recipes_results search_term limit d results :
  fst (find_similar_recipes fault search_term limit d) = Ok results ->
  len results <= Z.max 0 limit
  /\ forall r, In r results ->
       dict_get r "similarity" PyNone = similarity_one
       /\ exists stored s term,
            In stored (table d) /\ r = to_recipe stored
            /\ Ingredients stored = PyStr s
            /\ In term (parse_ingredients search_term)
            /\ like ("%" ++ term ++ "%") (lower s) = true.
Proof.
  unfold find_similar_recipes, select_count, statement, try_except, bind.
  destruct (fault (statements d)); [cbn; discriminate |].
  cbn [table fst snd].
  destruct (len (table d) =? 0); cbn [ret fst].
  { intros [= <-]. split; [unfold len; cbn; lia | intros r []]. }
  destruct (parse_ingredients search_term) as [| t ts] eqn:Hparse; cbn [ret fst].
  { intros [= <-]. split; [unfold len; cbn; lia | intros r []]. }
  unfold select_matching, statement, bind. cbn [statements].
  destruct (fault (S (statements d))); [cbn; discriminate |].
  cbn [table fst snd].
  destruct (Z.ltb_spec limit 0) as [Hneg | Hpos]; [cbn; discriminate |].
  cbn [table fst snd].
  set (params := like_params (t :: ts)).
  set (found := firstn (Z.to_nat limit) (filter (where_clause params) (table d))).
  assert (Hfound : forall stored, In stored found ->
            In stored (table d) /\ where_clause params stored = true).
  { intros stored Hin. unfold found in Hin.
    apply (In_nth_error) in Hin. destruct Hin as (k & Hk).
    assert (Hin : In stored (filter (where_clause params) (table d))).
    { apply nth_error_In with (n := k).
      rewrite nth_error_firstn in Hk.
      destruct (k <? Z.to_nat limit)%nat; [exact Hk | discriminate]. }
    apply filter_In in Hin. exact Hin. }
  assert (Hlen : (List.length found <= Z.to_nat limit)%nat)
    by (unfold found; rewrite length_firstn; lia).
  assert (Hres : forall res, res = map to_recipe found ->
            len res <= Z.max 0 limit
            /\ forall r, In r res ->
                 dict_get r "similarity" PyNone = similarity_one
                 /\ exists stored s term,
                      In stored (table d) /\ r = to_recipe stored
                      /\ Ingredients stored = PyStr s
                      /\ In term (t :: ts)
                      /\ like ("%" ++ term ++ "%") (lower s) = true).
  { intros res ->. split.
    - unfold len. rewrite length_map. lia.
    - intros r Hin. apply in_map_iff in Hin. destruct Hin as (stored & <- & Hin).
      split; [reflexivity |].
      destruct (Hfound stored Hin) as (Htable & Hwhere).
      unfold where_clause in Hwhere.
      destruct (Ingredients stored) as [| | | | s | | | |] eqn:Hing;
        try discriminate.
      apply existsb_exists in Hwhere. destruct Hwhere as (p & Hp & Hlike).
      unfold params, like_params in Hp. apply in_map_iff in Hp.
      destruct Hp as (term & <- & Hterm).
      exists stored, s, term. repeat split; assumption. }
  destruct found as [| f fs] eqn:Ef; cbn [ret fst].
  - intros [= <-]. split; [unfold len; cbn; lia | intros r []].
  - intros [= <-]. apply Hres. reflexivity.
Qed.

(** When no parsed term has a wildcard in it, every row returned
    contains one of the terms, case-insensitively. *)
Lemma find_similar_recipes_contains search_term limit d results :
  forallb literal (parse_ingredients search_term) = true ->
  fst (find_similar_recipes fault search_term limit d) = Ok results ->
  forall r, In r results ->
    exists s term,
      dict_get r "Ingredients" PyNone = PyStr s
      /\ In term (parse_ingredients search_term)
      /\ contains (lower s) term = true.
Proof.
  intros Hlit Hres r Hin.
  destruct (find_similar_recipes_results search_term limit d results Hres)
    as (_ & Hrows).
  destruct (Hrows r Hin) as (_ & stored & s & term & _ & -> & Hing & Hterm & Hlike).
  exists s, term. split; [exact Hing |]. split; [exact Hterm |].
  rewrite forallb_forall in Hlit.
  rewrite <- (like_contains term (lower s) (Hlit term Hterm)). exact Hlike.
Qed.

(** An empty table, or a search term with no non-blank part, gives an
    empty result when the count statement goes through. *)
Lemma find_similar_recipes_empty search_term limit d :
  fault (statements d) = false ->
  table d = [] \/ parse_ingredients search_term = [] ->
  fst (find_similar_recipes fault search_term limit d) = Ok [].
Proof.
  intros Hf H.
  unfold find_similar_recipes, select_count, statement, try_except, bind.
  rewrite Hf. cbn [fst snd table].
  destruct (len (table d) =? 0) eqn:Hc; [reflexivity |].
  destruct H as [H | H].
  - rewrite H in Hc. discriminate.
  - rewrite H. reflexivity.
Qed.

End Search.

(** C4, the code at the input on which it parts from the claim.  The
    search term [s_lt] is passed into the LIKE pattern as it is, where [_]
    stands for any one character: the row with ingredients "nuts, Salt" is
    returned although its ingredients do not contain the term. *)
Theorem C4_wildcard_term_matches_without_containment :
  let stored := VectorDB.mkRow (PyInt 1) (PyStr "Salted nuts") (PyStr "5 min")
                               (PyStr "nuts, Salt") (PyStr "Mix.")
                               (VectorDB.JArray []) in
  VectorDB.parse_ingredients "s_lt" = ["s_lt"%string]
  /\ fst (VectorDB.find_similar_recipes VectorDB.no_faults "s_lt" 2
            (VectorDB.connected [stored]))
     = Ok [VectorDB.to_recipe stored]
  /\ contains (lower "nuts, Salt") "s_lt" = false.
Proof. cbv zeta. repeat split; vm_compute; reflexivity. Qed.

(* ================================================================== *)
(** ** Properties of the cooking assistant *)
(* ================================================================== *)

(** C7. [process_message] always returns a string and never raises, and
    what it returns is settled by the first thing that goes wrong.  When
    the import raises, or the configuration, or the call to the API, or
    reading the text of the response with anything but [AttributeError],
    it returns the second fallback string.  When the response has no
    text attribute or an empty text, it returns the first fallback
    string.  Only when nothing goes wrong and the text is not empty does
    it return something else, and that is the text itself.  The two
    fallback strings differ. *)
Theorem C7_process_message_never_raises :
  forall (g : CookingAssistant.gemini) (message : string),
    let prompt := (message ++ CookingAssistant.instruction)%string in
    let reply := CookingAssistant.process_message g message in
    (exists r, reply = Ok r)
    /\ CookingAssistant.no_response_fallback <> CookingAssistant.error_fallback
    /\ (forall e, CookingAssistant.import_genai g = Raise e ->
                  reply = Ok CookingAssistant.error_fallback)
    /\ (CookingAssistant.import_genai g = Ok tt ->
        (forall e,
            CookingAssistant.configure g (CookingAssistant.api_key g) = Raise e ->
            reply = Ok CookingAssistant.error_fallback)
        /\ (CookingAssistant.configure g (CookingAssistant.api_key g) = Ok tt ->
            (forall e,
                CookingAssistant.generate_content g (CookingAssistant.api_key g)
                  prompt = Raise e ->
                reply = Ok CookingAssistant.error_fallback)
            /\ (forall response,
                  CookingAssistant.generate_content g (CookingAssistant.api_key g)
                    prompt = Ok response ->
                  (forall e,
                      CookingAssistant.text response = Raise e ->
                      (exn_cls e = AttributeError ->
                       reply = Ok CookingAssistant.no_response_fallback)
                      /\ (exn_cls e <> AttributeError ->
                          reply = Ok CookingAssistant.error_fallback))
                  /\ (CookingAssistant.text response = Ok ""%string ->
                      reply = Ok CookingAssistant.no_response_fallback)
                  /\ (forall t,
                        CookingAssistant.text response = Ok t ->
                        t <> ""%string ->
                        reply = Ok t)))).
Proof.
  intros g message. cbn zeta.
  unfold CookingAssistant.process_message, CookingAssistant.generate,
         CookingAssistant.and_then, CookingAssistant.hasattr_text, is_Exception.
  split; [| split; [discriminate |]].
  - destruct (CookingAssistant.import_genai g) as [[] | e];
      [| eexists; reflexivity].
    destruct (CookingAssistant.configure g (CookingAssistant.api_key g)) as [[] | e];
      [| eexists; reflexivity].
    destruct (CookingAssistant.generate_content g (CookingAssistant.api_key g)
                (message ++ CookingAssistant.instruction)) as [response | e];
      [| eexists; reflexivity].
    destruct (CookingAssistant.text response) as [t | e].
    + destruct (String.eqb t ""); eexists; reflexivity.
    + destruct (exn_cls e); eexists; reflexivity.
  - split; [intros e ->; reflexivity |].
    intros ->. split; [intros e ->; reflexivity |].
    intros ->. split; [intros e ->; reflexivity |].
    intros response ->. split; [| split].
    + intros e ->. split.
      * intros ->. reflexivity.
      * intros Hcls. destruct (exn_cls e); try reflexivity. contradiction.
    + intros ->. reflexivity.
    + intros t -> Hne.
      destruct (String.eqb_spec t "") as [-> | _]; [contradiction | reflexivity].
Qed.

(** A missing library; a configuration that refuses a missing key; a
    call that raises; a response without a text; a response whose text
    cannot be read; an empty text; and an answer. *)
Lemma C7_process_message_witness :
  let answers (response : CookingAssistant.generated) :=
    CookingAssistant.mkGemini (Ok tt) (Some "key"%string) (fun _ => Ok tt)
      (fun _ _ => Ok response) in
  CookingAssistant.process_message
    (CookingAssistant.mkGemini (Raise (mkExn ImportError "No module")) None
       (fun _ => Ok tt)
       (fun _ _ => Ok (CookingAssistant.mkGenerated (Ok "Pancakes"%string))))
    "pancakes"
  = Ok CookingAssistant.error_fallback
  /\ CookingAssistant.process_message
       (CookingAssistant.mkGemini (Ok tt) None
          (fun key => match key with
                      | Some _ => Ok tt
                      | None => Raise (mkExn ValueError "No API key")
                      end)
          (fun _ _ => Ok (CookingAssistant.mkGenerated (Ok "Pancakes"%string))))
       "pancakes"
     = Ok CookingAssistant.error_fallback
  /\ CookingAssistant.process_message
       (CookingAssistant.mkGemini (Ok tt) (Some "key"%string) (fun _ => Ok tt)
          (fun _ _ => Raise (mkExn ConnectionError "unreachable")))
       "   "
     = Ok CookingAssistant.error_fallback
  /\ CookingAssistant.process_message
       (answers (CookingAssistant.mkGenerated
                   (Raise (mkExn AttributeError "text"))))
       "pancakes"
     = Ok CookingAssistant.no_response_fallback
  /\ CookingAssistant.process_message
       (answers (CookingAssistant.mkGenerated
                   (Raise (mkExn ValueError "blocked"))))
       "pancakes"
     = Ok CookingAssistant.error_fallback
  /\ CookingAssistant.process_message
       (answers (CookingAssistant.mkGenerated (Ok ""%string))) ""
     = Ok CookingAssistant.no_response_fallback
  /\ CookingAssistant.process_message
       (answers (CookingAssistant.mkGenerated (Ok "Pancakes"%string)))
       "pancakes"
     = Ok "Pancakes"%string.
Proof.
  cbv beta zeta.
  split; [| split; [| split; [| split; [| split; [| split]]]]].
  - destruct (C7_process_message_never_raises
                (CookingAssistant.mkGemini
                   (Raise (mkExn ImportError "No module")) None
                   (fun _ => Ok tt)
                   (fun _ _ => Ok (CookingAssistant.mkGenerated
                                     (Ok "Pancakes"%string))))
                "pancakes") as (_ & _ & Himport & _).
    apply (Himport (mkExn ImportError "No module")). reflexivity.
  - destruct (C7_process_message_never_raises
                (CookingAssistant.mkGemini (Ok tt) None
                   (fun key => match key with
                               | Some _ => Ok tt
                               | None => Raise (mkExn ValueError "No API key")
                               end)
                   (fun _ _ => Ok (CookingAssistant.mkGenerated
                                     (Ok "Pancakes"%string))))
                "pancakes") as (_ & _ & _ & H).
    destruct (H eq_refl) as (Hconfigure & _).
    apply (Hconfigure (mkExn ValueError "No API key")). reflexivity.
  - destruct (C7_process_message_never_raises
                (CookingAssistant.mkGemini (Ok tt) (Some "key"%string)
                   (fun _ => Ok tt)
                   (fun _ _ => Raise (mkExn ConnectionError "unreachable")))
                "   ") as (_ & _ & _ & H).
    destruct (H eq_refl) as (_ & H1). destruct (H1 eq_refl) as (Hcall & _).
    apply (Hcall (mkExn ConnectionError "unreachable")). reflexivity.
  - destruct (C7_process_message_never_raises
                (CookingAssistant.mkGemini (Ok tt) (Some "key"%string)
                   (fun _ => Ok tt)
                   (fun _ _ => Ok (CookingAssistant.mkGenerated
                                     (Raise (mkExn AttributeError "text")))))
                "pancakes") as (_ & _ & _ & H).
    destruct (H eq_refl) as (_ & H1). destruct (H1 eq_refl) as (_ & Hresponse).
    destruct (Hresponse _ eq_refl) as (Hraise & _).
    destruct (Hraise (mkExn AttributeError "text") eq_refl) as (Hattr & _).
    apply Hattr. reflexivity.
  - destruct (C7_process_message_never_raises
                (CookingAssistant.mkGemini (Ok tt) (Some "key"%string)
                   (fun _ => Ok tt)
                   (fun _ _ => Ok (CookingAssistant.mkGenerated
                                     (Raise (mkExn ValueError "blocked")))))
                "pancakes") as (_ & _ & _ & H).
    destruct (H eq_refl) as (_ & H1). destruct (H1 eq_refl) as (_ & Hresponse).
    destruct (Hresponse _ eq_refl) as (Hraise & _).
    destruct (Hraise (mkExn ValueError "blocked") eq_refl) as (_ & Hother).
    apply Hother. discriminate.
  - destruct (C7_process_message_never_raises
                (CookingAssistant.mkGemini (Ok tt) (Some "key"%string)
                   (fun _ => Ok tt)
                   (fun _ _ => Ok (CookingAssistant.mkGenerated (Ok ""%string))))
                "") as (_ & _ & _ & H).
    destruct (H eq_refl) as (_ & H1). destruct (H1 eq_refl) as (_ & Hresponse).
    destruct (Hresponse _ eq_refl) as (_ & Hempty & _).
    apply Hempty. reflexivity.
  - destruct (C7_process_message_never_raises
                (CookingAssistant.mkGemini (Ok tt) (Some "key"%string)
                   (fun _ => Ok tt)
                   (fun _ _ => Ok (CookingAssistant.mkGenerated
                                     (Ok "Pancakes"%string))))
                "pancakes") as (_ & _ & _ & H).
    destruct (H eq_refl) as (_ & H1). destruct (H1 eq_refl) as (_ & Hresponse).
    destruct (Hresponse _ eq_refl) as (_ & _ & Htext).
    apply (Htext "Pancakes"%string); [reflexivity | discriminate].
Defined.

(* ================================================================== *)
(** ** Properties of the data processor *)
(* ================================================================== *)





(** A field whose column the frame does not have is written as the empty
    string. *)
Lemma absent_column_is_empty (row : DataProcessor.series) (column : string) :
  ~ In column (map fst row) ->
  DataProcessor.format (dict_get row column (DataProcessor.Str "")) = ""%string.
Proof.
  induction row as [| [k v] row IH]; cbn; [reflexivity |].
  intros Hnot. destruct (String.eqb_spec k column) as [-> | Hne].
  - exfalso. apply Hnot. left. reflexivity.
  - apply IH. intros Hin. apply Hnot. right. exact Hin.
Qed.

(** C8, the code at the input on which it parts from the claim.  A row
    whose Ingredients cell is empty is read with NaN in that cell; the
    column is there, so the default of [row.get] is not used, and the text
    gets "nan" where the claim has the empty string. *)
Theorem C8_empty_cell_is_written_as_nan :
  DataProcessor.get_processed_data
    (Ok (DataProcessor.mkDataFrame
           ["RecipeName"; "Ingredients"; "TimeToCook"; "Instructions"]%string
           [[DataProcessor.Str "Soup"; DataProcessor.NaN;
             DataProcessor.Str "10 min"; DataProcessor.Str "Boil."]]))
  = Ok (["Recipe: Soup. Ingredients: nan. TimeToCook: 10 min. Instructions: Boil."%string],
        [PyDict [("RecipeName", PyStr "Soup"); ("Ingredients", PyFloat FNaN);
                 ("TimeToCook", PyStr "10 min"); ("Instructions", PyStr "Boil.")]%string]).
Proof. reflexivity. Qed.

(* ================================================================== *)
(** ** More on runs of the embedding generator *)
(* ================================================================== *)

Lemma range_len_within (start stop step : Z) (k : nat) :
  0 < step -> (k < range_len start stop step)%nat ->
  start + Z.of_nat k * step < stop.
Proof.
  intros Hstep. unfold range_len.
  destruct (Z.ltb_spec 0 step); [| lia].
  destruct (Z.ltb_spec start stop); [| lia].
  intros Hk.
  assert (Hq : 0 <= (stop - start - 1) / step) by (apply Z.div_pos; lia).
  assert (Hle : Z.of_nat k <= (stop - start - 1) / step) by lia.
  pose proof (Z.mul_div_le (stop - start - 1) step Hstep). nia.
Qed.

Lemma length_slice {A : Type} (l : list A) (a c : Z) :
  0 <= a <= c ->
  len (slice l a c) = Z.min c (len l) - Z.min a (len l).
Proof.
  intros Hac. unfold slice, slice_bound.
  destruct (Z.ltb_spec a 0); [lia |].
  destruct (Z.ltb_spec c 0); [lia |].
  unfold len. rewrite length_firstn, length_skipn. lia.
Qed.

Lemma last_map_in {A B : Type} (g : A -> B) (l : list A) (d : B) :
  l <> [] -> exists b, In b l /\ last (map g l) d = g b.
Proof.
  induction l as [| x l IH]; [contradiction |]. intros _.
  destruct l as [| y l].
  - exists x. split; [left; reflexivity | reflexivity].
  - destruct IH as (b & Hin & Hlast); [discriminate |].
    exists b. split; [right; exact Hin |]. exact Hlast.
Qed.

(** X3. In a run in which nothing fails (every text is embedded at once,
    every write goes through), started from a checkpoint with batch index
    [b >= 0], the rows handed to [np.array] are the embeddings of the
    checkpoint followed by the embeddings of [texts[b * batch_size:]], in
    order; the run returns them, with the metadata of the checkpoint
    followed by [metadata[b * batch_size:]], or raises what [np.array]
    raises, which it does not when the rows have one shape; and the
    requests carry exactly the batches of that rest of the texts. *)
Theorem X3_generate_embeddings_resumes_exactly :
  forall (embedding_of : string -> pyval) (texts : list string)
         (metadata : list pyval) (batch_size : Z)
         (file : option EmbeddingGenerator.checkpoint),
    0 < batch_size ->
    0 <= EmbeddingGenerator.start_batch file ->
    let start := Z.to_nat (EmbeddingGenerator.start_batch file * batch_size) in
    let before := EmbeddingGenerator.loaded file in
    let rows := EmbeddingGenerator.all_embeddings before
                  ++ map embedding_of (skipn start texts) in
    let run := EmbeddingGenerator.generate_embeddings
                 (EmbeddingGenerator.embed_all embedding_of)
                 EmbeddingGenerator.reliable
                 texts metadata batch_size (EmbeddingGenerator.initial file) in
    exists m,
      fst run = match np_array rows with
                | Ok e => Ok (e, m)
                | Raise x => Raise x
                end
      /\ (forall sh, (forall x, In x rows -> shape x = Some sh) ->
                     fst run = Ok (rows, m))
      /\ (len metadata <= len texts ->
          m = EmbeddingGenerator.processed_metadata before ++ skipn start metadata)
      /\ List.concat (EmbeddingGenerator.posts (EmbeddingGenerator.trace (snd run)))
         = skipn start texts.
Proof.
  intros embedding_of texts metadata batch_size file Hsize Hstart. cbn zeta.
  destruct (generate_embeddings_healthy embedding_of texts metadata batch_size
              file Hsize Hstart) as (Hres & _ & _ & _ & Hposts).
  eexists. split; [exact Hres |]. split; [| split].
  - intros sh Hsh. rewrite Hres, (np_array_uniform sh _ Hsh). reflexivity.
  - intros Hlen. f_equal. apply slice_to_end; [lia |].
    pose proof (range_len_reaches
                  (EmbeddingGenerator.start_batch file * batch_size)
                  (len texts) batch_size Hsize). lia.
  - rewrite Hposts.
    assert (Hne : batch_size <> 0) by lia.
    pose proof (batches_concat texts batch_size (len texts) Hsize ltac:(lia)
                  (Z.to_nat (len texts
                             - EmbeddingGenerator.start_batch file * batch_size))
                  (EmbeddingGenerator.start_batch file * batch_size)
                  _ ltac:(lia) ltac:(nia) (range_starts _ _ _ Hne)) as H.
    rewrite map_map in H. exact H.
Qed.

(** Five texts in batches of two, fresh. *)
Lemma X3_generate_embeddings_resumes_witness :
  let texts := ["a"; "b"; "c"; "d"; "e"]%string in
  let metadata := [PyInt 1; PyInt 2; PyInt 3; PyInt 4; PyInt 5] in
  let run := EmbeddingGenerator.generate_embeddings
               (EmbeddingGenerator.embed_all (fun t => PyList [PyStr t]))
               EmbeddingGenerator.reliable texts metadata 2
               (EmbeddingGenerator.initial None) in
  fst run = Ok (map (fun t => PyList [PyStr t]) texts, metadata)
  /\ List.concat (EmbeddingGenerator.posts (EmbeddingGenerator.trace (snd run)))
     = texts.
Proof.
  cbv zeta.
  destruct (X3_generate_embeddings_resumes_exactly
              (fun t => PyList [PyStr t]) ["a"; "b"; "c"; "d"; "e"]%string
              [PyInt 1; PyInt 2; PyInt 3; PyInt 4; PyInt 5] 2 None)
    as (m & _ & Hone & Hmeta & Hposts).
  - lia.
  - cbn. lia.
  - split; [| exact Hposts].
    rewrite (Hone [1%nat]).
    + rewrite Hmeta by (cbn; lia). reflexivity.
    + intros x Hx. cbn in Hx.
      repeat (destruct Hx as [<- | Hx]; [reflexivity |]). contradiction.
Defined.

(** X4. A fresh run against an API whose accepted answers carry one
    embedding per text, on a file system that does not fail, that ends by
    writing a checkpoint and raising leaves a file from which the next
    run on the same input, if nothing fails in it, goes on without loss
    and without repetition: the rows it hands to [np.array] are the
    embeddings the first run had gathered followed by those of the texts
    the first run had not come to, one row per text, and it returns them
    with the metadata as given unless [np.array] raises. *)
Theorem X4_failed_run_resumes_without_loss :
  forall (remote : EmbeddingGenerator.api) (embedding_of : string -> pyval)
         (texts : list string) (metadata : list pyval) (batch_size : Z)
         (e : exn) (s1 : EmbeddingGenerator.state),
    EmbeddingGenerator.honest remote ->
    0 < batch_size ->
    len metadata = len texts ->
    EmbeddingGenerator.generate_embeddings remote EmbeddingGenerator.reliable
      texts metadata batch_size (EmbeddingGenerator.initial None)
    = (Raise e, s1) ->
    (exists pre c,
        EmbeddingGenerator.trace s1
        = pre ++ [EmbeddingGenerator.SaveCheckpoint c]) ->
    let gathered := EmbeddingGenerator.all_embeddings s1 in
    let rows := gathered ++ map embedding_of (skipn (List.length gathered) texts) in
    fst (EmbeddingGenerator.generate_embeddings
           (EmbeddingGenerator.embed_all embedding_of)
           EmbeddingGenerator.reliable texts metadata batch_size
           (EmbeddingGenerator.started (EmbeddingGenerator.disk s1)))
    = match np_array rows with
      | Ok rows => Ok (rows, metadata)
      | Raise x => Raise x
      end
    /\ List.length rows = List.length texts.
Proof.
  intros remote embedding_of texts metadata batch_size e s1
         Hhonest Hsize Hmeta Hrun (pre & c & Hlast). cbn zeta.
  assert (Hne : batch_size <> 0) by lia.
  rewrite (generate_embeddings_unfold _ _ _ _ _ _ _ (range_starts _ _ _ Hne))
    in Hrun.
  pose proof (batch_loop_honest remote Hhonest texts metadata batch_size Hsize
                ltac:(lia) (Z.to_nat (len texts)) 0 _
                (EmbeddingGenerator.loaded None)
                ltac:(lia) ltac:(lia) ltac:(unfold len; lia)
                (range_starts _ _ _ Hne) eq_refl eq_refl) as Hloop.
  cbn [EmbeddingGenerator.start_batch] in Hrun.
  destruct (EmbeddingGenerator.batch_loop remote EmbeddingGenerator.reliable
              texts metadata batch_size _ (EmbeddingGenerator.loaded None))
    as [[[] | e1] s'].
  { (* the loop returned: the run ended in np.array, not in a write *)
    destruct Hloop as (_ & _ & Hend).
    destruct (np_array (EmbeddingGenerator.all_embeddings s')); [discriminate |].
    injection Hrun as _ <-. exfalso.
    destruct Hend as [-> | (pre' & Hsleep)].
    - cbn in Hlast. destruct pre; discriminate.
    - rewrite Hsleep in Hlast. apply app_inj_tail in Hlast.
      destruct Hlast as (_ & Hneq). discriminate. }
  injection Hrun as _ <-.
  destruct Hloop as (b & Hb & Hble & Hdisk & Hlen & Hpm).
  rewrite Hdisk.
  change (EmbeddingGenerator.started (EmbeddingGenerator.Pickled ?c))
    with (EmbeddingGenerator.initial (Some c)).
  destruct (generate_embeddings_healthy embedding_of texts metadata batch_size
              (Some (EmbeddingGenerator.mkCheckpoint b
                       (EmbeddingGenerator.all_embeddings s')
                       (EmbeddingGenerator.processed_metadata s')))
              Hsize Hb) as (Hres & _).
  cbn [EmbeddingGenerator.start_batch EmbeddingGenerator.loaded
       EmbeddingGenerator.batch_index EmbeddingGenerator.all_embeddings
       EmbeddingGenerator.processed_metadata] in Hres.
  assert (Hgathered : Z.to_nat (b * batch_size)
                      = List.length (EmbeddingGenerator.all_embeddings s'))
    by (unfold len in Hlen; lia).
  rewrite Hgathered in Hres. rewrite Hres. split.
  - destruct (np_array _); [| reflexivity].
    do 2 f_equal. rewrite Hpm, slice_to_end by
      (try lia;
       pose proof (range_len_reaches (b * batch_size) (len texts) batch_size
                     Hsize); lia).
    apply firstn_skipn.
  - rewrite length_app, length_map, length_skipn. unfold len in *. lia.
Qed.

(** Five texts in batches of two; the first run gets two batches through
    and then loses the connection. *)
Lemma X4_failed_run_resumes_witness :
  let remote : EmbeddingGenerator.api :=
    fun n texts =>
      if (n <? 2)%nat
      then EmbeddingGenerator.answer 200 (PyList (map PyStr texts))
      else Raise (mkExn ConnectionError "connection lost") in
  let texts := ["a"; "b"; "c"; "d"; "e"]%string in
  let metadata := [PyInt 1; PyInt 2; PyInt 3; PyInt 4; PyInt 5] in
  let first := EmbeddingGenerator.generate_embeddings remote
                 EmbeddingGenerator.reliable texts metadata 2
                 (EmbeddingGenerator.initial None) in
  let gathered := EmbeddingGenerator.all_embeddings (snd first) in
  let rows := gathered ++ map PyStr (skipn (List.length gathered) texts) in
  fst (EmbeddingGenerator.generate_embeddings
         (EmbeddingGenerator.embed_all PyStr) EmbeddingGenerator.reliable
         texts metadata 2
         (EmbeddingGenerator.started (EmbeddingGenerator.disk (snd first))))
  = match np_array rows with
    | Ok rows => Ok (rows, metadata)
    | Raise x => Raise x
    end
  /\ List.length rows = List.length texts.
Proof.
  cbv zeta.
  apply (X4_failed_run_resumes_without_loss
           (fun n texts =>
              if (n <? 2)%nat
              then EmbeddingGenerator.answer 200 (PyList (map PyStr texts))
              else Raise (mkExn ConnectionError "connection lost"))
           PyStr ["a"; "b"; "c"; "d"; "e"]%string
           [PyInt 1; PyInt 2; PyInt 3; PyInt 4; PyInt 5] 2
           (mkExn ConnectionError "connection lost")).
  - intros n texts r v Hr _ _ Hjson.
    destruct (n <? 2)%nat; [| discriminate].
    injection Hr as <-. cbn in Hjson. injection Hjson as <-.
    eexists. split; [reflexivity | apply length_map].
  - lia.
  - reflexivity.
  - vm_compute. reflexivity.
  - vm_compute.
    match goal with |- exists pre c, ?l = _ => exists (removelast l) end.
    eexists. reflexivity.
Defined.

(** X5. A run in which nothing fails leaves its last checkpoint behind,
    and that checkpoint holds the batch it points at: a second run on the
    same texts, again with nothing failing, gathers more rows than there
    are texts, and returns them all if the rows have one shape. *)
Theorem X5_rerun_after_completed_run_duplicates :
  forall (embedding_of again : string -> pyval) (texts : list string)
         (metadata : list pyval) (batch_size : Z),
    0 < batch_size ->
    texts <> [] ->
    let first := EmbeddingGenerator.generate_embeddings
                   (EmbeddingGenerator.embed_all embedding_of)
                   EmbeddingGenerator.reliable
                   texts metadata batch_size (EmbeddingGenerator.initial None) in
    let second := EmbeddingGenerator.generate_embeddings
                    (EmbeddingGenerator.embed_all again)
                    EmbeddingGenerator.reliable
                    texts metadata batch_size
                    (EmbeddingGenerator.started
                       (EmbeddingGenerator.disk (snd first))) in
    len texts < len (EmbeddingGenerator.all_embeddings (snd second))
    /\ (forall e m, fst second = Ok (e, m) -> len texts < len e)
    /\ (forall sh,
          (forall t, shape (embedding_of t) = Some sh) ->
          (forall t, shape (again t) = Some sh) ->
          exists e m, fst second = Ok (e, m) /\ len texts < len e).
Proof.
  intros embedding_of again texts metadata batch_size Hsize Hne. cbn zeta.
  assert (Hpos : 0 < len texts).
  { destruct texts; [contradiction | unfold len; cbn [List.length]; lia]. }
  destruct (generate_embeddings_healthy embedding_of texts metadata batch_size
              None Hsize ltac:(cbn; lia)) as (_ & _ & _ & Hdisk & _).
  cbn [EmbeddingGenerator.start_batch EmbeddingGenerator.loaded
       EmbeddingGenerator.all_embeddings EmbeddingGenerator.processed_metadata
       EmbeddingGenerator.on_disk app] in Hdisk.
  rewrite Z.mul_0_l in Hdisk.
  set (n := range_len 0 (len texts) batch_size) in *.
  set (multiples := filter (fun b => b mod 5 =? 0)
                           (map (fun k => 0 + Z.of_nat k) (seq 0 n))) in *.
  assert (Hn : (0 < n)%nat).
  { subst n. unfold range_len.
    destruct (Z.ltb_spec 0 batch_size); [| lia].
    destruct (Z.ltb_spec 0 (len texts)); [| lia].
    assert (0 <= (len texts - 0 - 1) / batch_size) by (apply Z.div_pos; lia).
    lia. }
  assert (Hsome : multiples <> []).
  { assert (Hin : In 0 multiples).
    { subst multiples. apply filter_In. split; [| reflexivity].
      apply in_map_iff. exists 0%nat. split; [reflexivity |].
      apply in_seq. lia. }
    intros E. rewrite E in Hin. exact Hin. }
  destruct (last_map_in
              (fun b => EmbeddingGenerator.Pickled
                          (EmbeddingGenerator.mkCheckpoint b
                             (map embedding_of
                                  (slice texts 0 ((b + 1) * batch_size)))
                             (slice metadata 0 ((b + 1) * batch_size))))
              multiples EmbeddingGenerator.NoFile Hsome) as (b & Hb & Hlast).
  rewrite Hlast in Hdisk. rewrite Hdisk.
  subst multiples. apply filter_In in Hb. destruct Hb as (Hb & _).
  apply in_map_iff in Hb. destruct Hb as (k & <- & Hk). apply in_seq in Hk.
  pose proof (range_len_within 0 (len texts) batch_size k Hsize ltac:(lia))
    as Hwithin.
  change (EmbeddingGenerator.started (EmbeddingGenerator.Pickled ?c))
    with (EmbeddingGenerator.initial (Some c)).
  destruct (generate_embeddings_healthy again texts metadata batch_size
              (Some (EmbeddingGenerator.mkCheckpoint (0 + Z.of_nat k)
                       (map embedding_of
                            (slice texts 0 ((0 + Z.of_nat k + 1) * batch_size)))
                       (slice metadata 0 ((0 + Z.of_nat k + 1) * batch_size))))
              Hsize ltac:(cbn; lia)) as (Hres & Hall & _).
  cbn [EmbeddingGenerator.start_batch EmbeddingGenerator.loaded
       EmbeddingGenerator.batch_index EmbeddingGenerator.embeddings
       EmbeddingGenerator.metadata EmbeddingGenerator.all_embeddings
       EmbeddingGenerator.processed_metadata] in Hres, Hall.
  set (rows := map embedding_of
                   (slice texts 0 ((0 + Z.of_nat k + 1) * batch_size))
               ++ map again
                      (skipn (Z.to_nat ((0 + Z.of_nat k) * batch_size)) texts))
    in *.
  assert (Hmore : len texts < len rows).
  { subst rows. unfold len at 2.
    rewrite length_app, !length_map, length_skipn.
    pose proof (length_slice texts 0 ((0 + Z.of_nat k + 1) * batch_size)
                  ltac:(nia)) as Hs.
    unfold len in *. lia. }
  split; [rewrite Hall; exact Hmore |]. split.
  - intros e m He. rewrite Hres in He.
    destruct (np_array rows) as [rows' |] eqn:Ha; [| discriminate].
    apply np_array_returns in Ha. injection He as <- _. subst rows'.
    exact Hmore.
  - intros sh Hf Hg. rewrite Hres.
    rewrite (np_array_uniform sh rows).
    + eexists. eexists. split; [reflexivity | exact Hmore].
    + intros x Hx. subst rows. apply in_app_or in Hx.
      destruct Hx as [Hx | Hx]; apply in_map_iff in Hx;
        destruct Hx as (t & <- & _); auto.
Qed.

(** Three texts in one batch, run twice. *)
Lemma X5_rerun_duplicates_witness :
  exists e m,
    fst (EmbeddingGenerator.generate_embeddings
           (EmbeddingGenerator.embed_all PyStr) EmbeddingGenerator.reliable
           ["a"; "b"; "c"]%string [PyNone; PyNone; PyNone] 32
           (EmbeddingGenerator.started
              (EmbeddingGenerator.disk
                 (snd (EmbeddingGenerator.generate_embeddings
                         (EmbeddingGenerator.embed_all PyStr)
                         EmbeddingGenerator.reliable
                         ["a"; "b"; "c"]%string [PyNone; PyNone; PyNone] 32
                         (EmbeddingGenerator.initial None))))))
    = Ok (e, m)
    /\ len ["a"; "b"; "c"]%string < len e.
Proof.
  destruct (X5_rerun_after_completed_run_duplicates
              PyStr PyStr ["a"; "b"; "c"]%string [PyNone; PyNone; PyNone] 32)
    as (_ & _ & H).
  - lia.
  - discriminate.
  - apply (H []); intros t; reflexivity.
Defined.

(** X6. A batch size of zero makes [generate_embeddings] raise
    [ValueError] before anything is requested or written; with a negative
    batch size, or with a checkpoint that points at or beyond the end of
    the texts, nothing is requested or written either, whatever the
    texts are, and the run hands what the checkpoint holds (nothing at
    all on a fresh run) to [np.array] and returns it, or raises what
    [np.array] raises. *)
Theorem X6_generate_embeddings_without_batches :
  forall (remote : EmbeddingGenerator.api) (store : EmbeddingGenerator.storage)
         (texts : list string) (metadata : list pyval) (batch_size : Z)
         (file : option EmbeddingGenerator.checkpoint),
    let before := EmbeddingGenerator.loaded file in
    let run := EmbeddingGenerator.generate_embeddings remote store texts metadata
                 batch_size (EmbeddingGenerator.initial file) in
    (batch_size = 0 ->
     run = (Raise (mkExn ValueError "range() arg 3 must not be zero"), before))
    /\ (0 <= EmbeddingGenerator.start_batch file ->
        batch_size < 0
        \/ (0 < batch_size
            /\ len texts <= EmbeddingGenerator.start_batch file * batch_size) ->
        run = (match np_array (EmbeddingGenerator.all_embeddings before) with
               | Ok rows => Ok (rows, EmbeddingGenerator.processed_metadata before)
               | Raise x => Raise x
               end, before))
    /\ EmbeddingGenerator.trace before = []
    /\ EmbeddingGenerator.disk before = EmbeddingGenerator.on_disk file.
Proof.
  intros remote store texts metadata batch_size file before run.
  subst before run. split; [| split; [| split]].
  - intros ->.
    unfold EmbeddingGenerator.generate_embeddings, bind,
           EmbeddingGenerator._load_checkpoint,
           EmbeddingGenerator.set_accumulators, lift.
    destruct file as [c |]; reflexivity.
  - intros Hstart Hcase.
    assert (Hrange : range (EmbeddingGenerator.start_batch file * batch_size)
                           (len texts) batch_size = Ok []).
    { destruct Hcase as [Hneg | (Hpos & Hbeyond)].
      - unfold range, range_len.
        destruct (Z.eqb_spec batch_size 0); [lia |].
        destruct (Z.ltb_spec 0 batch_size); [lia |].
        destruct (Z.ltb_spec (len texts)
                             (EmbeddingGenerator.start_batch file * batch_size));
          [unfold len in *; nia | reflexivity].
      - apply range_empty; lia. }
    rewrite (generate_embeddings_unfold _ _ _ _ _ _ _ Hrange). reflexivity.
  - destruct file; reflexivity.
  - destruct file; reflexivity.
Qed.

(** A zero batch size, a negative one, and a checkpoint past the end
    whose two rows differ in length. *)
Lemma X6_generate_embeddings_without_batches_witness :
  let remote := EmbeddingGenerator.embed_all PyStr in
  let texts := ["a"; "b"; "c"]%string in
  let metadata := [PyNone; PyNone; PyNone] in
  let ragged :=
    Some (EmbeddingGenerator.mkCheckpoint 2
            [PyList [PyInt 1; PyInt 2]; PyList [PyInt 3]] [PyNone; PyNone]) in
  EmbeddingGenerator.generate_embeddings remote EmbeddingGenerator.reliable
    texts metadata 0 (EmbeddingGenerator.initial None)
  = (Raise (mkExn ValueError "range() arg 3 must not be zero"),
     EmbeddingGenerator.loaded None)
  /\ EmbeddingGenerator.generate_embeddings remote EmbeddingGenerator.reliable
       texts metadata (-32) (EmbeddingGenerator.initial None)
     = (Ok ([], []), EmbeddingGenerator.loaded None)
  /\ exists msg,
       EmbeddingGenerator.generate_embeddings remote EmbeddingGenerator.reliable
         texts metadata 32 (EmbeddingGenerator.initial ragged)
       = (Raise (mkExn ValueError msg), EmbeddingGenerator.loaded ragged).
Proof.
  cbv zeta. split; [| split].
  - destruct (X6_generate_embeddings_without_batches
                (EmbeddingGenerator.embed_all PyStr) EmbeddingGenerator.reliable
                ["a"; "b"; "c"]%string [PyNone; PyNone; PyNone] 0 None)
      as (H & _).
    apply H. reflexivity.
  - destruct (X6_generate_embeddings_without_batches
                (EmbeddingGenerator.embed_all PyStr) EmbeddingGenerator.reliable
                ["a"; "b"; "c"]%string [PyNone; PyNone; PyNone] (-32) None)
      as (_ & H & _).
    rewrite H; [reflexivity | cbn; lia | left; lia].
  - destruct (X6_generate_embeddings_without_batches
                (EmbeddingGenerator.embed_all PyStr) EmbeddingGenerator.reliable
                ["a"; "b"; "c"]%string [PyNone; PyNone; PyNone] 32
                (Some (EmbeddingGenerator.mkCheckpoint 2
                         [PyList [PyInt 1; PyInt 2]; PyList [PyInt 3]]
                         [PyNone; PyNone])))
      as (_ & H & _).
    rewrite H; [eexists; reflexivity | cbn; lia | right; cbn; lia].
Defined.

(* ================================================================== *)
(** ** Records built by [process_recipes] *)
(* ================================================================== *)

Lemma dict_get_set {V : Type} (d : list (string * V)) (k key : string) (v dflt : V) :
  dict_get (dict_set d k v) key dflt
  = if String.eqb k key then v else dict_get d key dflt.
Proof.
  induction d as [| [k' v'] d IH]; cbn [dict_set dict_get]; [reflexivity |].
  destruct (String.eqb_spec k' k) as [-> | Hne]; cbn [dict_get].
  - destruct (String.eqb k key); reflexivity.
  - rewrite IH. destruct (String.eqb_spec k' key) as [-> | Hne']; [| reflexivity].
    destruct (String.eqb_spec k key) as [-> | _]; [contradiction | reflexivity].
Qed.

Lemma dict_get_app {V : Type} (a b : list (string * V)) (key : string) (dflt : V) :
  dict_get (a ++ b) key dflt = dict_get a key (dict_get b key dflt).
Proof.
  induction a as [| [k v] a IH]; cbn [app dict_get]; [reflexivity |].
  rewrite IH. reflexivity.
Qed.

Lemma dict_get_absent {V : Type} (d : list (string * V)) (key : string) (dflt : V) :
  ~ In key (map fst d) -> dict_get d key dflt = dflt.
Proof.
  induction d as [| [k v] d IH]; cbn; [reflexivity |].
  intros Hnot. destruct (String.eqb_spec k key) as [-> | Hne].
  - exfalso. apply Hnot. left. reflexivity.
  - apply IH. intros Hin. apply Hnot. right. exact Hin.
Qed.

Lemma dict_get_present {V : Type} (d : list (string * V)) (key : string) (v dflt : V) :
  NoDup (map fst d) -> In (key, v) d -> dict_get d key dflt = v.
Proof.
  induction d as [| [k w] d IH]; cbn; [intros _ [] |].
  intros Hnodup [Heq | Hin].
  - injection Heq as -> ->. rewrite String.eqb_refl. reflexivity.
  - inversion Hnodup as [| ? ? Hnot Hrest]; subst.
    destruct (String.eqb_spec k key) as [-> | Hne].
    + exfalso. apply Hnot. apply in_map_iff. exists (key, v). split; [reflexivity | exact Hin].
    + apply IH; assumption.
Qed.

(** After an update, a key of the items has the value of its last item,
    and any other key the value it had. *)
Lemma dict_get_update {V : Type} (items : list (string * V)) :
  forall (d : list (string * V)) (key : string) (dflt : V),
    dict_get (dict_update d items) key dflt
    = dict_get (rev items) key (dict_get d key dflt).
Proof.
  unfold dict_update.
  induction items as [| [k v] items IH]; intros d key dflt; [reflexivity |].
  cbn [fold_left fst snd rev]. rewrite IH, dict_get_app, dict_get_set.
  cbn [dict_get]. reflexivity.
Qed.

Lemma dict_get_rev {V : Type} (d : list (string * V)) (key : string) (dflt : V) :
  NoDup (map fst d) -> dict_get (rev d) key dflt = dict_get d key dflt.
Proof.
  induction d as [| [k v] d IH]; [reflexivity |].
  intros Hnodup. inversion Hnodup as [| ? ? Hnot Hrest]; subst.
  cbn [rev]. rewrite dict_get_app. cbn [dict_get].
  destruct (String.eqb_spec k key) as [-> | Hne].
  - apply dict_get_absent. rewrite map_rev, <- in_rev. exact Hnot.
  - apply IH. exact Hrest.
Qed.

(** The fields of the record built for one recipe. *)
Lemma processed_recipe_fields :
  forall (tolist : pyval -> result pyval) (i : Z) (text : string)
         (d : list (string * pyval)) (embedding embedding_list : pyval),
    tolist embedding = Ok embedding_list ->
    NoDup (map fst d) ->
    exists record,
      EmbeddingGenerator.processed_recipe tolist i text (PyDict d) embedding
      = Ok record
      /\ (forall key v, In (key, v) d -> dict_get record key PyNone = v)
      /\ (~ In "id"%string (map fst d) ->
          dict_get record "id" PyNone = PyInt i)
      /\ (~ In "RecipeName"%string (map fst d) ->
          dict_get record "RecipeName" PyNone
          = PyStr (nth 0 (split_once " " text) ""%string))
      /\ (~ In "embedding"%string (map fst d) ->
          dict_get record "embedding" PyNone = embedding_list).
Proof.
  intros tolist i text d embedding embedding_list Htolist Hnodup.
  unfold EmbeddingGenerator.processed_recipe. rewrite Htolist.
  eexists. split; [reflexivity |].
  split; [| split; [| split]].
  - intros key v Hin.
    rewrite dict_get_update, dict_get_rev by exact Hnodup.
    apply dict_get_present; assumption.
  - intros Hnot. rewrite dict_get_update, dict_get_rev by exact Hnodup.
    rewrite dict_get_absent by exact Hnot. reflexivity.
  - intros Hnot. rewrite dict_get_update, dict_get_rev by exact Hnodup.
    rewrite dict_get_absent by exact Hnot. reflexivity.
  - intros Hnot. rewrite dict_get_update, dict_get_rev by exact Hnodup.
    rewrite dict_get_absent by exact Hnot. reflexivity.
Qed.

(** X7. In the record [process_recipes] builds for a recipe, every key of
    the metadata has the value the metadata gives it, the derived fields
    included; a key the metadata does not have keeps its derived value:
    [id] the position, [RecipeName] the text before the first space,
    [embedding] the list of the embedding. *)
Theorem X7_processed_recipe_metadata_wins :
  forall (tolist : pyval -> result pyval) (i : Z) (text : string)
         (d : list (string * pyval)) (embedding embedding_list : pyval),
    tolist embedding = Ok embedding_list ->
    NoDup (map fst d) ->
    exists record,
      EmbeddingGenerator.processed_recipe tolist i text (PyDict d) embedding
      = Ok record
      /\ (forall key v, In (key, v) d -> dict_get record key PyNone = v)
      /\ (~ In "id"%string (map fst d) ->
          dict_get record "id" PyNone = PyInt i)
      /\ (~ In "RecipeName"%string (map fst d) ->
          dict_get record "RecipeName" PyNone
          = PyStr (nth 0 (split_once " " text) ""%string))
      /\ (~ In "embedding"%string (map fst d) ->
          dict_get record "embedding" PyNone = embedding_list).
Proof. exact processed_recipe_fields. Qed.

(** A recipe whose metadata names the recipe and carries an [id] of its
    own. *)
Lemma X7_processed_recipe_witness :
  exists record,
    EmbeddingGenerator.processed_recipe (fun v => Ok v) 3 "Recipe: Soup. Boil."
      (PyDict [("RecipeName", PyStr "Soup"); ("id", PyInt 40)]%string)
      (PyList [PyFloat (FFin "0.5")])
    = Ok record
    /\ (forall key v,
           In (key, v) [("RecipeName", PyStr "Soup"); ("id", PyInt 40)]%string ->
           dict_get record key PyNone = v)
    /\ (~ In "id"%string (map fst [("RecipeName", PyStr "Soup"); ("id", PyInt 40)]%string) ->
        dict_get record "id" PyNone = PyInt 3)
    /\ (~ In "RecipeName"%string
             (map fst [("RecipeName", PyStr "Soup"); ("id", PyInt 40)]%string) ->
        dict_get record "RecipeName" PyNone
        = PyStr (nth 0 (split_once " " "Recipe: Soup. Boil.") ""%string))
    /\ (~ In "embedding"%string
             (map fst [("RecipeName", PyStr "Soup"); ("id", PyInt 40)]%string) ->
        dict_get record "embedding" PyNone = PyList [PyFloat (FFin "0.5")]).
Proof.
  apply (X7_processed_recipe_metadata_wins
           (fun v => Ok v) 3 "Recipe: Soup. Boil."
           [("RecipeName", PyStr "Soup"); ("id", PyInt 40)]%string
           (PyList [PyFloat (FFin "0.5")]) (PyList [PyFloat (FFin "0.5")])).
  - reflexivity.
  - repeat constructor; cbn; intuition discriminate.
Defined.

Lemma traverse_total {A B : Type} (f : A -> result B) (l : list A) :
  (forall x, In x l -> exists y, f x = Ok y) ->
  exists ys, traverse f l = Ok ys /\ Forall2 (fun x y => f x = Ok y) l ys.
Proof.
  induction l as [| x l IH]; intros Hall.
  - exists []. split; [reflexivity | constructor].
  - destruct (Hall x (or_introl eq_refl)) as (y & Hy).
    destruct IH as (ys & Hys & Hforall).
    { intros x' Hin. apply Hall. right. exact Hin. }
    exists (y :: ys). cbn [traverse]. rewrite Hy, Hys.
    split; [reflexivity | constructor; assumption].
Qed.

Lemma Forall2_nth_error_left {A B : Type} (R : A -> B -> Prop) (l : list A) :
  forall (ys : list B) (k : nat) (x : A),
    Forall2 R l ys -> nth_error l k = Some x ->
    exists y, nth_error ys k = Some y /\ R x y.
Proof.
  induction l as [| a l IH]; intros ys k x Hall Hk.
  - destruct k; discriminate.
  - inversion Hall as [| ? y ? ys' Hr Hrest]; subst.
    destruct k as [| k]; cbn in *.
    + injection Hk as <-. exists y. split; [reflexivity | exact Hr].
    + apply (IH ys' k x Hrest Hk).
Qed.

Lemma nth_error_enumerate_from {A : Type} (l : list A) :
  forall (start : Z) (k : nat),
    nth_error (enumerate_from start l) k
    = option_map (fun x => (start + Z.of_nat k, x)) (nth_error l k).
Proof.
  induction l as [| x l IH]; intros start k.
  - destruct k; reflexivity.
  - destruct k as [| k]; cbn [enumerate_from nth_error option_map].
    + f_equal. f_equal. lia.
    + rewrite IH. destruct (nth_error l k); cbn; [| reflexivity].
      f_equal. f_equal. lia.
Qed.

Lemma length_enumerate_from {A : Type} (l : list A) : forall start,
  List.length (enumerate_from start l) = List.length l.
Proof.
  induction l as [| x l IH]; intros start; cbn; [reflexivity |].
  rewrite IH. reflexivity.
Qed.

Lemma in_enumerate_from {A : Type} (l : list A) : forall start i x,
  In (i, x) (enumerate_from start l) -> In x l.
Proof.
  induction l as [| y l IH]; intros start i x; cbn; [intros [] |].
  intros [Heq | Hin].
  - injection Heq as _ ->. left. reflexivity.
  - right. apply (IH _ _ _ Hin).
Qed.

Lemma nth_error_zip3 {A B C : Type} (a : list A) :
  forall (b : list B) (c : list C) (k : nat) x y z,
    nth_error a k = Some x -> nth_error b k = Some y -> nth_error c k = Some z ->
    nth_error (zip3 a b c) k = Some (x, y, z).
Proof.
  induction a as [| x0 a IH]; intros b c k x y z Ha Hb Hc.
  - destruct k; discriminate.
  - destruct b as [| y0 b]; [destruct k; discriminate |].
    destruct c as [| z0 c]; [destruct k; discriminate |].
    destruct k as [| k]; cbn in *.
    + congruence.
    + apply IH; assumption.
Qed.

Lemma length_zip3 {A B C : Type} (a : list A) :
  forall (b : list B) (c : list C),
    List.length b = List.length a -> List.length c = List.length a ->
    List.length (zip3 a b c) = List.length a.
Proof.
  induction a as [| x a IH]; intros b c Hb Hc; [reflexivity |].
  destruct b as [| y b]; [discriminate |].
  destruct c as [| z c]; [discriminate |].
  cbn in *. f_equal. apply IH; lia.
Qed.

Lemma in_zip3 {A B C : Type} (a : list A) :
  forall (b : list B) (c : list C) x y z,
    In (x, y, z) (zip3 a b c) -> In x a /\ In y b /\ In z c.
Proof.
  induction a as [| x0 a IH]; intros b c x y z; [intros [] |].
  destruct b as [| y0 b]; [intros [] |].
  destruct c as [| z0 c]; [intros [] |].
  cbn. intros [Heq | Hin].
  - injection Heq as -> -> ->. repeat split; left; reflexivity.
  - destruct (IH _ _ _ _ _ Hin) as (Hx & Hy & Hz).
    repeat split; right; assumption.
Qed.

(** The records of a fresh run in which nothing fails and every
    embedding has the same shape. *)
Lemma process_recipes_fresh :
  forall (embedding_of : string -> pyval) (tolist : pyval -> result pyval)
         (texts : list string) (metadata : list pyval) (batch_size : Z)
         (sh : list nat),
    0 < batch_size ->
    List.length metadata = List.length texts ->
    (forall m, In m metadata -> exists d, m = PyDict d) ->
    (forall text, In text texts -> shape (embedding_of text) = Some sh) ->
    (forall text, In text texts -> exists l, tolist (embedding_of text) = Ok l) ->
    exists records,
      fst (EmbeddingGenerator.process_recipes
             (EmbeddingGenerator.embed_all embedding_of)
             EmbeddingGenerator.reliable tolist
             texts metadata batch_size (EmbeddingGenerator.initial None))
      = Ok records
      /\ List.length records = List.length texts
      /\ forall k text meta,
           nth_error texts k = Some text ->
           nth_error metadata k = Some meta ->
           exists record,
             EmbeddingGenerator.processed_recipe tolist (Z.of_nat k) text meta
               (embedding_of text) = Ok record
             /\ nth_error records k = Some record.
Proof.
  intros embedding_of tolist texts metadata batch_size sh
         Hsize Hlen Hdict Hshape Htolist.
  unfold EmbeddingGenerator.process_recipes, bind, lift.
  destruct (generate_embeddings_healthy embedding_of texts metadata batch_size
              None Hsize ltac:(cbn; lia)) as (Hres & _).
  cbn [EmbeddingGenerator.loaded EmbeddingGenerator.all_embeddings
       EmbeddingGenerator.processed_metadata EmbeddingGenerator.start_batch
       app] in Hres.
  rewrite Z.mul_0_l in Hres. cbn [Z.to_nat skipn] in Hres.
  rewrite (np_array_uniform sh (map embedding_of texts)) in Hres.
  2:{ intros x Hx. apply in_map_iff in Hx. destruct Hx as (t & <- & Ht).
      exact (Hshape t Ht). }
  rewrite (slice_to_end metadata 0) in Hres.
  2: lia.
  2:{ pose proof (range_len_reaches 0 (len texts) batch_size Hsize).
      unfold len in *. lia. }
  cbn [Z.to_nat skipn] in Hres.
  destruct (EmbeddingGenerator.generate_embeddings
              (EmbeddingGenerator.embed_all embedding_of)
              EmbeddingGenerator.reliable texts metadata
              batch_size (EmbeddingGenerator.initial None)) as [r s'].
  cbn [fst] in Hres. subst r. cbn [fst].
  set (items := enumerate_from 0 (zip3 texts metadata (map embedding_of texts))).
  set (build := fun item : Z * (string * pyval * pyval) =>
                  let '(i, (text, meta, embedding)) := item in
                  EmbeddingGenerator.processed_recipe tolist i text meta embedding).
  destruct (traverse_total build items) as (records & Hrecords & Hall).
  { intros [i [[text meta] embedding]] Hin. unfold items in Hin.
    apply in_enumerate_from in Hin. apply in_zip3 in Hin.
    destruct Hin as (Htext & Hmeta & Hemb).
    apply in_map_iff in Hemb. destruct Hemb as (text' & <- & Htext').
    destruct (Hdict meta Hmeta) as (d & ->).
    destruct (Htolist text' Htext') as (l & Hl).
    cbn. unfold EmbeddingGenerator.processed_recipe. rewrite Hl.
    eexists. reflexivity. }
  exists records. split; [exact Hrecords |]. split.
  - rewrite <- (Forall2_length Hall). unfold items.
    rewrite length_enumerate_from. apply length_zip3;
      [exact Hlen | apply length_map].
  - intros k text meta Hk Hmeta.
    assert (Hitem : nth_error items k
                    = Some (Z.of_nat k, (text, meta, embedding_of text))).
    { unfold items. rewrite nth_error_enumerate_from.
      rewrite (nth_error_zip3 texts metadata (map embedding_of texts) k
                 text meta (embedding_of text) Hk Hmeta).
      - reflexivity.
      - rewrite nth_error_map, Hk. reflexivity. }
    destruct (Forall2_nth_error_left _ _ _ _ _ Hall Hitem) as (record & Hnth & Hbuild).
    exists record. split; [exact Hbuild | exact Hnth].
Qed.

(** What [process_recipes] does when [generate_embeddings] raises. *)
Lemma process_recipes_raises :
  forall (remote : EmbeddingGenerator.api) (store : EmbeddingGenerator.storage)
         (tolist : pyval -> result pyval)
         (texts : list string) (metadata : list pyval) (batch_size : Z)
         (s s' : EmbeddingGenerator.state) (e : exn),
    EmbeddingGenerator.generate_embeddings remote store texts metadata
      batch_size s = (Raise e, s') ->
    EmbeddingGenerator.process_recipes remote store tolist texts metadata
      batch_size s = (Raise e, s').
Proof.
  intros remote store tolist texts metadata batch_size s s' e H.
  unfold EmbeddingGenerator.process_recipes, bind. rewrite H. reflexivity.
Qed.

(** X8. A fresh run of [process_recipes] in which nothing fails (every
    text is embedded at once, every write goes through), over as many
    metadata dicts as texts and with embeddings of one shape, so that
    [np.array] accepts them, returns one record per text, in order: the
    record at position [k] is built from the [k]-th text, the [k]-th
    metadata dict and the embedding of that same text, under the id [k].
    When [generate_embeddings] raises, as it does when [np.array] refuses
    rows of different lengths, [process_recipes] raises the same
    exception and builds no record. *)
Theorem X8_process_recipes_aligned :
  forall (embedding_of : string -> pyval) (tolist : pyval -> result pyval)
         (texts : list string) (metadata : list pyval) (batch_size : Z)
         (sh : list nat),
    0 < batch_size ->
    List.length metadata = List.length texts ->
    (forall m, In m metadata -> exists d, m = PyDict d) ->
    (forall text, In text texts -> shape (embedding_of text) = Some sh) ->
    (forall text, In text texts -> exists l, tolist (embedding_of text) = Ok l) ->
    (exists records,
       fst (EmbeddingGenerator.process_recipes
              (EmbeddingGenerator.embed_all embedding_of)
              EmbeddingGenerator.reliable tolist
              texts metadata batch_size (EmbeddingGenerator.initial None))
       = Ok records
       /\ List.length records = List.length texts
       /\ forall k text meta,
            nth_error texts k = Some text ->
            nth_error metadata k = Some meta ->
            exists record,
              EmbeddingGenerator.processed_recipe tolist (Z.of_nat k) text meta
                (embedding_of text) = Ok record
              /\ nth_error records k = Some record)
    /\ (forall remote store s s' e,
          EmbeddingGenerator.generate_embeddings remote store texts metadata
            batch_size s = (Raise e, s') ->
          EmbeddingGenerator.process_recipes remote store tolist texts metadata
            batch_size s = (Raise e, s')).
Proof.
  intros embedding_of tolist texts metadata batch_size sh H1 H2 H3 H4 H5.
  split.
  - exact (process_recipes_fresh embedding_of tolist texts metadata batch_size
             sh H1 H2 H3 H4 H5).
  - intros remote store s s' e.
    apply process_recipes_raises.
Qed.

(** Two recipes, each text embedded as the list of its one text; and the
    same two recipes embedded with lists of different lengths. *)
Lemma X8_process_recipes_aligned_witness :
  let texts := ["Recipe: Soup"; "Recipe: Stew"]%string in
  let metadata := [PyDict [("TimeToCook", PyStr "10 min")]%string; PyDict []] in
  let ragged (t : string) :=
    if String.eqb t "Recipe: Soup" then PyList [PyStr t]
    else PyList [PyStr t; PyStr t] in
  (exists records,
     fst (EmbeddingGenerator.process_recipes
            (EmbeddingGenerator.embed_all (fun t => PyList [PyStr t]))
            EmbeddingGenerator.reliable (fun v => Ok v)
            texts metadata 32 (EmbeddingGenerator.initial None))
     = Ok records
     /\ List.length records = List.length texts
     /\ nth_error records 1
        = Some [("id", PyInt 1); ("RecipeName", PyStr "Recipe:");
                ("Instructions", PyStr "Stew");
                ("embedding", PyList [PyStr "Recipe: Stew"])]%string)
  /\ exists msg,
       fst (EmbeddingGenerator.process_recipes
              (EmbeddingGenerator.embed_all ragged)
              EmbeddingGenerator.reliable (fun v => Ok v)
              texts metadata 32 (EmbeddingGenerator.initial None))
       = Raise (mkExn ValueError msg).
Proof.
  cbv zeta.
  destruct (X8_process_recipes_aligned
              (fun t => PyList [PyStr t]) (fun v => Ok v)
              ["Recipe: Soup"; "Recipe: Stew"]%string
              [PyDict [("TimeToCook", PyStr "10 min")]%string; PyDict []] 32
              [1%nat])
    as ((records & Hrun & Hlen & Hat) & Hraise).
  - lia.
  - reflexivity.
  - intros m [<- | [<- | []]]; eexists; reflexivity.
  - intros text _. reflexivity.
  - intros text _. eexists. reflexivity.
  - split.
    + exists records. split; [exact Hrun |]. split; [exact Hlen |].
      destruct (Hat 1%nat "Recipe: Stew"%string (PyDict []) eq_refl eq_refl)
        as (record & Hrecord & Hnth).
      rewrite Hnth. vm_compute in Hrecord. injection Hrecord as <-.
      reflexivity.
    + eexists.
      erewrite Hraise; [reflexivity |].
      vm_compute. reflexivity.
Defined.

(* ================================================================== *)
(** ** The data processor and the records made from its output *)
(* ================================================================== *)

Lemma in_combine_keys {A B : Type} (a : list A) :
  forall (b : list B) (x : A), In x (map fst (combine a b)) -> In x a.
Proof.
  induction a as [| y a IH]; intros b x; [intros [] |].
  destruct b as [| z b]; [intros [] |].
  cbn. intros [-> | Hin]; [left; reflexivity | right; apply (IH b x Hin)].
Qed.

Lemma NoDup_combine_keys {A B : Type} (a : list A) :
  forall b : list B, NoDup a -> NoDup (map fst (combine a b)).
Proof.
  induction a as [| y a IH]; intros b Hnodup; [constructor |].
  destruct b as [| z b]; [constructor |].
  inversion Hnodup as [| ? ? Hnot Hrest]; subst.
  cbn. constructor.
  - intros Hin. apply Hnot. apply (in_combine_keys a b y Hin).
  - apply IH. exact Hrest.
Qed.


(** The output of [get_processed_data], row by row. *)
Lemma get_processed_data_rows (df : DataProcessor.DataFrame) :
  exists texts metadata,
    DataProcessor.get_processed_data (Ok df) = Ok (texts, metadata)
    /\ List.length texts = List.length (DataProcessor.data df)
    /\ List.length metadata = List.length (DataProcessor.data df)
    /\ (forall m, In m metadata -> exists d, m = PyDict d)
    /\ forall k cells,
         nth_error (DataProcessor.data df) k = Some cells ->
         let record := combine (DataProcessor.columns df)
                               (DataProcessor.stored df cells) in
         let row :=
           combine (DataProcessor.columns df)
                   (map (DataProcessor.held
                           (DataProcessor.dtype_of_all (DataProcessor.dtypes df)))
                        (DataProcessor.stored df cells)) in
         nth_error texts k = Some (DataProcessor.recipe_text row)
         /\ nth_error metadata k
            = Some (PyDict (map (fun kv => (fst kv, DataProcessor.to_pyval (snd kv)))
                                record)).
Proof.
  eexists. eexists. split; [reflexivity |].
  unfold DataProcessor.to_dict_records, DataProcessor.rows,
         DataProcessor.applied_rows.
  rewrite !length_map. split; [reflexivity |]. split; [reflexivity |]. split.
  - intros m Hin. apply in_map_iff in Hin. destruct Hin as (row & <- & _).
    eexists. reflexivity.
  - intros k cells Hk. cbn zeta. rewrite !nth_error_map, Hk. split; reflexivity.
Qed.




(** X11. The pipeline from the frame to the records.  The texts and
    metadata of [get_processed_data], run fresh through [process_recipes]
    with nothing failing and embeddings of one shape, give at the
    position of each row a record in which every column of the row has
    the value the frame holds in its cell; a frame without a RecipeName
    column gives every record the name "Recipe:", the first word of the
    text, and without a column [id] the id is the position of the
    row. *)
Theorem X11_records_from_the_frame :
  forall (df : DataProcessor.DataFrame) (embedding_of : string -> pyval)
         (tolist : pyval -> result pyval) (batch_size : Z) (sh : list nat)
         (k : nat) (cells : list DataProcessor.cell),
    0 < batch_size ->
    NoDup (DataProcessor.columns df) ->
    (forall text, shape (embedding_of text) = Some sh) ->
    (forall text, exists l, tolist (embedding_of text) = Ok l) ->
    nth_error (DataProcessor.data df) k = Some cells ->
    let row := combine (DataProcessor.columns df)
                       (DataProcessor.stored df cells) in
    exists texts metadata records record,
      DataProcessor.get_processed_data (Ok df) = Ok (texts, metadata)
      /\ fst (EmbeddingGenerator.process_recipes
                (EmbeddingGenerator.embed_all embedding_of)
                EmbeddingGenerator.reliable tolist
                texts metadata batch_size (EmbeddingGenerator.initial None))
         = Ok records
      /\ List.length records = List.length (DataProcessor.data df)
      /\ nth_error records k = Some record
      /\ (forall column cell,
             In (column, cell) row ->
             dict_get record column PyNone = DataProcessor.to_pyval cell)
      /\ (~ In "RecipeName"%string (map fst row) ->
          dict_get record "RecipeName" PyNone = PyStr "Recipe:")
      /\ (~ In "id"%string (map fst row) ->
          dict_get record "id" PyNone = PyInt (Z.of_nat k)).
Proof.
  intros df embedding_of tolist batch_size sh k cells
         Hsize Hnodup Hshape Htolist Hk row.
  destruct (get_processed_data_rows df)
    as (texts & metadata & Hrun & Hlt & Hlm & Hdicts & Hrows).
  destruct (Hrows k cells Hk) as (Htext & Hmeta). fold row in Hmeta.
  set (text := DataProcessor.recipe_text _) in Htext.
  destruct (process_recipes_fresh embedding_of tolist texts metadata batch_size
              sh Hsize ltac:(congruence) Hdicts
              (fun text _ => Hshape text)
              (fun text _ => Htolist text))
    as (records & Hrecords & Hlen & Hnth).
  destruct (Hnth k _ _ Htext Hmeta) as (record & Hbuild & Hrecord).
  set (d := map (fun kv => (fst kv, DataProcessor.to_pyval (snd kv))) row) in *.
  assert (Hkeys : map fst d = map fst row).
  { unfold d. rewrite map_map. reflexivity. }
  assert (Hd : NoDup (map fst d)).
  { rewrite Hkeys. apply NoDup_combine_keys. exact Hnodup. }
  destruct (Htolist text) as (l & Hl).
  destruct (processed_recipe_fields tolist (Z.of_nat k) text d
              (embedding_of text) l Hl Hd)
    as (record' & Hbuild' & Hmetawins & Hid & Hname & _).
  rewrite Hbuild in Hbuild'. injection Hbuild' as <-.
  exists texts, metadata, records, record.
  split; [exact Hrun |]. split; [exact Hrecords |].
  split; [congruence |]. split; [exact Hrecord |].
  split; [| split].
  - intros column cell Hin. apply Hmetawins. unfold d.
    apply in_map_iff. exists (column, cell). split; [reflexivity | exact Hin].
  - intros Hnot. rewrite Hname by (rewrite Hkeys; exact Hnot). reflexivity.
  - intros Hnot. apply Hid. rewrite Hkeys. exact Hnot.
Qed.

(** A frame with the one column Ingredients. *)
Lemma X11_records_from_the_frame_witness :
  let df := DataProcessor.mkDataFrame
              ["Ingredients"]%string [[DataProcessor.Str "salt"]] in
  exists texts metadata records record,
    DataProcessor.get_processed_data (Ok df) = Ok (texts, metadata)
    /\ fst (EmbeddingGenerator.process_recipes
              (EmbeddingGenerator.embed_all (fun t => PyList [PyStr t]))
              EmbeddingGenerator.reliable
              (fun v => Ok v) texts metadata 32 (EmbeddingGenerator.initial None))
       = Ok records
    /\ nth_error records 0 = Some record
    /\ dict_get record "Ingredients" PyNone = PyStr "salt"
    /\ dict_get record "RecipeName" PyNone = PyStr "Recipe:"
    /\ dict_get record "id" PyNone = PyInt 0.
Proof.
  cbv zeta.
  destruct (X11_records_from_the_frame
              (DataProcessor.mkDataFrame
                 ["Ingredients"]%string [[DataProcessor.Str "salt"]])
              (fun t => PyList [PyStr t]) (fun v => Ok v) 32 [1%nat] 0%nat
              [DataProcessor.Str "salt"])
    as (texts & metadata & records & record & Hrun & Hrecords & _ & Hnth
        & Hcells & Hname & Hid).
  - lia.
  - repeat constructor. intros [].
  - intros text. reflexivity.
  - intros text. eexists. reflexivity.
  - reflexivity.
  - exists texts, metadata, records, record.
    split; [exact Hrun |]. split; [exact Hrecords |]. split; [exact Hnth |].
    split; [| split].
    + apply (Hcells "Ingredients"%string (DataProcessor.Str "salt")).
      left. reflexivity.
    + apply Hname. cbn. intuition discriminate.
    + apply Hid. cbn. intuition discriminate.
Defined.

(* ================================================================== *)
(** ** More on the vector store *)
(* ================================================================== *)

Lemma in_slice {A : Type} (l : list A) (lo hi : Z) (x : A) :
  In x (slice l lo hi) -> In x l.
Proof.
  unfold slice. intros Hin.
  apply (In_nth_error) in Hin. destruct Hin as (k & Hk).
  rewrite nth_error_firstn in Hk.
  destruct (k <? _)%nat; [| discriminate].
  rewrite nth_error_skipn in Hk. apply (nth_error_In _ _ Hk).
Qed.

(** X12. [insert_recipes] never removes or changes a stored row, whatever
    fails, a rollback included, and whether it returns or raises (as it
    does for a batch size of zero): the table afterwards is the table
    before followed by the rows of some of the batches, each such batch
    stored as a whole. *)
Theorem X12_insert_recipes_appends_whole_batches :
  forall (fault : VectorDB.faults) (recipes : list VectorDB.recipe)
         (batch_size : Z) (d : VectorDB.db),
    VectorDB.uncommitted d = [] ->
    exists kept,
      VectorDB.table (snd (VectorDB.insert_recipes fault recipes batch_size d))
      = VectorDB.table d ++ List.concat kept
      /\ forall rows, In rows kept ->
           rows <> []
           /\ exists i, rows = VectorDB.prepare_batch
                                 (slice recipes i (i + batch_size)).
Proof.
  intros fault recipes batch_size d Hu.
  unfold VectorDB.insert_recipes, bind, lift.
  destruct (range 0 (len recipes) batch_size) as [starts | e].
  - destruct (insert_loop_effect fault recipes batch_size starts d Hu)
      as (evs & kept & _ & _ & Hkept & Hrows & _).
    exists kept. split; [exact Hkept |].
    intros rows Hin. destruct (Hrows rows Hin) as (_ & Hne & i & _ & Hrow).
    split; [exact Hne |]. exists i. exact Hrow.
  - exists []. cbn. rewrite app_nil_r. split; [reflexivity | intros rows []].
Qed.

(** Two batches of one recipe each, the engine failing on the first
    statement and on the rollback that follows. *)
Lemma X12_insert_recipes_appends_witness :
  let vector := PyList (repeat (PyFloat (FFin "0.5")) 768) in
  let recipes : list VectorDB.recipe :=
    [[("id", PyInt 1); ("embedding", vector)];
     [("id", PyInt 2); ("embedding", vector)]]%string in
  exists kept,
    VectorDB.table (snd (VectorDB.insert_recipes (fun n => (n <? 2)%nat) recipes 1
                           (VectorDB.connected [])))
    = VectorDB.table (VectorDB.connected []) ++ List.concat kept
    /\ forall rows, In rows kept ->
         rows <> []
         /\ exists i, rows = VectorDB.prepare_batch (slice recipes i (i + 1)).
Proof.
  cbv zeta.
  apply (X12_insert_recipes_appends_whole_batches (fun n => (n <? 2)%nat)).
  reflexivity.
Defined.

Section InsertValid.

Import VectorDB.

Lemma prepare_batch_app (a b : list recipe) :
  prepare_batch (a ++ b) = prepare_batch a ++ prepare_batch b.
Proof.
  induction a as [| r a IH]; [reflexivity |].
  cbn [app prepare_batch]. destruct (prepare r); rewrite IH; reflexivity.
Qed.

Lemma prepare_batch_concat (batches : list (list recipe)) :
  prepare_batch (List.concat batches) = List.concat (map prepare_batch batches).
Proof.
  induction batches as [| b batches IH]; [reflexivity |].
  cbn [List.concat map]. rewrite prepare_batch_app, IH. reflexivity.
Qed.

Lemma rows_ok_app (a b : list row) : forall existing,
  rows_ok existing (a ++ b) = rows_ok existing a && rows_ok (existing ++ a) b.
Proof.
  induction a as [| r a IH]; intros existing.
  - cbn. rewrite app_nil_r. reflexivity.
  - cbn [app rows_ok]. rewrite IH, <- app_assoc, andb_assoc. reflexivity.
Qed.

Lemma insert_rows_ok (rows : list row) : forall d,
  rows_ok (table d ++ uncommitted d) rows = true ->
  insert_rows rows d
  = (Ok tt, mkDb (table d) (uncommitted d ++ rows) (statements d) (log d)).
Proof.
  induction rows as [| r rest IH]; intros d Hok.
  - cbn. rewrite app_nil_r. destruct d; reflexivity.
  - cbn [rows_ok] in Hok. apply andb_prop in Hok. destruct Hok as (Hr & Hrest).
    cbn [insert_rows]. unfold bind, insert_row. rewrite Hr.
    rewrite IH.
    + cbn [table uncommitted statements log]. rewrite <- app_assoc. reflexivity.
    + cbn [table uncommitted]. rewrite app_assoc. exact Hrest.
Qed.

(** With an engine that does not fail, a batch whose rows fit the schema
    is stored. *)
Lemma insert_batch_ok batch d :
  uncommitted d = [] ->
  rows_ok (table d) (prepare_batch batch) = true ->
  exists d',
    insert_batch no_faults batch d = (Ok tt, d')
    /\ table d' = table d ++ prepare_batch batch
    /\ uncommitted d' = [].
Proof.
  intros Hu Hok. unfold insert_batch.
  destruct (prepare_batch batch) as [| r rest] eqn:Hrows.
  - exists d. cbn. rewrite app_nil_r. repeat split. exact Hu.
  - unfold try_except, insert_and_commit, executemany, commit, bind, statement.
    cbn [no_faults].
    rewrite insert_rows_ok by (cbn; rewrite Hu, app_nil_r; exact Hok).
    cbn. rewrite Hu. cbn. eexists. repeat split.
Qed.

Lemma insert_loop_ok recipes batch_size starts : forall d,
  uncommitted d = [] ->
  rows_ok (table d)
          (List.concat (map (fun i => prepare_batch (slice recipes i (i + batch_size)))
                            starts)) = true ->
  exists d',
    insert_loop no_faults recipes batch_size starts d = (Ok tt, d')
    /\ table d'
       = table d
           ++ List.concat (map (fun i => prepare_batch
                                           (slice recipes i (i + batch_size)))
                               starts)
    /\ uncommitted d' = [].
Proof.
  induction starts as [| i rest IH]; intros d Hu Hok.
  - exists d. cbn. rewrite app_nil_r. repeat split. exact Hu.
  - cbn [map List.concat] in *. rewrite rows_ok_app in Hok.
    apply andb_prop in Hok. destruct Hok as (Hfirst & Hrest).
    cbn [insert_loop]. unfold bind.
    destruct (insert_batch_ok (slice recipes i (i + batch_size)) d Hu Hfirst)
      as (d1 & -> & Ht1 & Hu1).
    destruct (IH d1 Hu1) as (d' & -> & Ht' & Hu').
    { rewrite Ht1. exact Hrest. }
    exists d'. split; [reflexivity |]. split; [| exact Hu'].
    rewrite Ht', Ht1, <- app_assoc. reflexivity.
Qed.

(** Recipes whose rows fit the schema one after the other are all stored,
    in order, by an engine that does not fail. *)
Lemma insert_recipes_ok recipes batch_size d :
  0 < batch_size ->
  uncommitted d = [] ->
  rows_ok (table d) (prepare_batch recipes) = true ->
  exists d',
    insert_recipes no_faults recipes batch_size d = (Ok tt, d')
    /\ table d' = table d ++ prepare_batch recipes
    /\ uncommitted d' = [].
Proof.
  intros Hsize Hu Hok.
  unfold insert_recipes, bind, lift.
  destruct (range 0 (len recipes) batch_size) as [starts | e] eqn:Hrange.
  2: { unfold range in Hrange. destruct (Z.eqb_spec batch_size 0); [lia | discriminate]. }
  assert (Hall : List.concat (map (fun i => prepare_batch
                                              (slice recipes i (i + batch_size)))
                                  starts)
                 = prepare_batch recipes).
  { rewrite <- (map_map (fun i => slice recipes i (i + batch_size)) prepare_batch).
    rewrite <- prepare_batch_concat.
    rewrite (batches_concat recipes batch_size (len recipes) Hsize ltac:(lia)
               (Z.to_nat (len recipes)) 0 starts) by (try exact Hrange; lia).
    reflexivity. }
  destruct (insert_loop_ok recipes batch_size starts d Hu) as (d' & Hrun & Ht & Hu').
  { rewrite Hall. exact Hok. }
  exists d'. rewrite Hall in Ht. repeat split; assumption.
Qed.

Lemma in_prepare_batch (recipes : list recipe) (r : recipe) (values : row) :
  In r recipes -> prepare r = Ok values -> In values (prepare_batch recipes).
Proof.
  induction recipes as [| r0 recipes IH]; [intros [] |].
  intros [-> | Hin] Hprep; cbn [prepare_batch].
  - rewrite Hprep. left. reflexivity.
  - destruct (prepare r0); [right |]; apply IH; assumption.
Qed.

Lemma length_prepare_batch (recipes : list recipe) :
  (List.length (prepare_batch recipes) <= List.length recipes)%nat.
Proof.
  induction recipes as [| r recipes IH]; [apply le_n |].
  cbn [prepare_batch]. destruct (prepare r); cbn [List.length]; lia.
Qed.

Variable fault : faults.

(** With a limit that covers the table, the search misses no stored row
    that matches one of its terms. *)
Lemma find_similar_recipes_complete search_term limit d stored s term :
  fault (statements d) = false ->
  fault (S (statements d)) = false ->
  len (table d) <= limit ->
  In stored (table d) ->
  Ingredients stored = PyStr s ->
  In term (parse_ingredients search_term) ->
  like ("%" ++ term ++ "%") (lower s) = true ->
  exists results,
    fst (find_similar_recipes fault search_term limit d) = Ok results
    /\ In (to_recipe stored) results.
Proof.
  intros Hf1 Hf2 Hlimit Hin Hing Hterm Hlike.
  unfold find_similar_recipes, select_count, statement, try_except, bind.
  rewrite Hf1. cbn [table fst snd].
  assert (Hpos : 0 < len (table d)).
  { destruct (table d); [contradiction | unfold len; cbn [List.length]; lia]. }
  destruct (Z.eqb_spec (len (table d)) 0); [lia |].
  destruct (parse_ingredients search_term) as [| t ts] eqn:Hparse; [contradiction |].
  unfold select_matching, statement, bind. cbn [statements].
  rewrite Hf2. cbn [table fst snd].
  destruct (Z.ltb_spec limit 0); [lia |].
  set (params := like_params (t :: ts)).
  assert (Hwhere : where_clause params stored = true).
  { unfold where_clause. rewrite Hing. apply existsb_exists.
    exists ("%" ++ term ++ "%")%string. split; [| exact Hlike].
    unfold params, like_params. apply in_map_iff. exists term.
    split; [reflexivity | exact Hterm]. }
  assert (Hfound : In stored (firstn (Z.to_nat limit)
                                     (filter (where_clause params) (table d)))).
  { rewrite firstn_all2.
    - apply filter_In. split; assumption.
    - pose proof (filter_length_le (where_clause params) (table d)).
      unfold len in *. lia. }
  destruct (firstn (Z.to_nat limit) (filter (where_clause params) (table d)))
    as [| f fs] eqn:Hres; [contradiction |].
  cbn. eexists. split; [reflexivity |].
  change (In (to_recipe stored) (map to_recipe (f :: fs))).
  apply in_map. exact Hfound.
Qed.

End InsertValid.

(** X13. With an engine that does not fail, recipes whose rows fit the
    table one after the other as [create_tables] declares it (an id that
    is an integer of 32 bits not yet in the table, a name of at most 255
    characters and a cooking time of at most 50, or none; ingredients and
    instructions of at most 65535 bytes, or none; a vector of 768
    numbers) are all stored, in the order given, after the rows that were
    there; recipes that cannot be prepared are left out. *)
Theorem X13_valid_recipes_are_all_stored :
  forall (recipes : list VectorDB.recipe) (batch_size : Z) (d : VectorDB.db),
    0 < batch_size ->
    VectorDB.uncommitted d = [] ->
    VectorDB.rows_ok (VectorDB.table d) (VectorDB.prepare_batch recipes) = true ->
    exists d',
      VectorDB.insert_recipes VectorDB.no_faults recipes batch_size d = (Ok tt, d')
      /\ VectorDB.table d' = VectorDB.table d ++ VectorDB.prepare_batch recipes
      /\ VectorDB.uncommitted d' = [].
Proof. exact insert_recipes_ok. Qed.

(** Three recipes in batches of two, the second one with an embedding
    that cannot be serialised. *)
Lemma X13_valid_recipes_witness :
  let vector := PyList (repeat (PyFloat (FFin "0.5")) 768) in
  let recipes : list VectorDB.recipe :=
    [[("id", PyInt 1); ("embedding", vector)];
     [("id", PyInt 2); ("embedding", PyObj "ndarray")];
     [("id", PyInt 3); ("embedding", vector)]]%string in
  exists d',
    VectorDB.insert_recipes VectorDB.no_faults recipes 2 (VectorDB.connected [])
    = (Ok tt, d')
    /\ VectorDB.table d'
       = VectorDB.table (VectorDB.connected []) ++ VectorDB.prepare_batch recipes
    /\ VectorDB.uncommitted d' = [].
Proof.
  cbv zeta.
  apply X13_valid_recipes_are_all_stored.
  - lia.
  - reflexivity.
  - vm_compute. reflexivity.
Defined.

Section InsertEdges.

Import VectorDB.

Variable fault : faults.

Lemma prepare_batch_none (batch : list recipe) :
  (forall r, In r batch -> exists e, prepare r = Raise e) ->
  prepare_batch batch = [].
Proof.
  induction batch as [| r batch IH]; intros Hall; [reflexivity |].
  cbn [prepare_batch].
  destruct (Hall r (or_introl eq_refl)) as (e & ->).
  apply IH. intros r' Hin. apply Hall. right. exact Hin.
Qed.

Lemma insert_loop_nothing recipes batch_size starts : forall d,
  (forall r, In r recipes -> exists e, prepare r = Raise e) ->
  insert_loop fault recipes batch_size starts d = (Ok tt, d).
Proof.
  induction starts as [| i rest IH]; intros d Hall; [reflexivity |].
  cbn [insert_loop]. unfold bind, insert_batch.
  rewrite prepare_batch_none.
  - cbn. apply IH. exact Hall.
  - intros r Hin. apply Hall. apply (in_slice _ _ _ _ Hin).
Qed.

End InsertEdges.

(** X14. When [insert_recipes] talks to the database not at all: a batch
    size of zero raises [ValueError] first; a negative batch size, an
    empty list of recipes, or recipes none of which can be prepared (an
    embedding [json.dumps] refuses) make it return normally.  In each case
    no statement is sent and the connection is as it was. *)
Theorem X14_insert_recipes_sends_nothing :
  forall (fault : VectorDB.faults) (recipes : list VectorDB.recipe)
         (batch_size : Z) (d : VectorDB.db),
    (batch_size = 0 ->
     VectorDB.insert_recipes fault recipes batch_size d
     = (Raise (mkExn ValueError "range() arg 3 must not be zero"), d))
    /\ (batch_size < 0 \/ (0 < batch_size /\ recipes = []) ->
        VectorDB.insert_recipes fault recipes batch_size d = (Ok tt, d))
    /\ (0 < batch_size ->
        (forall r, In r recipes -> exists e, VectorDB.prepare r = Raise e) ->
        VectorDB.insert_recipes fault recipes batch_size d = (Ok tt, d)).
Proof.
  intros fault recipes batch_size d. split; [| split].
  - intros ->. reflexivity.
  - intros Hcase.
    unfold VectorDB.insert_recipes, bind, lift, range, range_len.
    destruct Hcase as [Hneg | (Hpos & ->)].
    + destruct (Z.eqb_spec batch_size 0); [lia |].
      destruct (Z.ltb_spec 0 batch_size); [lia |].
      destruct (Z.ltb_spec (len recipes) 0); [unfold len in *; lia |].
      reflexivity.
    + destruct (Z.eqb_spec batch_size 0); [lia |].
      destruct (Z.ltb_spec 0 batch_size); [| lia]. reflexivity.
  - intros Hpos Hall.
    unfold VectorDB.insert_recipes, bind, lift, range.
    destruct (Z.eqb_spec batch_size 0); [lia |].
    apply insert_loop_nothing. exact Hall.
Qed.

(** A zero batch size, a negative one, and a recipe whose embedding is an
    array object. *)
Lemma X14_insert_recipes_sends_nothing_witness :
  let recipes : list VectorDB.recipe :=
    [[("id", PyInt 1); ("embedding", PyObj "ndarray")]]%string in
  let d := VectorDB.connected [] in
  VectorDB.insert_recipes VectorDB.no_faults recipes 0 d
  = (Raise (mkExn ValueError "range() arg 3 must not be zero"), d)
  /\ VectorDB.insert_recipes VectorDB.no_faults recipes (-50) d = (Ok tt, d)
  /\ VectorDB.insert_recipes VectorDB.no_faults recipes 50 d = (Ok tt, d).
Proof.
  cbv zeta.
  destruct (X14_insert_recipes_sends_nothing VectorDB.no_faults
              [[("id", PyInt 1); ("embedding", PyObj "ndarray")]]%string
              0 (VectorDB.connected [])) as (Hzero & _ & _).
  destruct (X14_insert_recipes_sends_nothing VectorDB.no_faults
              [[("id", PyInt 1); ("embedding", PyObj "ndarray")]]%string
              (-50) (VectorDB.connected [])) as (_ & Hneg & _).
  destruct (X14_insert_recipes_sends_nothing VectorDB.no_faults
              [[("id", PyInt 1); ("embedding", PyObj "ndarray")]]%string
              50 (VectorDB.connected [])) as (_ & _ & Hnone).
  split; [| split].
  - apply Hzero. reflexivity.
  - apply Hneg. left. lia.
  - apply Hnone; [lia |].
    intros r [<- | []]. eexists. reflexivity.
Defined.

(** X15. A search that returns gives at most [limit] recipes, each built
    from a stored row whose lower-cased ingredients match the LIKE pattern
    [%term%] of one of the parsed terms, and each with the similarity
    1.0. *)
Theorem X15_search_results_match_a_pattern :
  forall (fault : VectorDB.faults) (search_term : string) (limit : Z)
         (d : VectorDB.db) (results : list VectorDB.recipe),
    fst (VectorDB.find_similar_recipes fault search_term limit d) = Ok results ->
    len results <= Z.max 0 limit
    /\ forall r, In r results ->
         dict_get r "similarity" PyNone = VectorDB.similarity_one
         /\ exists stored s term,
              In stored (VectorDB.table d) /\ r = VectorDB.to_recipe stored
              /\ VectorDB.Ingredients stored = PyStr s
              /\ In term (VectorDB.parse_ingredients search_term)
              /\ VectorDB.like ("%" ++ term ++ "%") (lower s) = true.
Proof. exact find_similar_recipes_results. Qed.

(** Two stored rows match, the limit is one. *)
Lemma X15_search_results_witness :
  let row (n : Z) (ingredients : string) :=
    VectorDB.mkRow (PyInt n) PyNone PyNone (PyStr ingredients) PyNone
                   (VectorDB.JArray []) in
  let d := VectorDB.connected [row 1 "Onion, Tomato"%string; row 2 "beef"%string;
                               row 3 "tomato"%string] in
  len [VectorDB.to_recipe (row 1 "Onion, Tomato"%string)] <= Z.max 0 1
  /\ forall r, In r [VectorDB.to_recipe (row 1 "Onion, Tomato"%string)] ->
       dict_get r "similarity" PyNone = VectorDB.similarity_one
       /\ exists stored s term,
            In stored (VectorDB.table d) /\ r = VectorDB.to_recipe stored
            /\ VectorDB.Ingredients stored = PyStr s
            /\ In term (VectorDB.parse_ingredients " TOMATO ,")
            /\ VectorDB.like ("%" ++ term ++ "%") (lower s) = true.
Proof.
  cbv zeta.
  apply (X15_search_results_match_a_pattern VectorDB.no_faults " TOMATO ," 1).
  vm_compute. reflexivity.
Defined.

(** X16. When no parsed term has [%], [_] or a backslash in it, every
    recipe a search returns has ingredients that contain one of the
    terms, letter case aside. *)
Theorem X16_search_results_contain_a_term :
  forall (fault : VectorDB.faults) (search_term : string) (limit : Z)
         (d : VectorDB.db) (results : list VectorDB.recipe),
    forallb VectorDB.literal (VectorDB.parse_ingredients search_term) = true ->
    fst (VectorDB.find_similar_recipes fault search_term limit d) = Ok results ->
    forall r, In r results ->
      exists s term,
        dict_get r "Ingredients" PyNone = PyStr s
        /\ In term (VectorDB.parse_ingredients search_term)
        /\ contains (lower s) term = true.
Proof. exact find_similar_recipes_contains. Qed.

Lemma X16_search_results_contain_witness :
  let row (n : Z) (ingredients : string) :=
    VectorDB.mkRow (PyInt n) PyNone PyNone (PyStr ingredients) PyNone
                   (VectorDB.JArray []) in
  exists s term,
    dict_get (VectorDB.to_recipe (row 1 "Onion, Tomato"%string))
             "Ingredients" PyNone = PyStr s
    /\ In term (VectorDB.parse_ingredients "chicken, tomato")
    /\ contains (lower s) term = true.
Proof.
  cbv zeta.
  apply (X16_search_results_contain_a_term VectorDB.no_faults
           "chicken, tomato" 2
           (VectorDB.connected
              [VectorDB.mkRow (PyInt 1) PyNone PyNone (PyStr "Onion, Tomato")
                              PyNone (VectorDB.JArray []);
               VectorDB.mkRow (PyInt 2) PyNone PyNone (PyStr "beef")
                              PyNone (VectorDB.JArray [])])
           [VectorDB.to_recipe
              (VectorDB.mkRow (PyInt 1) PyNone PyNone (PyStr "Onion, Tomato")
                              PyNone (VectorDB.JArray []))]).
  - vm_compute. reflexivity.
  - vm_compute. reflexivity.
  - left. reflexivity.
Defined.

(** X17. On an empty table, or for a search term with no non-blank part
    between its commas, the search returns the empty list after the count
    statement alone: the matching query is not sent. *)
Theorem X17_search_without_rows_or_terms :
  forall (fault : VectorDB.faults) (search_term : string) (limit : Z)
         (d : VectorDB.db),
    fault (VectorDB.statements d) = false ->
    VectorDB.table d = [] \/ VectorDB.parse_ingredients search_term = [] ->
    VectorDB.find_similar_recipes fault search_term limit d
    = (Ok [],
       VectorDB.mkDb (VectorDB.table d) (VectorDB.uncommitted d)
                     (S (VectorDB.statements d))
                     (VectorDB.log d ++ [VectorDB.SelectCount])).
Proof.
  intros fault search_term limit d Hf H.
  unfold VectorDB.find_similar_recipes, VectorDB.select_count,
         VectorDB.statement, try_except, bind.
  rewrite Hf. cbn [fst snd VectorDB.table].
  destruct (len (VectorDB.table d) =? 0) eqn:Hc; [reflexivity |].
  destruct H as [H | H].
  - rewrite H in Hc. discriminate.
  - rewrite H. reflexivity.
Qed.

(** A search term of blanks and commas, with a negative limit. *)
Lemma X17_search_without_terms_witness :
  let d := VectorDB.connected
             [VectorDB.mkRow (PyInt 1) PyNone PyNone (PyStr "salt") PyNone
                             (VectorDB.JArray [])] in
  VectorDB.find_similar_recipes VectorDB.no_faults " , ,, " (-1) d
  = (Ok [],
     VectorDB.mkDb (VectorDB.table d) (VectorDB.uncommitted d)
                   (S (VectorDB.statements d))
                   (VectorDB.log d ++ [VectorDB.SelectCount])).
Proof.
  cbv zeta.
  apply (X17_search_without_rows_or_terms VectorDB.no_faults " , ,, " (-1)).
  - reflexivity.
  - right. vm_compute. reflexivity.
Defined.

(** X18. Insert, then search.  After recipes whose rows fit the table
    one after the other as [create_tables] declares it (ids that are
    distinct integers of 32 bits, names and cooking times within their
    [VARCHAR] lengths, texts within 65535 bytes, vectors of 768 numbers)
    have been inserted into an empty table by an engine that does not
    fail, a search with a limit of at least the number of recipes returns
    the row of every recipe whose lower-cased ingredients contain one of
    the parsed terms, for a term without [%], [_] or backslash. *)
Theorem X18_inserted_recipe_is_found :
  forall (recipes : list VectorDB.recipe) (batch_size : Z)
         (r : VectorDB.recipe) (values : VectorDB.row) (s : string)
         (search_term term : string) (limit : Z),
    0 < batch_size ->
    VectorDB.rows_ok [] (VectorDB.prepare_batch recipes) = true ->
    In r recipes ->
    VectorDB.prepare r = Ok values ->
    VectorDB.Ingredients values = PyStr s ->
    In term (VectorDB.parse_ingredients search_term) ->
    VectorDB.literal term = true ->
    contains (lower s) term = true ->
    len recipes <= limit ->
    exists results,
      fst (VectorDB.find_similar_recipes VectorDB.no_faults search_term limit
             (snd (VectorDB.insert_recipes VectorDB.no_faults recipes batch_size
                     (VectorDB.connected []))))
      = Ok results
      /\ In (VectorDB.to_recipe values) results.
Proof.
  intros recipes batch_size r values s search_term term limit
         Hsize Hok Hin Hprep Hing Hterm Hlit Hcontains Hlimit.
  destruct (insert_recipes_ok recipes batch_size (VectorDB.connected [])
              Hsize eq_refl Hok) as (d' & -> & Htable & _).
  cbn [snd]. cbn [VectorDB.connected VectorDB.table app] in Htable.
  apply (find_similar_recipes_complete VectorDB.no_faults search_term limit d'
           values s term).
  - reflexivity.
  - reflexivity.
  - rewrite Htable. pose proof (length_prepare_batch recipes).
    unfold len in *. lia.
  - rewrite Htable. apply (in_prepare_batch recipes r values Hin Hprep).
  - exact Hing.
  - exact Hterm.
  - rewrite (like_contains term (lower s) Hlit). exact Hcontains.
Qed.

(** The example of the chicken: ingredients "onion, tomato, chicken". *)
Lemma X18_inserted_recipe_is_found_witness :
  let vector := PyList (repeat (PyFloat (FFin "0.5")) 768) in
  let recipe : VectorDB.recipe :=
    [("id", PyInt 0); ("RecipeName", PyStr "Curry");
     ("Ingredients", PyStr "onion, tomato, chicken");
     ("embedding", vector)]%string in
  let values :=
    VectorDB.mkRow (PyInt 0) (PyStr "Curry") PyNone
                   (PyStr "onion, tomato, chicken") PyNone
                   (VectorDB.JArray (repeat (VectorDB.JFloat "0.5") 768)) in
  exists results,
    fst (VectorDB.find_similar_recipes VectorDB.no_faults "Chicken" 2
           (snd (VectorDB.insert_recipes VectorDB.no_faults [recipe] 50
                   (VectorDB.connected []))))
    = Ok results
    /\ In (VectorDB.to_recipe values) results.
Proof.
  cbv zeta.
  apply (X18_inserted_recipe_is_found
           [[("id", PyInt 0); ("RecipeName", PyStr "Curry");
             ("Ingredients", PyStr "onion, tomato, chicken");
             ("embedding", PyList (repeat (PyFloat (FFin "0.5")) 768))]%string]
           50
           [("id", PyInt 0); ("RecipeName", PyStr "Curry");
            ("Ingredients", PyStr "onion, tomato, chicken");
            ("embedding", PyList (repeat (PyFloat (FFin "0.5")) 768))]%string
           (VectorDB.mkRow (PyInt 0) (PyStr "Curry") PyNone
              (PyStr "onion, tomato, chicken") PyNone
              (VectorDB.JArray (repeat (VectorDB.JFloat "0.5") 768)))
           "onion, tomato, chicken" "Chicken" "chicken" 2).
  - lia.
  - vm_compute. reflexivity.
  - left. reflexivity.
  - vm_compute. reflexivity.
  - reflexivity.
  - vm_compute. left. reflexivity.
  - reflexivity.
  - vm_compute. reflexivity.
  - vm_compute. discriminate.
Defined.

Lemma contains_comma_cons (c : ascii) (s : string) :
  contains (String c s) "," = Ascii.eqb c "," || contains s ",".
Proof.
  cbn [contains String.prefix].
  destruct (Ascii.eqb_spec c ",") as [-> | Hne].
  - destruct (ascii_dec "," ","); [| congruence].
    destruct s; reflexivity.
  - destruct (ascii_dec "," c) as [Heq | _]; [congruence | reflexivity].
Qed.

Lemma contains_comma_app (a b : string) :
  contains (a ++ b) "," = contains a "," || contains b ",".
Proof.
  induction a as [| c a IH].
  - cbn [String.append]. destruct b; reflexivity.
  - cbn [String.append]. rewrite !contains_comma_cons, IH.
    apply orb_assoc.
Qed.

Lemma split_without_comma (s : string) :
  contains s "," = false -> split "," s = [s].
Proof.
  induction s as [| c s IH]; intros Hno; [reflexivity |].
  rewrite contains_comma_cons in Hno.
  apply orb_false_iff in Hno. destruct Hno as (Hc & Hs).
  cbn [split]. rewrite Hc, (IH Hs). reflexivity.
Qed.

Lemma join_without_comma (keywords : list string) :
  (forall kw, In kw keywords -> contains kw "," = false) ->
  contains (join " " keywords) "," = false.
Proof.
  induction keywords as [| x rest IH]; intros Hall; [reflexivity |].
  destruct rest as [| y rest].
  - cbn [join]. apply Hall. left. reflexivity.
  - change (join " " (x :: y :: rest))
      with (x ++ " " ++ join " " (y :: rest))%string.
    rewrite !contains_comma_app, IH.
    + rewrite (Hall x (or_introl eq_refl)). reflexivity.
    + intros kw Hin. apply Hall. right. exact Hin.
Qed.

Lemma parse_ingredients_phrase (keywords : list string) :
  (forall kw, In kw keywords -> contains kw "," = false) ->
  forall term,
    In term (VectorDB.parse_ingredients (join " " keywords)) ->
    term = lower (strip (join " " keywords)).
Proof.
  intros Hall term.
  unfold VectorDB.parse_ingredients.
  rewrite (split_without_comma _ (join_without_comma keywords Hall)).
  cbn [filter].
  destruct (negb (String.eqb (strip (join " " keywords)) "")).
  - intros [<- | []]. reflexivity.
  - intros [].
Qed.

(** X19. [search_recipes_by_keywords] joins the keywords with blanks, so
    keywords that hold no comma are searched as one phrase: every recipe
    returned is a stored row whose lower-cased ingredients match the
    whole joined phrase, not only one of the keywords. *)
Theorem X19_keywords_are_searched_as_one_phrase :
  forall (d0 : VectorDB.db) (fault : VectorDB.faults)
         (keywords : list string) (limit : Z)
         (results : list VectorDB.recipe)
         (conn : option (VectorDB.db * bool)),
    (forall kw, In kw keywords -> contains kw "," = false) ->
    RecipeSearch.search_recipes_by_keywords (Ok d0) fault keywords limit
    = (Ok results, conn) ->
    forall r, In r results ->
      exists stored s,
        In stored (VectorDB.table d0) /\ r = VectorDB.to_recipe stored
        /\ VectorDB.Ingredients stored = PyStr s
        /\ VectorDB.like ("%" ++ lower (strip (join " " keywords)) ++ "%")
                         (lower s) = true.
Proof.
  intros d0 fault keywords limit results conn Hall Hrun r Hin.
  unfold RecipeSearch.search_recipes_by_keywords in Hrun.
  destruct (VectorDB.find_similar_recipes fault (join " " keywords) limit d0)
    as [[found | e] d] eqn:Hfind; [| discriminate].
  injection Hrun as <- _.
  destruct (find_similar_recipes_results fault (join " " keywords) limit d0
              found) as (_ & Hrows).
  { rewrite Hfind. reflexivity. }
  destruct (Hrows r Hin) as (_ & stored & s & term & Hst & -> & Hing & Hterm & Hlike).
  exists stored, s.
  rewrite <- (parse_ingredients_phrase keywords Hall term Hterm).
  auto.
Qed.

(** The keywords chicken and tomato; of the two rows only the one with
    "chicken tomato" in its ingredients is returned. *)
Lemma X19_keywords_are_searched_as_one_phrase_witness :
  let soup :=
    VectorDB.mkRow (PyInt 1) (PyStr "Soup") PyNone
                   (PyStr "Chicken tomato stock") PyNone (VectorDB.JArray []) in
  let curry :=
    VectorDB.mkRow (PyInt 2) (PyStr "Curry") PyNone
                   (PyStr "chicken, tomato") PyNone (VectorDB.JArray []) in
  exists stored s,
    In stored (VectorDB.table (VectorDB.connected [soup; curry]))
    /\ VectorDB.to_recipe soup = VectorDB.to_recipe stored
    /\ VectorDB.Ingredients stored = PyStr s
    /\ VectorDB.like
         ("%" ++ lower (strip (join " " ["chicken"; "tomato"]%string)) ++ "%")
         (lower s) = true.
Proof.
  cbv zeta.
  apply (X19_keywords_are_searched_as_one_phrase
           (VectorDB.connected
              [VectorDB.mkRow (PyInt 1) (PyStr "Soup") PyNone
                 (PyStr "Chicken tomato stock") PyNone (VectorDB.JArray []);
               VectorDB.mkRow (PyInt 2) (PyStr "Curry") PyNone
                 (PyStr "chicken, tomato") PyNone (VectorDB.JArray [])])
           VectorDB.no_faults ["chicken"; "tomato"]%string
           RecipeSearch.default_limit
           [VectorDB.to_recipe
              (VectorDB.mkRow (PyInt 1) (PyStr "Soup") PyNone
                 (PyStr "Chicken tomato stock") PyNone (VectorDB.JArray []))]
           (Some (VectorDB.mkDb
                    [VectorDB.mkRow (PyInt 1) (PyStr "Soup") PyNone
                       (PyStr "Chicken tomato stock") PyNone (VectorDB.JArray []);
                     VectorDB.mkRow (PyInt 2) (PyStr "Curry") PyNone
                       (PyStr "chicken, tomato") PyNone (VectorDB.JArray [])]
                    [] 2
                    [VectorDB.SelectCount;
                     VectorDB.SelectMatching ["%chicken tomato%"%string] 3],
                  true))).
  - intros kw [<- | [<- | []]]; reflexivity.
  - vm_compute. reflexivity.
  - left. reflexivity.
Defined.

Lemma process_message_answers (g : CookingAssistant.gemini) (message : string) :
  exists reply, CookingAssistant.process_message g message = Ok reply.
Proof.
  unfold CookingAssistant.process_message.
  destruct (CookingAssistant.generate g message) as [r | e].
  - exists r. reflexivity.
  - exists CookingAssistant.error_fallback. reflexivity.
Qed.

Lemma process_message_call_raises (g : CookingAssistant.gemini)
      (message : string) (e : exn) :
  CookingAssistant.generate_content g (CookingAssistant.api_key g)
    (message ++ CookingAssistant.instruction) = Raise e ->
  CookingAssistant.process_message g message
  = Ok CookingAssistant.error_fallback.
Proof.
  intros Hcall.
  unfold CookingAssistant.process_message, CookingAssistant.generate,
         CookingAssistant.and_then.
  destruct (CookingAssistant.import_genai g); [| reflexivity].
  destruct (CookingAssistant.configure g (CookingAssistant.api_key g));
    [| reflexivity].
  rewrite Hcall. reflexivity.
Qed.

(** X21. The [/chat] route never raises and never answers with its own
    error payload: since [process_message] handles every exception
    itself, the payload is always [{"response": ...}], and when the call
    to the model raises the response is the assistant's apology. *)
Theorem X21_chat_always_answers_with_a_response :
  forall (g : CookingAssistant.gemini) (message : string),
    (exists reply,
        CookingAssistant.process_message g message = Ok reply
        /\ Api.chat g message = Ok [("response"%string, PyStr reply)])
    /\ Api.chat g message <> Ok [("error"%string, PyStr Api.chat_error)]
    /\ (forall e,
          CookingAssistant.generate_content g (CookingAssistant.api_key g)
            (message ++ CookingAssistant.instruction) = Raise e ->
          Api.chat g message
          = Ok [("response"%string, PyStr CookingAssistant.error_fallback)]).
Proof.
  intros g message.
  destruct (process_message_answers g message) as (reply & Hreply).
  split; [| split].
  - exists reply. split; [exact Hreply |].
    unfold Api.chat. rewrite Hreply. reflexivity.
  - unfold Api.chat. rewrite Hreply. discriminate.
  - intros e Hcall. unfold Api.chat.
    rewrite (process_message_call_raises g message e Hcall). reflexivity.
Qed.

(** A model whose call times out. *)
Lemma X21_chat_always_answers_witness :
  Api.chat
    (CookingAssistant.mkGemini (Ok tt) (Some "key"%string) (fun _ => Ok tt)
       (fun _ _ => Raise (mkExn Timeout "timed out")))
    "What can I make with chicken?"
  = Ok [("response"%string, PyStr CookingAssistant.error_fallback)].
Proof.
  destruct (X21_chat_always_answers_with_a_response
              (CookingAssistant.mkGemini (Ok tt) (Some "key"%string)
                 (fun _ => Ok tt)
                 (fun _ _ => Raise (mkExn Timeout "timed out")))
              "What can I make with chicken?") as (_ & _ & Hraise).
  apply (Hraise (mkExn Timeout "timed out")). reflexivity.
Defined.
